(** * Ledger and inventory reconciliation of the billing backend

    A shallow embedding of the purchase routes (the second half of
    src/routes/party.js), of the payment routes (src/unnamed/part_003)
    and of the Payment model (src/models/Payment.js), and the properties
    of the ledger and of the inventory that the specification states
    about them.  The models of parties, items and purchases
    (models/Party.js, models/Item.js, models/Purchase.js) are not among
    the sources: what the routes need of them is modelled from the
    specification or taken as a parameter, and says so.

    Conventions of the embedding:
    - a JavaScript number is an exact rational ([Q]), and two numbers
      are compared with [Qeq], the way [===] compares the values of two
      doubles; the rounding of IEEE doubles is not modelled there, and
      what is stated on these routes does not depend on it;
    - the round trip of a purchase does depend on it: the purchase
      routes are embedded a second time ([Doubles]) over a number type
      given by its operations, of which [binary64] is the double of the
      engine;
    - a Mongo ObjectId is a natural number; a collection is the list of
      its documents in insertion order;
    - an [async] function is a function of the store that returns the
      new store and either a value or the exception thrown; writes made
      before a [throw] stay in the store;
    - [console.error] and the calls into the ledger are recorded in a
      trace kept inside the store, so that "is invoked" is observable. *)

From Stdlib Require Import List String Ascii Bool Arith ZArith NArith QArith
  Lia Lqa DecimalString DecimalPos DecimalN PrimFloat FloatAxioms.
Import ListNotations.

Open Scope list_scope.
Open Scope string_scope.
Open Scope Q_scope.

Definition ObjectId := nat.
Bind Scope nat_scope with ObjectId.

(** ** Documents *)

(** models/Party.js is not among the sources; the fields are those the
    routes read and write. *)
Module PartyDoc.
Record t := mk {
  _id : ObjectId;
  name : string;
  phoneNumber : string;
  type : option string;
  balance : Q }.
End PartyDoc.

(** models/Item.js is not among the sources; the fields are those the
    routes and server.js read and write. *)
Module ItemDoc.
Record t := mk {
  _id : ObjectId;
  productName : string;
  isUniversal : bool;
  openingStock : Q }.

Definition withStock (s : Q) (i : t) : t :=
  mk (_id i) (productName i) (isUniversal i) s.
End ItemDoc.

(** A line item of a purchase, as the routes use it: [id] names the
    item, [quantity] is in kg. *)
Module LineItem.
Record t := mk {
  id : ObjectId;
  quantity : Q;
  price : Q }.
End LineItem.

Module PurchaseDoc.
Record t := mk {
  _id : ObjectId;
  billNo : string;
  supplierName : string;
  phoneNumber : string;
  items : list LineItem.t;
  totalAmount : Q;
  date : string;
  status : string;
  pdfUri : option string;
  partyId : option ObjectId }.
End PurchaseDoc.

(** paymentSchema of models/Payment.js. *)
Module PaymentDoc.
Record t := mk {
  _id : ObjectId;
  paymentNo : string;
  type : string;
  partyName : string;
  phoneNumber : string;
  amount : Q;
  totalAmount : Q;
  date : string;
  status : string;
  description : option string;
  paymentMethod : string;
  reference : option string;
  partyId : option ObjectId }.
End PaymentDoc.

(** ** The store and the trace *)

Inductive Operation := add | subtract | set.

Inductive Event :=
| ConsoleError (msg : string)
| UpdatePartyBalanceCalled (paymentNo : string)
| PartyUpdateBalance (party : ObjectId) (amount : Q) (op : Operation).

Record Db := mkDb {
  parties : list PartyDoc.t;
  stock : list ItemDoc.t;
  purchases : list PurchaseDoc.t;
  payments : list PaymentDoc.t;
  nextId : ObjectId;
  trace : list Event }.

Definition setParties (l : list PartyDoc.t) (d : Db) : Db :=
  mkDb l (stock d) (purchases d) (payments d) (nextId d) (trace d).
Definition setStock (l : list ItemDoc.t) (d : Db) : Db :=
  mkDb (parties d) l (purchases d) (payments d) (nextId d) (trace d).
Definition setPurchases (l : list PurchaseDoc.t) (d : Db) : Db :=
  mkDb (parties d) (stock d) l (payments d) (nextId d) (trace d).
Definition setPayments (l : list PaymentDoc.t) (d : Db) : Db :=
  mkDb (parties d) (stock d) (purchases d) l (nextId d) (trace d).
Definition bumpId (d : Db) : Db :=
  mkDb (parties d) (stock d) (purchases d) (payments d) (S (nextId d)) (trace d).
Definition record (e : Event) (d : Db) : Db :=
  mkDb (parties d) (stock d) (purchases d) (payments d) (nextId d)
       (trace d ++ [e])%list.

(** ** Async computations: state and exceptions *)

Inductive Exn :=
| ValidationError
| DuplicateKey
| CastError
| StoreError
| Error (msg : string).

Inductive Outcome (A : Type) :=
| Returned (a : A)
| Thrown (e : Exn).
Arguments Returned {A} a.
Arguments Thrown {A} e.

Definition Async (A : Type) := Db -> Db * Outcome A.

Definition ret {A} (a : A) : Async A := fun d => (d, Returned a).
Definition throw {A} (e : Exn) : Async A := fun d => (d, Thrown e).
Definition bind {A B} (m : Async A) (k : A -> Async B) : Async B :=
  fun d => match m d with
           | (d', Returned a) => k a d'
           | (d', Thrown e) => (d', Thrown e)
           end.
Definition tryCatch {A} (m : Async A) (h : Exn -> Async A) : Async A :=
  fun d => match m d with
           | (d', Returned a) => (d', Returned a)
           | (d', Thrown e) => h e d'
           end.
Definition get {A} (f : Db -> A) : Async A := fun d => (d, Returned (f d)).
Definition modify (f : Db -> Db) : Async unit := fun d => (f d, Returned tt).
Definition consoleError (msg : string) : Async unit :=
  modify (record (ConsoleError msg)).
Definition when (b : bool) (m : Async unit) : Async unit :=
  if b then m else ret tt.

Declare Scope async_scope.
Delimit Scope async_scope with async.
Notation "x <- m ;; k" := (bind m (fun x => k))
  (at level 61, m at next level, right associativity) : async_scope.
Notation "m ;;; k" := (bind m (fun _ => k))
  (at level 61, right associativity) : async_scope.
Open Scope async_scope.

(** [for (const x of l) { body }] *)
Fixpoint forOf {A} (l : list A) (body : A -> Async unit) : Async unit :=
  match l with
  | [] => ret tt
  | x :: r => body x ;;; forOf r body
  end.

(** What a route answers: the HTTP status and, when a document is
    returned, its id. *)
Record Response := mkRes { statusCode : nat; docId : option ObjectId }.

(** ** Strings *)

Definition truthy (s : option string) : bool :=
  match s with
  | Some s => negb (s =? "")%string
  | None => false
  end.

Definition isDigit (c : ascii) : bool :=
  ((48 <=? nat_of_ascii c) && (nat_of_ascii c <=? 57))%nat.

Definition isSpace (c : ascii) : bool :=
  let n := nat_of_ascii c in
  ((n =? 32) || ((9 <=? n) && (n <=? 13)))%nat.

Fixpoint allChars (p : ascii -> bool) (s : string) : bool :=
  match s with
  | EmptyString => true
  | String c r => p c && allChars p r
  end.

Fixpoint filterChars (p : ascii -> bool) (s : string) : string :=
  match s with
  | EmptyString => EmptyString
  | String c r => if p c then String c (filterChars p r) else filterChars p r
  end.

Fixpoint dropWhile (p : ascii -> bool) (s : string) : string :=
  match s with
  | EmptyString => EmptyString
  | String c r => if p c then dropWhile p r else s
  end.

Definition rev_string (s : string) : string :=
  string_of_list_ascii (rev (list_ascii_of_string s)).

(** [String.prototype.trim] *)
Definition trim (s : string) : string :=
  rev_string (dropWhile isSpace (rev_string (dropWhile isSpace s))).

(** [s.slice(n)] *)
Definition slice (n : nat) (s : string) : string :=
  substring n (String.length s - n) s.

Fixpoint splitOn (sep : ascii) (s : string) : list string :=
  match s with
  | EmptyString => [EmptyString]
  | String c r =>
      if Ascii.eqb c sep then EmptyString :: splitOn sep r
      else match splitOn sep r with
           | [] => [String c EmptyString]
           | w :: ws => String c w :: ws
           end
  end.

Definition digits (lo hi : nat) (s : string) : bool :=
  (allChars isDigit s && (lo <=? String.length s) && (String.length s <=? hi))%nat.

Definition includes (l : list string) (s : string) : bool :=
  existsb (String.eqb s) l.

Definition maxlength (n : nat) (s : option string) : bool :=
  match s with
  | Some s => (String.length s <=? n)%nat
  | None => true
  end.

(** [phoneNumber.replace(/[^\d+]/g, '')], then the country prefix
    (the pre-save hook of models/Payment.js). *)
Definition sanitizePhone (phone : string) : string :=
  let cleaned := filterChars (fun c => isDigit c || Ascii.eqb c "+") phone in
  if String.prefix "+" cleaned then cleaned else "+91" ++ cleaned.

(** ** Numbers *)

Definition isZero (x : Q) : bool := Qeq_bool x 0.
Definition Qltb (x y : Q) : bool := negb (Qle_bool y x).

(** [parseInt(s, 10)] on a string of decimal digits, and the decimal
    writing of a natural number in a template string. *)
Definition parseInt (s : string) : N :=
  match NilEmpty.uint_of_string s with
  | Some u => N.of_uint u
  | None => 0%N
  end.

Definition toString (n : N) : string := NilZero.string_of_uint (N.to_uint n).

(** ** The party ledger *)

Module Party.
Import PartyDoc.

Definition findById (id : ObjectId) : Async (option PartyDoc.t) :=
  get (fun d => find (fun p => (_id p =? id)%nat) (parties d)).

Fixpoint replace (p : PartyDoc.t) (l : list PartyDoc.t) : list PartyDoc.t :=
  match l with
  | [] => []
  | x :: r => if (_id x =? _id p)%nat then p :: r else x :: replace p r
  end.

Definition save (p : PartyDoc.t) : Async unit :=
  modify (fun d => setParties (replace p (parties d)) d).

Definition withBalance (b : Q) (p : PartyDoc.t) : PartyDoc.t :=
  mk (_id p) (name p) (phoneNumber p) (type p) b.

Definition adjust (operation : Operation) (current amount : Q) : Q :=
  match operation with
  | add => current + amount
  | subtract => current - amount
  | set => amount
  end.

(** Modelled from the spec: [Party.updateBalance] of models/Party.js,
    which is not among the sources.  "[add]/[subtract] apply the signed
    delta to current balance; [set] overwrites.  Fails with NotFound
    when the referenced party id does not resolve."  The message is the
    one routes/party.js tests for. *)
Definition updateBalance (partyId : ObjectId) (amount : Q)
    (operation : Operation) : Async PartyDoc.t :=
  modify (record (PartyUpdateBalance partyId amount operation)) ;;;
  found <- findById partyId ;;
  match found with
  | None => throw (Error "Party not found")
  | Some p =>
      let p' := withBalance (adjust operation (balance p) amount) p in
      save p' ;;; ret p'
  end.

(** Modelled from the spec: [Party.findOrCreate] of models/Party.js,
    which is not among the sources.  "Lookup by exact (name, phone)
    pair; if found, return it unchanged; else create with balance = 0.
    Phone is normalized before comparison/storage." *)
Definition findOrCreate (name' phone : string) (type' : option string)
    : Async PartyDoc.t :=
  let phone' := sanitizePhone phone in
  found <- get (fun d =>
    find (fun p => (name p =? name')%string && (phoneNumber p =? phone')%string)
         (parties d)) ;;
  match found with
  | Some p => ret p
  | None =>
      id <- get nextId ;;
      let p := mk id name' phone' type' 0 in
      modify (fun d => bumpId (setParties (parties d ++ [p])%list d)) ;;;
      ret p
  end.
End Party.

(** ** The Payment model (src/models/Payment.js) *)

Module Payment.
Import PaymentDoc.

(** The validators of [paymentSchema], run by [save()]. *)
Definition phoneValid (v : string) : bool :=
  let s := filterChars (fun c => negb (isSpace c)) v in
  let s := if String.prefix "+" s then slice 1 s else s in
  match s with
  | String c r =>
      (isDigit c && negb (Ascii.eqb c "0") && digits 1 14 r)%bool
  | EmptyString => false
  end.

Definition dateValid (v : string) : bool :=
  match splitOn "/" v with
  | [m; d; y] => digits 1 2 m && digits 1 2 d && digits 4 4 y
  | _ => false
  end.

Definition validate (p : PaymentDoc.t) : bool :=
  negb (paymentNo p =? "")%string
  && includes ["payment-in"; "payment-out"] (type p)
  && negb (partyName p =? "")%string
  && (String.length (partyName p) <=? 100)%nat
  && negb (phoneNumber p =? "")%string
  && phoneValid (phoneNumber p)
  && Qle_bool 0 (amount p)
  && Qle_bool 0 (totalAmount p)
  && negb (date p =? "")%string
  && dateValid (date p)
  && includes ["pending"; "completed"; "cancelled"] (status p)
  && maxlength 500 (description p)
  && includes ["cash"; "bank_transfer"; "cheque"; "upi"; "card"; "other"]
       (paymentMethod p)
  && maxlength 100 (reference p).

(** [paymentSchema.pre('save')] *)
Definition preSave (p : PaymentDoc.t) : PaymentDoc.t :=
  let phone :=
    if negb (phoneNumber p =? "")%string then sanitizePhone (phoneNumber p)
    else phoneNumber p in
  let total :=
    if isZero (totalAmount p) && negb (isZero (amount p)) then amount p
    else totalAmount p in
  mk (_id p) (paymentNo p) (type p) (partyName p) phone (amount p) total
     (date p) (status p) (description p) (paymentMethod p) (reference p)
     (partyId p).

Definition findById (id : ObjectId) : Async (option PaymentDoc.t) :=
  get (fun d => find (fun p => (_id p =? id)%nat) (payments d)).

Fixpoint replace (p : PaymentDoc.t) (l : list PaymentDoc.t)
    : list PaymentDoc.t :=
  match l with
  | [] => []
  | x :: r => if (_id x =? _id p)%nat then p :: r else x :: replace p r
  end.

Fixpoint remove (id : ObjectId) (l : list PaymentDoc.t) : list PaymentDoc.t :=
  match l with
  | [] => []
  | x :: r => if (_id x =? id)%nat then r else x :: remove id r
  end.

Definition findByIdAndDelete (id : ObjectId) : Async unit :=
  modify (fun d => setPayments (remove id (payments d)) d).

(** [payment.save()]: validation, the pre-save hook, then the write.
    A new document is inserted under the unique index on [paymentNo];
    a loaded one is written back under its [_id] ([paymentNo] is
    written by no route). *)
Definition save (isNew : bool) (p : PaymentDoc.t) : Async PaymentDoc.t :=
  if negb (validate p) then throw ValidationError
  else
    let p' := preSave p in
    if isNew then
      taken <- get (fun d =>
        existsb (fun x => (paymentNo x =? paymentNo p')%string) (payments d)) ;;
      if (taken : bool) then throw DuplicateKey
      else modify (fun d => setPayments (payments d ++ [p'])%list d) ;;; ret p'
    else
      modify (fun d => setPayments (replace p' (payments d)) d) ;;; ret p'.

Definition prefixOf (type : string) : string :=
  if (type =? "payment-in")%string then "PAY-IN" else "PAY-OUT".

(** [findOne({ paymentNo: { $regex: `^${prefix}-` } }).sort({ paymentNo: -1 })]:
    the matching document whose [paymentNo] is greatest in the order of
    strings. *)
Fixpoint greatest (best : option PaymentDoc.t) (l : list PaymentDoc.t)
    : option PaymentDoc.t :=
  match l with
  | [] => best
  | x :: r =>
      match best with
      | Some b =>
          if String.ltb (paymentNo b) (paymentNo x) then greatest (Some x) r
          else greatest best r
      | None => greatest (Some x) r
      end
  end.

Definition findLast (prefix : string) : Async (option PaymentDoc.t) :=
  get (fun d =>
    greatest None
      (filter (fun p => String.prefix (prefix ++ "-") (paymentNo p))
              (payments d))).

(** [paymentNo.match(new RegExp(`^${prefix}-(\\d+)$`))]: the captured
    digits. *)
Definition matchNumber (prefix s : string) : option string :=
  let head := prefix ++ "-" in
  if String.prefix head s then
    let tail := slice (String.length head) s in
    if digits 1 (String.length tail) tail then Some tail else None
  else None.

Definition generateNextPaymentNumber (type : string) : Async string :=
  tryCatch
    (let prefix := prefixOf type in
     lastPayment <- findLast prefix ;;
     match lastPayment with
     | None => ret (prefix ++ "-1")
     | Some lastPayment =>
         match matchNumber prefix (paymentNo lastPayment) with
         | None => ret (prefix ++ "-1")
         | Some m =>
             let lastNumber := parseInt m in
             ret (prefix ++ "-" ++ toString (lastNumber + 1))
         end
     end)
    (fun error =>
       consoleError "Error generating payment number:" ;;;
       let prefix := prefixOf type in
       ret (prefix ++ "-1")).

Definition updatePartyBalance (payment : PaymentDoc.t) : Async unit :=
  tryCatch
    (modify (record (UpdatePartyBalanceCalled (paymentNo payment))) ;;;
     match partyId payment with
     | None => ret tt
     | Some pid =>
         let operation :=
           if (type payment =? "payment-in")%string then subtract
           else subtract in
         _ <- Party.updateBalance pid (amount payment) operation ;;
         ret tt
     end)
    (fun error =>
       consoleError "Error updating party balance:" ;;; throw error).
End Payment.

(** ** Routes *)

(** The handler of a route: the body of its [try], and its [catch]
    that turns the exception into a response. *)
Definition respond (body : Async Response) (onError : Exn -> Async Response)
    (d : Db) : Db * Response :=
  match tryCatch body onError d with
  | (d', Returned r) => (d', r)
  | (d', Thrown _) => (d', mkRes 500 None)
  end.

Definition isValidationError (e : Exn) : bool :=
  match e with
  | ValidationError => true
  | _ => false
  end.

Definition orDefault (o : option string) (v : string) : string :=
  match o with
  | Some s => s
  | None => v
  end.

Definition falsy (o : option Q) : bool :=
  match o with
  | Some x => isZero x
  | None => true
  end.

Definition isSome {A} (o : option A) : bool :=
  match o with
  | Some _ => true
  | None => false
  end.

Definition statuses : list string := ["pending"; "completed"; "cancelled"].

(** *** The payment routes (src/unnamed/part_003) *)

Module PaymentRoutes.

(** [req.body] of POST and PUT; an absent field is [undefined]. *)
Record Body := mkBody {
  type : option string;
  partyName : option string;
  phoneNumber : option string;
  amount : option Q;
  totalAmount : option Q;
  date : option string;
  status : option string;
  description : option string;
  paymentMethod : option string;
  reference : option string }.

Definition onError (msg : string) (error : Exn) : Async Response :=
  consoleError msg ;;;
  if isValidationError error then ret (mkRes 400 None)
  else ret (mkRes 500 None).

(** POST /api/payments (lines 137-220) *)
Definition post (body : Body) : Db -> Db * Response :=
  respond
    (let type := orDefault (type body) "payment-in" in
     let status := orDefault (status body) "completed" in
     let paymentMethod := orDefault (paymentMethod body) "cash" in
     match partyName body, phoneNumber body, amount body, date body with
     | Some partyName, Some phoneNumber, Some amount, Some date =>
         if (partyName =? "") || (phoneNumber =? "") || isZero amount
            || (date =? "")
         then ret (mkRes 400 None)
         else if Qle_bool amount 0 then ret (mkRes 400 None)
         else
           paymentNo <- Payment.generateNextPaymentNumber type ;;
           party <- Party.findOrCreate partyName phoneNumber None ;;
           id <- get nextId ;;
           modify bumpId ;;;
           let payment :=
             PaymentDoc.mk id (trim paymentNo) type (trim partyName)
               (trim phoneNumber) amount
               (if falsy (totalAmount body) then amount
                else match totalAmount body with
                     | Some t => t
                     | None => amount
                     end)
               date status (option_map trim (description body))
               paymentMethod (option_map trim (reference body))
               (Some (PartyDoc._id party)) in
           payment <- Payment.save true payment ;;
           Payment.updatePartyBalance payment ;;;
           ret (mkRes 201 (Some (PaymentDoc._id payment)))
     | _, _, _, _ => ret (mkRes 400 None)
     end)
    (onError "Error creating payment:").

(** The assignments of PUT /api/payments/:id to the loaded document. *)
Definition assign (body : Body) (p : PaymentDoc.t) : PaymentDoc.t :=
  PaymentDoc.mk (PaymentDoc._id p) (PaymentDoc.paymentNo p)
    (PaymentDoc.type p)
    (if truthy (partyName body)
     then trim (orDefault (partyName body) "") else PaymentDoc.partyName p)
    (if truthy (phoneNumber body)
     then trim (orDefault (phoneNumber body) "")
     else PaymentDoc.phoneNumber p)
    (match amount body with
     | Some a => a
     | None => PaymentDoc.amount p
     end)
    (match totalAmount body with
     | Some t => t
     | None => PaymentDoc.totalAmount p
     end)
    (if truthy (date body)
     then orDefault (date body) "" else PaymentDoc.date p)
    (if truthy (status body)
     then orDefault (status body) "" else PaymentDoc.status p)
    (match description body with
     | Some s => Some (trim s)
     | None => PaymentDoc.description p
     end)
    (if truthy (paymentMethod body)
     then orDefault (paymentMethod body) ""
     else PaymentDoc.paymentMethod p)
    (match reference body with
     | Some s => Some (trim s)
     | None => PaymentDoc.reference p
     end)
    (PaymentDoc.partyId p).

(** PUT /api/payments/:id (lines 222-295) *)
Definition put (id : ObjectId) (body : Body) : Db -> Db * Response :=
  respond
    (found <- Payment.findById id ;;
     match found with
     | None => ret (mkRes 404 None)
     | Some payment =>
         let originalAmount := PaymentDoc.amount payment in
         let originalPartyId := PaymentDoc.partyId payment in
         payment <- Payment.save false (assign body payment) ;;
         (if negb (Qeq_bool originalAmount (PaymentDoc.amount payment))
             && isSome (PaymentDoc.partyId payment)
          then
            let reverseOperation :=
              if (PaymentDoc.type payment =? "payment-in") then add
              else add in
            match originalPartyId with
            | Some pid =>
                _ <- Party.updateBalance pid originalAmount
                       reverseOperation ;;
                Payment.updatePartyBalance payment
            | None => throw (Error "Party not found")
            end
          else ret tt) ;;;
         ret (mkRes 200 (Some (PaymentDoc._id payment)))
     end)
    (onError "Error updating payment:").

Definition withStatus (s : string) (p : PaymentDoc.t) : PaymentDoc.t :=
  PaymentDoc.mk (PaymentDoc._id p) (PaymentDoc.paymentNo p)
    (PaymentDoc.type p) (PaymentDoc.partyName p) (PaymentDoc.phoneNumber p)
    (PaymentDoc.amount p) (PaymentDoc.totalAmount p) (PaymentDoc.date p)
    s (PaymentDoc.description p) (PaymentDoc.paymentMethod p)
    (PaymentDoc.reference p) (PaymentDoc.partyId p).

(** PATCH /api/payments/:id/status (lines 297-340) *)
Definition patchStatus (id : ObjectId) (status : option string)
    : Db -> Db * Response :=
  respond
    (match status with
     | Some status =>
         if (status =? "") || negb (includes statuses status)
         then ret (mkRes 400 None)
         else
           found <- Payment.findById id ;;
           match found with
           | None => ret (mkRes 404 None)
           | Some payment =>
               let originalStatus := PaymentDoc.status payment in
               payment <- Payment.save false (withStatus status payment) ;;
               when (((originalStatus =? "completed")
                      && (status =? "cancelled"))
                     || ((originalStatus =? "cancelled")
                         && (status =? "completed")))
                 (Payment.updatePartyBalance payment) ;;;
               ret (mkRes 200 (Some (PaymentDoc._id payment)))
           end
     | None => ret (mkRes 400 None)
     end)
    (fun error =>
       consoleError "Error updating payment status:" ;;;
       ret (mkRes 500 None)).

(** DELETE /api/payments/:id (lines 342-373) *)
Definition delete (id : ObjectId) : Db -> Db * Response :=
  respond
    (found <- Payment.findById id ;;
     match found with
     | None => ret (mkRes 404 None)
     | Some payment =>
         match PaymentDoc.partyId payment with
         | Some pid =>
             if (PaymentDoc.status payment =? "completed") then
               let reverseOperation :=
                 if (PaymentDoc.type payment =? "payment-in") then add
                 else add in
               _ <- Party.updateBalance pid (PaymentDoc.amount payment)
                      reverseOperation ;;
               ret tt
             else ret tt
         | None => ret tt
         end ;;;
         Payment.findByIdAndDelete id ;;;
         ret (mkRes 200 None)
     end)
    (fun error =>
       consoleError "Error deleting payment:" ;;;
       ret (mkRes 500 None)).
End PaymentRoutes.

(** *** The inventory store *)

Module Item.
Import ItemDoc.

Section Faults.
(** The lookups of the store can reject: [lookupFails id] says that
    [Item.findById(id)] does (an id that does not cast, a store
    error), [universalFails] that the lookup of the universal item
    does. *)
Variable lookupFails : ObjectId -> bool.
Variable universalFails : bool.

Definition findById (id : ObjectId) : Async (option ItemDoc.t) :=
  if lookupFails id then throw CastError
  else get (fun d => find (fun i => (_id i =? id)%nat) (stock d)).

(** [Item.findOne({ isUniversal: true, productName: 'Bardana' })] *)
Definition findUniversal : Async (option ItemDoc.t) :=
  if universalFails then throw StoreError
  else get (fun d =>
    find (fun i => isUniversal i && (productName i =? "Bardana"))
         (stock d)).
End Faults.

Fixpoint replace (i : ItemDoc.t) (l : list ItemDoc.t) : list ItemDoc.t :=
  match l with
  | [] => []
  | x :: r => if (_id x =? _id i)%nat then i :: r else x :: replace i r
  end.

Definition save (i : ItemDoc.t) : Async unit :=
  modify (fun d => setStock (replace i (stock d)) d).
End Item.

(** *** The Purchase model *)

Module Purchase.
Import PurchaseDoc.

Section Schema.
(** models/Purchase.js is not among the sources.  Its schema
    validators, the total its pre-save hook computes from the line
    items ("Will be calculated in pre-save middleware") and its bill
    numbering are parameters. *)
Variable validate : PurchaseDoc.t -> bool.
Variable total : list LineItem.t -> Q.
Variable nextBillNumber : list PurchaseDoc.t -> string.

Definition preSave (p : PurchaseDoc.t) : PurchaseDoc.t :=
  mk (_id p) (billNo p) (supplierName p) (phoneNumber p) (items p)
     (total (items p)) (date p) (status p) (pdfUri p) (partyId p).

Fixpoint replace (p : PurchaseDoc.t) (l : list PurchaseDoc.t)
    : list PurchaseDoc.t :=
  match l with
  | [] => []
  | x :: r => if (_id x =? _id p)%nat then p :: r else x :: replace p r
  end.

Definition save (isNew : bool) (p : PurchaseDoc.t) : Async PurchaseDoc.t :=
  if negb (validate p) then throw ValidationError
  else
    let p' := preSave p in
    modify (fun d =>
      setPurchases
        (if isNew then (purchases d ++ [p'])%list
         else replace p' (purchases d)) d) ;;;
    ret p'.

Definition generateNextBillNumber : Async string :=
  get (fun d => nextBillNumber (purchases d)).
End Schema.

Definition findById (id : ObjectId) : Async (option PurchaseDoc.t) :=
  get (fun d => find (fun p => (_id p =? id)%nat) (purchases d)).

Fixpoint remove (id : ObjectId) (l : list PurchaseDoc.t)
    : list PurchaseDoc.t :=
  match l with
  | [] => []
  | x :: r => if (_id x =? id)%nat then r else x :: remove id r
  end.

Definition findByIdAndDelete (id : ObjectId) : Async unit :=
  modify (fun d => setPurchases (remove id (purchases d)) d).
End Purchase.

(** *** The purchase routes (src/routes/party.js, from line 306) *)

Module PurchaseRoutes.

(** [req.body] of POST and PUT. *)
Record Body := mkBody {
  supplierName : option string;
  phoneNumber : option string;
  items : option (list LineItem.t);
  date : option string;
  status : option string;
  pdfUri : option string }.

(** [items.reduce((sum, item) => sum + item.quantity, 0)] *)
Definition totalKg (items : list LineItem.t) : Q :=
  fold_left (fun sum item => sum + LineItem.quantity item) items 0.

(** [JSON.stringify(originalItems) !== JSON.stringify(items)] compares
    the two lists field by field; a line item is taken to serialise to
    the fields the routes read and the spec lists. *)
Definition sameLine (a b : LineItem.t) : bool :=
  (LineItem.id a =? LineItem.id b)%nat
  && Qeq_bool (LineItem.quantity a) (LineItem.quantity b)
  && Qeq_bool (LineItem.price a) (LineItem.price b).

Fixpoint sameJSON (a b : list LineItem.t) : bool :=
  match a, b with
  | [], [] => true
  | x :: a', y :: b' => sameLine x y && sameJSON a' b'
  | _, _ => false
  end.

(** [if (x < 0) x = 0] *)
Definition clamp (x : Q) : Q := if Qltb x 0 then 0 else x.

Section Handlers.
Variable validate : PurchaseDoc.t -> bool.
Variable total : list LineItem.t -> Q.
Variable nextBillNumber : list PurchaseDoc.t -> string.
Variable lookupFails : ObjectId -> bool.
Variable universalFails : bool.

Definition onError (msg : string) (error : Exn) : Async Response :=
  consoleError msg ;;;
  if isValidationError error then ret (mkRes 400 None)
  else ret (mkRes 500 None).

(** The body of the loop "increase stock on purchase". *)
Definition increaseStock (purchaseItem : LineItem.t) : Async unit :=
  tryCatch
    (item <- Item.findById lookupFails (LineItem.id purchaseItem) ;;
     match item with
     | Some item =>
         let quantityInBags := LineItem.quantity purchaseItem / 30 in
         Item.save
           (ItemDoc.withStock
              (ItemDoc.openingStock item + quantityInBags) item)
     | None => ret tt
     end)
    (fun itemError => consoleError "Error updating stock for item").

(** The body of the loop "subtract what was previously added". *)
Definition restoreStock (purchaseItem : LineItem.t) : Async unit :=
  tryCatch
    (item <- Item.findById lookupFails (LineItem.id purchaseItem) ;;
     match item with
     | Some item =>
         let quantityInBags := LineItem.quantity purchaseItem / 30 in
         Item.save
           (ItemDoc.withStock
              (clamp (ItemDoc.openingStock item - quantityInBags)) item)
     | None => ret tt
     end)
    (fun itemError => consoleError "Error restoring stock for item").

(** The three updates of the universal item: [next] computes its new
    stock from the current one. *)
Definition updateBardana (next : Q -> Q) (msg : string) : Async unit :=
  tryCatch
    (bardanaItem <- Item.findUniversal universalFails ;;
     match bardanaItem with
     | Some bardanaItem =>
         Item.save
           (ItemDoc.withStock (next (ItemDoc.openingStock bardanaItem))
              bardanaItem)
     | None => ret tt
     end)
    (fun bardanaError => consoleError msg).

(** POST /api/purchases (lines 395-509) *)
Definition post (body : Body) : Db -> Db * Response :=
  respond
    (let status := orDefault (status body) "pending" in
     match supplierName body, phoneNumber body, items body, date body with
     | Some supplierName, Some phoneNumber, Some items, Some date =>
         if (supplierName =? "") || (phoneNumber =? "") || (date =? "")
         then ret (mkRes 400 None)
         else if (List.length items =? 0)%nat then ret (mkRes 400 None)
         else
           billNo <- Purchase.generateNextBillNumber nextBillNumber ;;
           party <- Party.findOrCreate supplierName phoneNumber
                      (Some "supplier") ;;
           id <- get nextId ;;
           modify bumpId ;;;
           purchase <- Purchase.save validate total true
             (PurchaseDoc.mk id billNo supplierName phoneNumber items 0
                date status (pdfUri body) (Some (PartyDoc._id party))) ;;
           _ <- Party.updateBalance (PartyDoc._id party)
                  (PurchaseDoc.totalAmount purchase) add ;;
           forOf items increaseStock ;;;
           updateBardana
             (fun openingStock =>
                let totalKgPurchased := totalKg items in
                let bardanaBagsToAdd := totalKgPurchased / 30 in
                openingStock + bardanaBagsToAdd)
             "Error updating Bardana stock:" ;;;
           ret (mkRes 201 (Some (PurchaseDoc._id purchase)))
     | _, _, _, _ => ret (mkRes 400 None)
     end)
    (onError "Error creating purchase:").

(** The assignments of PUT /api/purchases/:id to the loaded document. *)
Definition assign (body : Body) (p : PurchaseDoc.t) : PurchaseDoc.t :=
  PurchaseDoc.mk (PurchaseDoc._id p) (PurchaseDoc.billNo p)
    (if truthy (supplierName body)
     then orDefault (supplierName body) ""
     else PurchaseDoc.supplierName p)
    (if truthy (phoneNumber body)
     then orDefault (phoneNumber body) ""
     else PurchaseDoc.phoneNumber p)
    (match items body with
     | Some items => items
     | None => PurchaseDoc.items p
     end)
    (PurchaseDoc.totalAmount p)
    (if truthy (date body)
     then orDefault (date body) "" else PurchaseDoc.date p)
    (if truthy (status body)
     then orDefault (status body) "" else PurchaseDoc.status p)
    (match pdfUri body with
     | Some u => Some u
     | None => PurchaseDoc.pdfUri p
     end)
    (PurchaseDoc.partyId p).

(** PUT /api/purchases/:id (lines 511-636) *)
Definition put (id : ObjectId) (body : Body) : Db -> Db * Response :=
  respond
    (found <- Purchase.findById id ;;
     match found with
     | None => ret (mkRes 404 None)
     | Some purchase =>
         let originalTotalAmount := PurchaseDoc.totalAmount purchase in
         let originalItems := PurchaseDoc.items purchase in
         purchase <- Purchase.save validate total false
                       (assign body purchase) ;;
         match PurchaseDoc.partyId purchase with
         | Some pid =>
             if negb (Qeq_bool originalTotalAmount
                        (PurchaseDoc.totalAmount purchase))
             then
               let balanceDifference :=
                 PurchaseDoc.totalAmount purchase - originalTotalAmount in
               _ <- Party.updateBalance pid balanceDifference add ;;
               ret tt
             else ret tt
         | None => ret tt
         end ;;;
         match items body with
         | Some items =>
             if negb (sameJSON originalItems items) then
               forOf originalItems restoreStock ;;;
               forOf items increaseStock ;;;
               updateBardana
                 (fun openingStock =>
                    let originalTotalKg := totalKg originalItems in
                    let newTotalKg := totalKg items in
                    let kgDifference := newTotalKg - originalTotalKg in
                    let bardanaBagsDifference := kgDifference / 30 in
                    clamp (openingStock + bardanaBagsDifference))
                 "Error updating Bardana stock:"
             else ret tt
         | None => ret tt
         end ;;;
         ret (mkRes 200 (Some (PurchaseDoc._id purchase)))
     end)
    (onError "Error updating purchase:").

Definition withStatus (s : string) (p : PurchaseDoc.t) : PurchaseDoc.t :=
  PurchaseDoc.mk (PurchaseDoc._id p) (PurchaseDoc.billNo p)
    (PurchaseDoc.supplierName p) (PurchaseDoc.phoneNumber p)
    (PurchaseDoc.items p) (PurchaseDoc.totalAmount p)
    (PurchaseDoc.date p) s (PurchaseDoc.pdfUri p)
    (PurchaseDoc.partyId p).

(** PATCH /api/purchases/:id/status (lines 638-674) *)
Definition patchStatus (id : ObjectId) (status : option string)
    : Db -> Db * Response :=
  respond
    (match status with
     | Some status =>
         if (status =? "") || negb (includes statuses status)
         then ret (mkRes 400 None)
         else
           found <- Purchase.findById id ;;
           match found with
           | None => ret (mkRes 404 None)
           | Some purchase =>
               purchase <- Purchase.save validate total false
                             (withStatus status purchase) ;;
               ret (mkRes 200 (Some (PurchaseDoc._id purchase)))
           end
     | None => ret (mkRes 400 None)
     end)
    (fun error =>
       consoleError "Error updating purchase status:" ;;;
       ret (mkRes 500 None)).

(** DELETE /api/purchases/:id (lines 676-748) *)
Definition delete (id : ObjectId) : Db -> Db * Response :=
  respond
    (found <- Purchase.findById id ;;
     match found with
     | None => ret (mkRes 404 None)
     | Some purchase =>
         forOf (PurchaseDoc.items purchase) restoreStock ;;;
         updateBardana
           (fun openingStock =>
              let totalKgPurchased := totalKg (PurchaseDoc.items purchase) in
              let bardanaBagsToRestore := totalKgPurchased / 30 in
              clamp (openingStock - bardanaBagsToRestore))
           "Error restoring Bardana stock:" ;;;
         match PurchaseDoc.partyId purchase with
         | Some pid =>
             _ <- Party.updateBalance pid
                    (PurchaseDoc.totalAmount purchase) subtract ;;
             ret tt
         | None => ret tt
         end ;;;
         Purchase.findByIdAndDelete id ;;;
         ret (mkRes 200 None)
     end)
    (fun error =>
       consoleError "Error deleting purchase:" ;;;
       ret (mkRes 500 None)).
End Handlers.
End PurchaseRoutes.

(** The empty store. *)
Definition emptyDb : Db := mkDb [] [] [] [] 0%nat [].

(** * Observations

    What the theorems read off a store. *)

Definition partyOf (id : ObjectId) (d : Db) : option PartyDoc.t :=
  find (fun p => (PartyDoc._id p =? id)%nat) (parties d).

Definition balanceOf (id : ObjectId) (d : Db) : option Q :=
  option_map PartyDoc.balance (partyOf id d).

Definition paymentOf (id : ObjectId) (d : Db) : option PaymentDoc.t :=
  find (fun p => (PaymentDoc._id p =? id)%nat) (payments d).

Definition purchaseOf (id : ObjectId) (d : Db) : option PurchaseDoc.t :=
  find (fun p => (PurchaseDoc._id p =? id)%nat) (purchases d).

Definition itemOf (id : ObjectId) (l : list ItemDoc.t) : option ItemDoc.t :=
  find (fun i => (ItemDoc._id i =? id)%nat) l.

Definition stockOf (id : ObjectId) (l : list ItemDoc.t) : option Q :=
  option_map ItemDoc.openingStock (itemOf id l).

(** The events a handler appended to the trace. *)
Definition emitted (d d' : Db) : list Event :=
  skipn (List.length (trace d)) (trace d').

Definition isLedgerCall (e : Event) : bool :=
  match e with
  | PartyUpdateBalance _ _ _ => true
  | _ => false
  end.

Definition isReconciliation (e : Event) : bool :=
  match e with
  | UpdatePartyBalanceCalled _ => true
  | _ => false
  end.

Definition isConsoleError (e : Event) : bool :=
  match e with
  | ConsoleError _ => true
  | _ => false
  end.

(** [completed -> cancelled] or [cancelled -> completed]. *)
Definition toggles (from to : string) : bool :=
  ((from =? "completed") && (to =? "cancelled"))
  || ((from =? "cancelled") && (to =? "completed")).

Definition nextNumber (type : string) (d : Db) : string :=
  match Payment.generateNextPaymentNumber type d with
  | (_, Returned s) => s
  | (_, Thrown _) => ""
  end.

(** The number of the payment that [findLast] returns. *)
Definition lastNumberOf (prefix : string) (d : Db) : option string :=
  match Payment.findLast prefix d with
  | (_, Returned last) => option_map PaymentDoc.paymentNo last
  | (_, Thrown _) => None
  end.

Definition amountAndTotal (p : PaymentDoc.t) : Q * Q :=
  (PaymentDoc.amount p, PaymentDoc.totalAmount p).

Definition stockIs (j : ObjectId) (d : Db) (q : Q) : bool :=
  match stockOf j (stock d) with
  | Some v => Qeq_bool v q
  | None => false
  end.

Definition balanceIs (j : ObjectId) (d : Db) (q : Q) : bool :=
  match balanceOf j d with
  | Some v => Qeq_bool v q
  | None => false
  end.

(** * Well-formed stores and requests *)

Definition partiesWf (d : Db) : Prop :=
  NoDup (map PartyDoc._id (parties d))
  /\ Forall (fun p => (PartyDoc._id p < nextId d)%nat) (parties d).

Definition uniqueIds (l : list ItemDoc.t) : Prop :=
  NoDup (map ItemDoc._id l).

Definition purchasesFresh (d : Db) : Prop :=
  Forall (fun p => (PurchaseDoc._id p < nextId d)%nat) (purchases d).

Definition wellFormed (d : Db) : Prop :=
  partiesWf d /\ uniqueIds (stock d) /\ purchasesFresh d.

Definition nonnegative (lines : list LineItem.t) : Prop :=
  Forall (fun line => 0 <= LineItem.quantity line) lines.

Definition linesNonnegative (body : PurchaseRoutes.Body) : Prop :=
  forall lines, PurchaseRoutes.items body = Some lines -> nonnegative lines.

Definition stockNonnegative (l : list ItemDoc.t) : Prop :=
  Forall (fun i => 0 <= ItemDoc.openingStock i) l.

Definition stockOk (d : Db) : Prop := stockNonnegative (stock d).

(** * The steps of the routes as functions of the store

    The loops and the updates of routes/party.js (purchases) written as
    total functions; the lemmas below show that the routes compute
    them. *)

Definition credited (operation : Operation) (amount : Q) (p : PartyDoc.t)
    : PartyDoc.t :=
  Party.withBalance (Party.adjust operation (PartyDoc.balance p) amount) p.

Definition statusErr : string := "Error updating payment status:".

Definition stockErr : string := "Error updating stock for item".

Definition restoreErr : string := "Error restoring stock for item".

Definition bardanaErr : string := "Error updating Bardana stock:".

Definition increase (stock bags : Q) : Q := stock + bags.

Definition restore (stock bags : Q) : Q := PurchaseRoutes.clamp (stock - bags).

(** One adjustment of the stock of the item [id], as the loops and the
    universal-item updates of the purchase routes make it: look the item
    up, compute its new stock, save it. *)
Definition adjustStock (next : Q -> Q) (id : ObjectId) (l : list ItemDoc.t)
    : list ItemDoc.t :=
  match itemOf id l with
  | Some item =>
      Item.replace (ItemDoc.withStock (next (ItemDoc.openingStock item)) item) l
  | None => l
  end.

Definition isBardana (i : ItemDoc.t) : bool :=
  ItemDoc.isUniversal i && (ItemDoc.productName i =? "Bardana").

Definition universalOf (l : list ItemDoc.t) : option ItemDoc.t :=
  find isBardana l.

(** What the updates never change: ids, names and flags, in order. *)
Definition shape (l : list ItemDoc.t) : list (ObjectId * string * bool) :=
  map (fun i => (ItemDoc._id i, ItemDoc.productName i, ItemDoc.isUniversal i)) l.

(** One turn of a stock loop: the line is skipped with a logged error
    when its lookup rejects, and silently when it names no item. *)
Definition lineStep (lookupFails : ObjectId -> bool) (next : Q -> Q -> Q)
    (msg : string) (d : Db) (line : LineItem.t) : Db :=
  if lookupFails (LineItem.id line) then record (ConsoleError msg) d
  else match itemOf (LineItem.id line) (stock d) with
       | Some item =>
           setStock
             (Item.replace
                (ItemDoc.withStock
                   (next (ItemDoc.openingStock item)
                      (LineItem.quantity line / 30)) item)
                (stock d)) d
       | None => d
       end.

Definition bardanaStep (universalFails : bool) (next : Q -> Q) (msg : string)
    (d : Db) : Db :=
  if universalFails then record (ConsoleError msg) d
  else match universalOf (stock d) with
       | Some b =>
           setStock
             (Item.replace
                (ItemDoc.withStock (next (ItemDoc.openingStock b)) b)
                (stock d)) d
       | None => d
       end.

(** The same on the item collection alone. *)
Definition linesStock (lookupFails : ObjectId -> bool) (next : Q -> Q -> Q)
    (lines : list LineItem.t) (l : list ItemDoc.t) : list ItemDoc.t :=
  fold_left
    (fun l line =>
       if lookupFails (LineItem.id line) then l
       else adjustStock (fun s => next s (LineItem.quantity line / 30))
              (LineItem.id line) l)
    lines l.

Definition bardanaStock (universalFails : bool) (next : Q -> Q)
    (l : list ItemDoc.t) : list ItemDoc.t :=
  if universalFails then l
  else match universalOf l with
       | Some b => adjustStock next (ItemDoc._id b) l
       | None => l
       end.

(** The store after a purchase was created: the record, the ledger,
    the stock of each line, the universal item. *)
Definition created (total : list LineItem.t -> Q)
    (lookupFails : ObjectId -> bool) (universalFails : bool)
    (party : PartyDoc.t) (p : PurchaseDoc.t) (d1 : Db) : Db :=
  let lines := PurchaseDoc.items p in
  bardanaStep universalFails
    (fun s => s + PurchaseRoutes.totalKg lines / 30) bardanaErr
    (fold_left (lineStep lookupFails increase stockErr) lines
       (setParties
          (Party.replace (credited add (total lines) party) (parties d1))
          (record (PartyUpdateBalance (PartyDoc._id party) (total lines) add)
             (setPurchases (purchases d1 ++ [Purchase.preSave total p])%list
                (bumpId d1))))).

(** The store after the stock of a deleted purchase was restored. *)
Definition unstocked (lookupFails : ObjectId -> bool) (universalFails : bool)
    (p : PurchaseDoc.t) (d : Db) : Db :=
  bardanaStep universalFails
    (fun s =>
       PurchaseRoutes.clamp
         (s - PurchaseRoutes.totalKg (PurchaseDoc.items p) / 30))
    "Error restoring Bardana stock:"
    (fold_left (lineStep lookupFails restore restoreErr)
       (PurchaseDoc.items p) d).

Definition createStock (lookupFails : ObjectId -> bool) (universalFails : bool)
    (lines : list LineItem.t) (l : list ItemDoc.t) : list ItemDoc.t :=
  bardanaStock universalFails
    (fun s => s + PurchaseRoutes.totalKg lines / 30)
    (linesStock lookupFails increase lines l).

Definition deleteStock (lookupFails : ObjectId -> bool) (universalFails : bool)
    (lines : list LineItem.t) (l : list ItemDoc.t) : list ItemDoc.t :=
  bardanaStock universalFails
    (fun s => PurchaseRoutes.clamp (s - PurchaseRoutes.totalKg lines / 30))
    (linesStock lookupFails restore lines l).

(** [j] is the id of the universal item, and its lookup does not reject. *)
Definition isUniversalId (universalFails : bool) (l : list ItemDoc.t)
    (j : ObjectId) : bool :=
  negb universalFails
  && match universalOf l with
     | Some b => (ItemDoc._id b =? j)%nat
     | None => false
     end.

(** The bags the lines of a purchase move for the item [j]: one entry
    per line that names [j] and whose lookup does not reject. *)
Definition bagsOf (lookupFails : ObjectId -> bool) (j : ObjectId)
    (lines : list LineItem.t) : list Q :=
  map (fun line => LineItem.quantity line / 30)
    (filter (fun line => (LineItem.id line =? j)%nat
                         && negb (lookupFails (LineItem.id line))) lines).

Definition sumQ (l : list Q) : Q := fold_right Qplus 0 l.

Definition failing (lookupFails : ObjectId -> bool) (lines : list LineItem.t)
    : list LineItem.t :=
  filter (fun line => lookupFails (LineItem.id line)) lines.


Definition noFault (id : ObjectId) : bool := false.

(** * Before and after *)

Definition keeps (I : Db -> Prop) {A} (m : Async A) : Prop :=
  forall d, I d -> I (fst (m d)).

(** Since [d]: the parties are those of [d], and the trace has grown by
    console errors only. *)
Definition ledgerUntouched (d d' : Db) : Prop :=
  parties d' = parties d
  /\ exists l, trace d' = (trace d ++ l)%list
               /\ existsb isLedgerCall l = false
               /\ existsb isReconciliation l = false.

(** The requests of C2: the three purchase routes that move stock. *)
Inductive Request :=
| Create (body : PurchaseRoutes.Body)
| Update (id : ObjectId) (body : PurchaseRoutes.Body)
| Delete (id : ObjectId).

Definition serve (validate : PurchaseDoc.t -> bool)
    (total : list LineItem.t -> Q)
    (nextBillNumber : list PurchaseDoc.t -> string)
    (lookupFails : ObjectId -> bool) (universalFails : bool)
    (d : Db) (r : Request) : Db :=
  match r with
  | Create body =>
      fst (PurchaseRoutes.post validate total nextBillNumber lookupFails
             universalFails body d)
  | Update id body =>
      fst (PurchaseRoutes.put validate total lookupFails universalFails
             id body d)
  | Delete id => fst (PurchaseRoutes.delete lookupFails universalFails id d)
  end.

Definition requestNonnegative (r : Request) : Prop :=
  match r with
  | Create body => linesNonnegative body
  | Update _ body => linesNonnegative body
  | Delete _ => True
  end.

(** * Scenarios

    The absent Purchase model instantiated the way the spec words it (no
    validator, the total as the sum of quantity times price), and the
    stores and requests of the concrete cases. *)

Definition accepts (p : PurchaseDoc.t) : bool := true.

Definition quantityTimesPrice (lines : list LineItem.t) : Q :=
  fold_left (fun sum line => sum + LineItem.quantity line * LineItem.price line)
    lines 0.

Definition billNumber (l : list PurchaseDoc.t) : string :=
  "PUR-" ++ toString (N.of_nat (List.length l) + 1).

Definition failsOn (bad : ObjectId) (id : ObjectId) : bool := (id =? bad)%nat.

(** A shop with the universal item and one ordinary item, both empty. *)
Definition shop : Db :=
  mkDb [] [ItemDoc.mk 1 "Bardana" true 0; ItemDoc.mk 2 "Wheat" false 0]
       [] [] 10 [].

Definition wheat (kg : Q) : list LineItem.t := [LineItem.mk 2 kg 5].

Definition order (lines : list LineItem.t) : PurchaseRoutes.Body :=
  PurchaseRoutes.mkBody (Some "Asha Traders") (Some "9876543210") (Some lines)
    (Some "1/2/2025") None None.

Definition revision (lines : list LineItem.t) : PurchaseRoutes.Body :=
  PurchaseRoutes.mkBody None None (Some lines) None None None.

Definition receipt (type : string) (amount : Q) : PaymentRoutes.Body :=
  PaymentRoutes.mkBody (Some type) (Some "Ravi") (Some "9876543210")
    (Some amount) None (Some "1/2/2025") None None None None.

Definition newAmount (amount : Q) : PaymentRoutes.Body :=
  PaymentRoutes.mkBody None None None (Some amount) None None None None None
    None.

Definition rename : PaymentRoutes.Body :=
  PaymentRoutes.mkBody None (Some "Ravi Kumar") (Some "9123456780") None None
    (Some "3/4/2025") (Some "pending") (Some "advance") (Some "upi")
    (Some "R-17").

Fixpoint times {A} (n : nat) (f : A -> A) (a : A) : A :=
  match n with
  | O => a
  | S k => f (times k f a)
  end.

Definition shopPost := PurchaseRoutes.post accepts quantityTimesPrice
  billNumber noFault false.

Definition shopPatch := PurchaseRoutes.patchStatus accepts quantityTimesPrice.

(** create, update, delete of one purchase in [shop]: the update turns
    the quantity from 30 to -30. *)
Definition shopAfterCreate : Db := fst (shopPost (order (wheat 30)) shop).

Definition bardana : ItemDoc.t := ItemDoc.mk 1 "Bardana" true 0.

(** A purchase of 30 kg of the Bardana item itself and 60 kg of an item
    that is not in the store. *)
Definition bardanaOrder : list LineItem.t :=
  [LineItem.mk 1 30 5; LineItem.mk 7 60 1].

(** A completed purchase, for the status route. *)
Definition completedPurchase : Db :=
  fst (shopPatch 11 (Some "completed") shopAfterCreate).

(** One payment of 500, then its status toggled twice. *)
Definition paid : Db :=
  fst (PaymentRoutes.post (receipt "payment-in" 500) emptyDb).

Definition cancelled : Db :=
  fst (PaymentRoutes.patchStatus 1 (Some "cancelled") paid).

Definition restored : Db :=
  fst (PaymentRoutes.patchStatus 1 (Some "completed") cancelled).

Definition paidPayment : PaymentDoc.t :=
  PaymentDoc.mk 1 "PAY-IN-1" "payment-in" "Ravi" "+919876543210" 500 500
    "1/2/2025" "completed" None "cash" None (Some 0%nat).

(** Ten payments-in created one after the other. *)
Definition tenReceipts : Db :=
  times 10 (fun d => fst (PaymentRoutes.post (receipt "payment-in" 5) d))
    emptyDb.

Definition orphanPurchase : PurchaseDoc.t :=
  PurchaseDoc.mk 11 "PUR-1" "Asha Traders" "9876543210" (wheat 30) 150
    "1/2/2025" "pending" None (Some 10%nat).

(** A store whose purchase and payment name a party that was deleted. *)
Definition orphaned : Db :=
  mkDb [] (stock shopAfterCreate) (purchases shopAfterCreate) (payments paid)
       12 [].

(** * Validators, party routes, summary, startup and messaging

    The request validators (src/middleware/validation.js, and their
    later version with [validateItem] at the end of
    src/unnamed/part_003), the party routes (the first half of
    src/routes/party.js), the summary of models/Payment.js, the startup
    of server.js, and the WhatsApp service with its launcher and routes
    (src/unnamed/part_000, src/routes/whatsapp.js).

    A string is a sequence of ASCII characters: of the characters that
    [\s] matches, the ASCII ones are modelled. *)

(** ** JSON values *)

Module Js.

(** A value of a parsed JSON body.  A property that is absent reads as
    [undefined], here [None]. *)
#[warnings="-register-all"]
Inductive value :=
| Null
| Bool (b : bool)
| Num (x : Q)
| Str (s : string)
| Arr (l : list value)
| Obj (fields : list (string * value)).

Definition object := list (string * value).

(** [!!v] *)
Definition truthy (v : option value) : bool :=
  match v with
  | None => false
  | Some Null => false
  | Some (Bool b) => b
  | Some (Num x) => negb (isZero x)
  | Some (Str s) => negb (s =? "")
  | Some (Arr _) => true
  | Some (Obj _) => true
  end.

(** [o[k]] *)
Fixpoint prop (k : string) (o : object) : option value :=
  match o with
  | [] => None
  | (k', v) :: r => if (k' =? k) then Some v else prop k r
  end.

(** [o[k] = v]: an own property keeps its place, a new one comes last. *)
Fixpoint setProp (k : string) (v : value) (o : object) : object :=
  match o with
  | [] => [(k, v)]
  | (k', v') :: r =>
      if (k' =? k) then (k, v) :: r else (k', v') :: setProp k v r
  end.

(** What evaluating an expression gives: a value, or the TypeError of a
    call of something that is not a function. *)
Inductive result (A : Type) :=
| Ok (a : A)
| TypeError.
Arguments Ok {A} a.
Arguments TypeError {A}.

Section ToString.
(** [String(x)] of a number is the language's, not the repository's. *)
Variable numberToString : Q -> string.

(** [String(v)], as [RegExp.prototype.test] applies it to its
    argument: an array is its elements joined by commas, [null] among
    them written as the empty string. *)
Fixpoint toString (v : value) : string :=
  match v with
  | Null => "null"
  | Bool true => "true"
  | Bool false => "false"
  | Num x => numberToString x
  | Str s => s
  | Arr l =>
      (fix join (l : list value) : string :=
         match l with
         | [] => ""
         | x :: r =>
             let e := match x with
                      | Null => ""
                      | _ => toString x
                      end in
             match r with
             | [] => e
             | _ :: _ => e ++ "," ++ join r
             end
         end) l
  | Obj _ => "[object Object]"
  end.

Definition toStringOf (v : option value) : string :=
  match v with
  | Some v => toString v
  | None => "undefined"
  end.
End ToString.
End Js.

(** ** The summary of payments (src/models/Payment.js, lines 209-250) *)

Module PaymentSummary.

(** A document that [$group] puts out. *)
Record Row := mkRow {
  _id : string;
  totalAmount : Q;
  totalCount : nat;
  completedCount : nat;
  pendingCount : nat;
  cancelledCount : nat }.

Section Pipeline.
(** [createdAt] is a timestamp that the schema option [timestamps]
    adds; it is no field of the record.  The [$match] on it, between
    the dates that [new Date] reads from two strings, is a parameter. *)
Variable createdBetween : string -> string -> PaymentDoc.t -> bool.

(** The store can reject the aggregation: [aggregateFails] says that it
    does. *)
Variable aggregateFails : bool.

(** [$match: filter] *)
Definition matches (type startDate endDate : option string)
    (p : PaymentDoc.t) : bool :=
  (if truthy type then (PaymentDoc.type p =? orDefault type "") else true)
  && (if truthy startDate && truthy endDate
      then createdBetween (orDefault startDate "") (orDefault endDate "") p
      else true).

(** [$cond: [{ $eq: ['$status', s] }, 1, 0]] *)
Definition cond (s : string) (p : PaymentDoc.t) : nat :=
  if (PaymentDoc.status p =? s) then 1%nat else 0%nat.

(** The accumulators of [$group] take one more document. *)
Definition accumulate (p : PaymentDoc.t) (r : Row) : Row :=
  mkRow (_id r)
    (totalAmount r + PaymentDoc.amount p)
    (totalCount r + 1)
    (completedCount r + cond "completed" p)
    (pendingCount r + cond "pending" p)
    (cancelledCount r + cond "cancelled" p).

(** [$group] with [_id: '$type']: the document joins the row of its
    type, or starts it. *)
Fixpoint group (p : PaymentDoc.t) (rows : list Row) : list Row :=
  match rows with
  | [] => [accumulate p (mkRow (PaymentDoc.type p) 0 0 0 0 0)]
  | r :: rest =>
      if (_id r =? PaymentDoc.type p) then accumulate p r :: rest
      else r :: group p rest
  end.

Definition aggregate (type startDate endDate : option string)
    (l : list PaymentDoc.t) : list Row :=
  fold_left (fun rows p => group p rows)
    (filter (matches type startDate endDate) l) [].

Definition getPaymentSummary (type startDate endDate : option string)
    : Async (list Row) :=
  tryCatch
    (if aggregateFails then throw StoreError
     else get (fun d => aggregate type startDate endDate (payments d)))
    (fun error => throw error).
End Pipeline.
End PaymentSummary.

(** ** The party routes (src/routes/party.js, lines 1-305) *)

Module PartyRoutes.

(** [Party.findByIdAndDelete] *)
Fixpoint remove (id : ObjectId) (l : list PartyDoc.t) : list PartyDoc.t :=
  match l with
  | [] => []
  | x :: r => if (PartyDoc._id x =? id)%nat then r else x :: remove id r
  end.

Definition findByIdAndDelete (id : ObjectId) : Async unit :=
  modify (fun d => setParties (remove id (parties d)) d).

(** The operation that [Party.updateBalance] reads from one of the
    three strings the route lets through. *)
Definition operationOf (operation : string) : Operation :=
  if (operation =? "add") then add
  else if (operation =? "subtract") then subtract
  else set.

(** [error.message === 'Party not found'] *)
Definition isNotFound (error : Exn) : bool :=
  match error with
  | Error msg => (msg =? "Party not found")
  | _ => false
  end.

(** PATCH /api/parties/:id/balance (lines 191-231); [amount] is a
    number of the body, or absent.  [Party.updateBalance] can reject for
    another reason than a party that is missing (an id that does not
    cast, an error of the store): [updateFails] says that it does. *)
Definition patchBalance (updateFails : bool) (id : ObjectId)
    (amount : option Q) (operation : option string) : Db -> Db * Response :=
  respond
    (match amount with
     | None => ret (mkRes 400 None)
     | Some amount =>
         if negb (truthy operation) then ret (mkRes 400 None)
         else if negb (includes ["add"; "subtract"; "set"]
                         (orDefault operation ""))
         then ret (mkRes 400 None)
         else
           party <- (if updateFails then throw StoreError
                     else Party.updateBalance id amount
                            (operationOf (orDefault operation ""))) ;;
           ret (mkRes 200 (Some (PartyDoc._id party)))
     end)
    (fun error =>
       consoleError "Error updating party balance:" ;;;
       if isNotFound error then ret (mkRes 404 None)
       else ret (mkRes 500 None)).

(** POST /api/parties/find-or-create (lines 234-276) *)
Definition findOrCreate (name phoneNumber type : option string)
    : Db -> Db * Response :=
  respond
    (if negb (truthy name) || negb (truthy phoneNumber) || negb (truthy type)
     then ret (mkRes 400 None)
     else
       party <- Party.findOrCreate (orDefault name "")
                  (orDefault phoneNumber "") type ;;
       ret (mkRes 200 (Some (PartyDoc._id party))))
    (fun error =>
       consoleError "Error finding or creating party:" ;;;
       if isValidationError error then ret (mkRes 400 None)
       else ret (mkRes 500 None)).

(** DELETE /api/parties/:id (lines 279-303) *)
Definition delete (id : ObjectId) : Db -> Db * Response :=
  respond
    (found <- Party.findById id ;;
     match found with
     | None => ret (mkRes 404 None)
     | Some party =>
         findByIdAndDelete id ;;;
         ret (mkRes 200 None)
     end)
    (fun error =>
       consoleError "Error deleting party:" ;;;
       ret (mkRes 500 None)).
End PartyRoutes.

(** ** The launcher (src/unnamed/part_000, lines 219-260) *)

Module Start.

Definition requiredEnvVars : list string :=
  ["MONGODB_URI"; "CLOUDINARY_CLOUD_NAME"; "CLOUDINARY_API_KEY";
   "CLOUDINARY_API_SECRET"; "WASENDER_API_KEY"].

(** [process.exit(1)], or the server is started, after the uploads
    directory has been made when it was not there. *)
Inductive Outcome :=
| Exit (code : nat)
| Started (madeUploads : bool).

(** [configExists] and [uploadsExists] are what [fs.existsSync]
    answers for config.env and for the uploads directory, [env] is
    [process.env]. *)
Definition start (configExists uploadsExists : bool)
    (env : string -> option string) : Outcome :=
  if negb configExists then Exit 1
  else
    let missingVars :=
      filter (fun varName => negb (truthy (env varName))) requiredEnvVars in
    if (0 <? List.length missingVars)%nat then Exit 1
    else Started (negb uploadsExists).
End Start.

(** ** Startup (src/server.js, lines 74-103) *)

Module Server.
Section Startup.
(** [universalFails]: the lookup of the universal item rejects;
    [saveFails]: the save of the new item does. *)
Variable universalFails : bool.
Variable saveFails : bool.

(** [new Item({ ... }).save()].  models/Item.js is not among the
    sources: the new document gets a fresh id and comes last in the
    collection, or the save rejects. *)
Definition saveNew (productName : string) (isUniversal : bool)
    (openingStock : Q) : Async unit :=
  if saveFails then throw ValidationError
  else
    id <- get nextId ;;
    modify (fun d =>
      bumpId
        (setStock
           (stock d ++ [ItemDoc.mk id productName isUniversal openingStock])
           d)).

(** [initializeBardana]; what [console.log] prints is not recorded. *)
Definition initializeBardana : Async unit :=
  tryCatch
    (existingBardana <- Item.findUniversal universalFails ;;
     match existingBardana with
     | None => saveNew "Bardana" true 0
     | Some _ => ret tt
     end)
    (fun error => consoleError "❌ Error initializing Bardana:").
End Startup.
End Server.

(** ** src/middleware/validation.js *)

Module Validation.

(** [req.file], as multer fills it. *)
Record File := mkFile { mimetype : string; size : N }.

Record Request := mkReq { body : Js.object; file : option File }.

Definition setBody (b : Js.object) (req : Request) : Request :=
  mkReq b (file req).

(** What a middleware does with a request: it calls [next()], it
    answers with a status and an error, or it throws. *)
Inductive Step :=
| Next (req : Request)
| Answered (status : nat) (error : string)
| Raised.

(** [s.replace(/\s/g, '')] *)
Definition stripSpaces (s : string) : string :=
  filterChars (fun c => negb (isSpace c)) s.

(** [/^\+?[1-9]\d{1,14}$/.test(s)] *)
Definition phoneRegex (s : string) : bool :=
  let s := if String.prefix "+" s then slice 1 s else s in
  match s with
  | String c r => isDigit c && negb (Ascii.eqb c "0") && digits 1 14 r
  | EmptyString => false
  end.

(** [validatePhoneNumber]: [phoneNumber.replace] is a function on a
    string only. *)
Definition validatePhoneNumber (phoneNumber : option Js.value)
    : Js.result bool :=
  match phoneNumber with
  | Some (Js.Str s) => Js.Ok (phoneRegex (stripSpaces s))
  | _ => Js.TypeError
  end.

Definition validateFileType (mimetype : string) : bool :=
  let allowedTypes := ["application/pdf"] in
  includes allowedTypes mimetype.

Definition validateFileSize (size : N) (maxSize : option N) : bool :=
  let maxSize := match maxSize with
                 | Some m => m
                 | None => (10 * 1024 * 1024)%N
                 end in
  (size <=? maxSize)%N.

Definition sanitizePhoneNumber (phoneNumber : option Js.value)
    : Js.result string :=
  match phoneNumber with
  | Some (Js.Str s) =>
      let cleaned := stripSpaces s in
      Js.Ok (if String.prefix "+" cleaned then cleaned else "+" ++ cleaned)
  | _ => Js.TypeError
  end.

Definition validateUploadRequest (req : Request) : Step :=
  match file req with
  | None => Answered 400 "No file uploaded"
  | Some f =>
      if negb (validateFileType (mimetype f))
      then Answered 400 "Only PDF files are allowed"
      else if negb (validateFileSize (size f) None)
      then Answered 400 "File size exceeds maximum limit of 10MB"
      else Next req
  end.

(** [req.body.to = sanitizePhoneNumber(to); next()] *)
Definition sanitizeAndNext (req : Request) (to : option Js.value) : Step :=
  match sanitizePhoneNumber to with
  | Js.TypeError => Raised
  | Js.Ok s => Next (setBody (Js.setProp "to" (Js.Str s) (body req)) req)
  end.

Definition validateWhatsAppRequest (req : Request) : Step :=
  let to := Js.prop "to" (body req) in
  let text := Js.prop "text" (body req) in
  if negb (Js.truthy to) || negb (Js.truthy text)
  then Answered 400 "Phone number and text message are required"
  else
    match validatePhoneNumber to with
    | Js.TypeError => Raised
    | Js.Ok false => Answered 400 "Invalid phone number format"
    | Js.Ok true => sanitizeAndNext req to
    end.

Definition validateDocumentRequest (req : Request) : Step :=
  let to := Js.prop "to" (body req) in
  let text := Js.prop "text" (body req) in
  let documentUrl := Js.prop "documentUrl" (body req) in
  if negb (Js.truthy to) || negb (Js.truthy text)
     || negb (Js.truthy documentUrl)
  then Answered 400
         "Phone number, text message, and document URL are required"
  else
    match validatePhoneNumber to with
    | Js.TypeError => Raised
    | Js.Ok false => Answered 400 "Invalid phone number format"
    | Js.Ok true => sanitizeAndNext req to
    end.

(** [typeof v !== 'number' || v <= 0] *)
Definition notPositiveNumber (v : option Js.value) : bool :=
  match v with
  | Some (Js.Num x) => Qle_bool x 0
  | _ => true
  end.

Definition validateInvoiceRequest (req : Request) : Step :=
  let to := Js.prop "to" (body req) in
  let customerName := Js.prop "customerName" (body req) in
  let invoiceNo := Js.prop "invoiceNo" (body req) in
  let totalAmount := Js.prop "totalAmount" (body req) in
  let date := Js.prop "date" (body req) in
  if negb (Js.truthy to) || negb (Js.truthy customerName)
     || negb (Js.truthy invoiceNo) || negb (Js.truthy totalAmount)
     || negb (Js.truthy date)
  then Answered 400
    "Missing required fields: to, customerName, invoiceNo, totalAmount, date"
  else
    match validatePhoneNumber to with
    | Js.TypeError => Raised
    | Js.Ok false => Answered 400 "Invalid phone number format"
    | Js.Ok true =>
        if notPositiveNumber totalAmount
        then Answered 400 "Total amount must be a positive number"
        else sanitizeAndNext req to
    end.

(** [/^\d{4}-\d{2}-\d{2}$/.test(s)] *)
Definition dateRegex (s : string) : bool :=
  match list_ascii_of_string s with
  | [y1; y2; y3; y4; h1; m1; m2; h2; d1; d2] =>
      isDigit y1 && isDigit y2 && isDigit y3 && isDigit y4
      && Ascii.eqb h1 "-" && isDigit m1 && isDigit m2
      && Ascii.eqb h2 "-" && isDigit d1 && isDigit d2
  | _ => false
  end.

Definition quoted (s : string) : string :=
  String (ascii_of_nat 34) s ++ String (ascii_of_nat 34) EmptyString.

(** [typeof v !== 'number' || v < 0] *)
Definition notNonNegativeNumber (v : option Js.value) : bool :=
  match v with
  | Some (Js.Num x) => Qltb x 0
  | _ => true
  end.

Definition isUndefined (v : option Js.value) : bool :=
  match v with
  | None => true
  | Some _ => false
  end.

Section Item.
Variable numberToString : Q -> string.

(** [validateItem] (src/unnamed/part_003, lines 609-679) *)
Definition validateItem (req : Request) : Step :=
  let productName := Js.prop "productName" (body req) in
  let category := Js.prop "category" (body req) in
  let purchasePrice := Js.prop "purchasePrice" (body req) in
  let salePrice := Js.prop "salePrice" (body req) in
  let openingStock := Js.prop "openingStock" (body req) in
  let asOfDate := Js.prop "asOfDate" (body req) in
  let lowStockAlert := Js.prop "lowStockAlert" (body req) in
  if negb (Js.truthy productName) || negb (Js.truthy category)
     || isUndefined purchasePrice || isUndefined salePrice
     || isUndefined openingStock || negb (Js.truthy asOfDate)
     || isUndefined lowStockAlert
  then Answered 400
    "Missing required fields: productName, category, purchasePrice, salePrice, openingStock, asOfDate, lowStockAlert"
  else
    match productName with
    | Some (Js.Str name) =>
        if (String.length (trim name) =? 0)%nat
        then Answered 400 "Product name must be a non-empty string"
        else if negb (match category with
                      | Some (Js.Str c) => includes ["Primary"; "Kirana"] c
                      | _ => false
                      end)
        then Answered 400
               ("Category must be either " ++ quoted "Primary" ++ " or "
                ++ quoted "Kirana")
        else if notNonNegativeNumber purchasePrice
        then Answered 400 "Purchase price must be a non-negative number"
        else if notNonNegativeNumber salePrice
        then Answered 400 "Sale price must be a non-negative number"
        else if notNonNegativeNumber openingStock
        then Answered 400 "Opening stock must be a non-negative number"
        else if notNonNegativeNumber lowStockAlert
        then Answered 400 "Low stock alert must be a non-negative number"
        else
          if negb (dateRegex (Js.toStringOf numberToString asOfDate))
          then Answered 400 "As of date must be in YYYY-MM-DD format"
          else Next (setBody
                       (Js.setProp "productName" (Js.Str (trim name))
                          (body req)) req)
    | _ => Answered 400 "Product name must be a non-empty string"
    end.
End Item.
End Validation.

(** ** The WhatsApp service (src/unnamed/part_000, lines 1-218) *)

Module WhatsAppService.

(** What [axios.post] rejects with, in the fields that [handleError]
    reads: [response] is [None] for an error without a response, and
    the [data] of the response otherwise. *)
Record Failure := mkFailure {
  code : option string;
  response : option (option Js.value);
  message : string }.

(** What the request to the API comes to: a response with its [data],
    or a rejection. *)
Inductive Reply :=
| Resolved (data : option Js.value)
| Rejected (error : Failure).

(** The object that the service returns: [{ success: true, message,
    data }] or [{ success: false, error }]. *)
Inductive Result :=
| Success (message : string) (data : option Js.value)
| NoSuccess (error : Js.value).

Definition success (r : Result) : bool :=
  match r with
  | Success _ _ => true
  | NoSuccess _ => false
  end.

(** [v.k]: a TypeError on [undefined] and [null], [undefined] on a
    value that has no such property. *)
Definition member (k : string) (v : option Js.value)
    : Js.result (option Js.value) :=
  match v with
  | None => Js.TypeError
  | Some Js.Null => Js.TypeError
  | Some (Js.Obj fields) => Js.Ok (Js.prop k fields)
  | Some _ => Js.Ok None
  end.

(** [v?.k] *)
Definition optionalMember (k : string) (v : option Js.value)
    : option Js.value :=
  match v with
  | Some (Js.Obj fields) => Js.prop k fields
  | _ => None
  end.

(** [v || fallback] *)
Definition orElse (v : option Js.value) (fallback : string) : Js.value :=
  match v with
  | Some x => if Js.truthy v then x else Js.Str fallback
  | None => Js.Str fallback
  end.

(** The body of the request as it is sent: a property whose value is
    [undefined] is left out. *)
Fixpoint payloadOf (l : list (string * option Js.value)) : Js.object :=
  match l with
  | [] => []
  | (k, Some v) :: r => (k, v) :: payloadOf r
  | (_, None) :: r => payloadOf r
  end.

Definition handleError (error : Failure) : Result :=
  if match code error with
     | Some c => (c =? "ECONNABORTED")
     | None => false
     end
  then NoSuccess (Js.Str "Request timeout")
  else
    match response error with
    | Some data =>
        NoSuccess (orElse (optionalMember "error" data)
                     "Failed to send message")
    | None =>
        NoSuccess
          (if (message error =? "") then Js.Str "Network error occurred"
           else Js.Str (message error))
    end.

Section Service.
(** [process.env.WASENDER_API_KEY] and [..._BASE_URL]. *)
Variable WASENDER_API_KEY : option string.
Variable WASENDER_API_BASE_URL : option string.

(** [axios.post] to the send-message endpoint, as a function of the
    body it is given; the TypeError of a failing property access, in
    the fields that [handleError] reads ([message] is the engine's). *)
Variable post : Js.object -> Reply.
Variable typeError : string.

(** [sendTextMessage]; what [console.error] prints is not recorded. *)
Definition sendTextMessage (phoneNumber message : option Js.value)
    : Result :=
  match post (payloadOf [("to", phoneNumber); ("text", message)]) with
  | Rejected error => handleError error
  | Resolved data =>
      match member "success" data with
      | Js.TypeError => handleError (mkFailure None None typeError)
      | Js.Ok flag =>
          if Js.truthy flag
          then Success "Message sent successfully" data
          else
            match member "error" data with
            | Js.TypeError => handleError (mkFailure None None typeError)
            | Js.Ok e => NoSuccess (orElse e "Failed to send message")
            end
      end
  end.

Definition sendDocument (phoneNumber message documentUrl fileName
                         : option Js.value) : Result :=
  let payload :=
    payloadOf [("to", phoneNumber); ("text", message);
               ("documentUrl", documentUrl)] in
  let payload :=
    if Js.truthy fileName
    then (payload ++ payloadOf [("fileName", fileName)])%list
    else payload in
  match post payload with
  | Rejected error => handleError error
  | Resolved data =>
      match member "success" data with
      | Js.TypeError => handleError (mkFailure None None typeError)
      | Js.Ok flag =>
          if Js.truthy flag
          then Success "Document sent successfully" data
          else
            match member "error" data with
            | Js.TypeError => handleError (mkFailure None None typeError)
            | Js.Ok e => NoSuccess (orElse e "Failed to send document")
            end
      end
  end.

Definition isConfigured : bool :=
  truthy WASENDER_API_KEY && truthy WASENDER_API_BASE_URL.

(** [s.slice(-n)] *)
Definition sliceLast (n : nat) (s : string) : string :=
  slice (String.length s - n) s.

Record ConfigInfo := mkInfo {
  api_key : option string;
  api_base_url : option string;
  configured : bool }.

Definition getConfigInfo : ConfigInfo :=
  mkInfo
    (if truthy WASENDER_API_KEY
     then Some ("***" ++ sliceLast 4 (orDefault WASENDER_API_KEY ""))
     else None)
    WASENDER_API_BASE_URL
    isConfigured.

(** *** The routes (src/routes/whatsapp.js) *)

(** What a route comes to: the result of the service with a status,
    an error of the route or of its validator with a status, or the
    exception that the validator threw. *)
Inductive Outcome :=
| Replied (status : nat) (result : Result)
| Refused (status : nat) (error : string)
| Errored.

Definition notConfigured : string :=
  "WhatsApp service is not configured. Please check your environment variables.".

(** [if (result.success) res.json(result) else res.status(400).json(result)] *)
Definition reply (result : Result) : Outcome :=
  if success result then Replied 200 result else Replied 400 result.

(** POST /whatsapp/send-message (lines 14-40).  The service catches
    what its request throws, so the [catch] of the route has nothing to
    catch. *)
Definition sendMessageRoute (req : Validation.Request) : Outcome :=
  match Validation.validateWhatsAppRequest req with
  | Validation.Answered status error => Refused status error
  | Validation.Raised => Errored
  | Validation.Next req =>
      if negb isConfigured then Refused 500 notConfigured
      else
        let to := Js.prop "to" (Validation.body req) in
        let text := Js.prop "text" (Validation.body req) in
        reply (sendTextMessage to text)
  end.

(** POST /whatsapp/send-document (lines 43-69) *)
Definition sendDocumentRoute (req : Validation.Request) : Outcome :=
  match Validation.validateDocumentRequest req with
  | Validation.Answered status error => Refused status error
  | Validation.Raised => Errored
  | Validation.Next req =>
      if negb isConfigured then Refused 500 notConfigured
      else
        let to := Js.prop "to" (Validation.body req) in
        let text := Js.prop "text" (Validation.body req) in
        let documentUrl := Js.prop "documentUrl" (Validation.body req) in
        let fileName := Js.prop "fileName" (Validation.body req) in
        reply (sendDocument to text documentUrl fileName)
  end.
End Service.
End WhatsAppService.

(** ** What the theorems say of them

    Observations, and the requests and stores of the concrete cases. *)

(** The string that [sanitizePhoneNumber] returns for a string. *)
Definition sanitized (s : string) : string :=
  let cleaned := Validation.stripSpaces s in
  if String.prefix "+" cleaned then cleaned else "+" ++ cleaned.

(** A recipient in the form the service is sent: a plus sign, a digit
    that is not 0, then 1 to 14 digits. *)
Definition wellFormedNumber (s : string) : bool :=
  match s with
  | String "+" (String c r) =>
      isDigit c && negb (Ascii.eqb c "0") && digits 1 14 r
  | _ => false
  end.

Definition isString (v : Js.value) : bool :=
  match v with
  | Js.Str _ => true
  | _ => false
  end.

Definition nonNegativeNumber (v : option Js.value) : Prop :=
  exists x, v = Some (Js.Num x) /\ 0 <= x.

Definition forwards (m : Validation.Request -> Validation.Step)
    (req req' : Validation.Request) : Prop :=
  m req = Validation.Next req'.

(** Two requests of the scenarios below. *)
Definition textRequest (to : Js.value) : Validation.Request :=
  Validation.mkReq [("to", to); ("text", Js.Str "Your bill is ready")] None.

Definition itemRequest : Validation.Request :=
  Validation.mkReq
    [("productName", Js.Str "  Wheat "); ("category", Js.Str "Primary");
     ("purchasePrice", Js.Num 0); ("salePrice", Js.Num 25);
     ("openingStock", Js.Num 0); ("asOfDate", Js.Str "2025-01-02");
     ("lowStockAlert", Js.Num 0)] None.

Definition noDecimal (x : Q) : string := "".

Definition invoiceRequest (amount : Js.value) : Validation.Request :=
  Validation.mkReq
    [("to", Js.Str "+919876543210"); ("customerName", Js.Str "Ravi");
     ("invoiceNo", Js.Str "INV-7"); ("totalAmount", amount);
     ("date", Js.Str "1/2/2025")] None.

Definition itemForwarded : Validation.Request :=
  Validation.setBody
    (Js.setProp "productName" (Js.Str "Wheat") (Validation.body itemRequest))
    itemRequest.

(** The rows that the summary returns for a store. *)
Definition summaryOf (createdBetween : string -> string -> PaymentDoc.t -> bool)
    (aggregateFails : bool) (type startDate endDate : option string) (d : Db)
    : list PaymentSummary.Row :=
  match PaymentSummary.getPaymentSummary createdBetween aggregateFails type
          startDate endDate d with
  | (_, Returned rows) => rows
  | (_, Thrown _) => []
  end.

Definition allValid (d : Db) : Prop :=
  Forall (fun p => Payment.validate p = true) (payments d).

Definition anyDate (startDate endDate : string) (p : PaymentDoc.t) : bool :=
  true.

(** A payment whose phone number has 14 digits and no plus sign. *)
Definition longNumber : PaymentDoc.t :=
  PaymentDoc.mk 1 "PAY-IN-1" "payment-in" "Ravi" "12345678901234" 500 0
    "1/2/2025" "completed" None "cash" None (Some 0%nat).

Definition countStatus (s : string) (l : list PaymentDoc.t) : nat :=
  List.length (filter (fun p => (PaymentDoc.status p =? s)) l).

(** The row of the summary for the payments [seen]: what each
    accumulator of [$group] stands for. *)
Definition describes (seen : list PaymentDoc.t) (r : PaymentSummary.Row)
    : Prop :=
  let g := filter (fun p => (PaymentDoc.type p =? PaymentSummary._id r)) seen in
  PaymentSummary.totalCount r = List.length g
  /\ (1 <= PaymentSummary.totalCount r)%nat
  /\ PaymentSummary.totalAmount r == sumQ (map PaymentDoc.amount g)
  /\ PaymentSummary.completedCount r = countStatus "completed" g
  /\ PaymentSummary.pendingCount r = countStatus "pending" g
  /\ PaymentSummary.cancelledCount r = countStatus "cancelled" g.

Definition summarizes (seen : list PaymentDoc.t)
    (rows : list PaymentSummary.Row) : Prop :=
  NoDup (map PaymentSummary._id rows)
  /\ (forall r, In r rows -> describes seen r)
  /\ (forall p, In p seen ->
        In (PaymentDoc.type p) (map PaymentSummary._id rows)).

Definition countsAddUp (r : PaymentSummary.Row) : Prop :=
  PaymentSummary.totalCount r
  = (PaymentSummary.completedCount r + PaymentSummary.pendingCount r
     + PaymentSummary.cancelledCount r)%nat.

Definition paymentsFresh (d : Db) : Prop :=
  Forall (fun p => (PaymentDoc._id p < nextId d)%nat) (payments d).

(** The status a payment is created with. *)
Definition statusSent (body : PaymentRoutes.Body) : string :=
  orDefault (PaymentRoutes.status body) "completed".

(** The document that POST /api/payments builds from a body, before
    it is saved. *)
Definition draft (body : PaymentRoutes.Body) (name phone : string)
    (amount : Q) (date paymentNo : string) (id pid : ObjectId)
    : PaymentDoc.t :=
  PaymentDoc.mk id (trim paymentNo)
    (orDefault (PaymentRoutes.type body) "payment-in") (trim name)
    (trim phone) amount
    (if falsy (PaymentRoutes.totalAmount body) then amount
     else match PaymentRoutes.totalAmount body with
          | Some t => t
          | None => amount
          end)
    date (orDefault (PaymentRoutes.status body) "completed")
    (option_map trim (PaymentRoutes.description body))
    (orDefault (PaymentRoutes.paymentMethod body) "cash")
    (option_map trim (PaymentRoutes.reference body)) (Some pid).

Definition createErr : string := "Error creating payment:".

(** A payment-in of 500 sent with the status pending, and one sent
    with a date that the schema rejects. *)
Definition pendingReceipt : PaymentRoutes.Body :=
  PaymentRoutes.mkBody (Some "payment-in") (Some "Ravi") (Some "9876543210")
    (Some 500) None (Some "1/2/2025") (Some "pending") None None None.

Definition misdated : PaymentRoutes.Body :=
  PaymentRoutes.mkBody (Some "payment-in") (Some "Ravi") (Some "9876543210")
    (Some 500) None (Some "2025-02-01") None None None None.

(** A payment-in sent with a phone number of 14 digits. *)
Definition longReceipt : PaymentRoutes.Body :=
  PaymentRoutes.mkBody (Some "payment-in") (Some "Ravi")
    (Some "12345678901234") (Some 500) None (Some "1/2/2025") None None None
    None.

(** A body that the API is sent has a well-formed recipient. *)
Definition recipientOk (payload : Js.object) : Prop :=
  exists t, Js.prop "to" payload = Some (Js.Str t)
            /\ wellFormedNumber t = true.

(** The API answered the body with a [data] whose [success] is
    truthy. *)
Definition accepted (post : Js.object -> WhatsAppService.Reply)
    (payload : Js.object) (data : option Js.value) : Prop :=
  post payload = WhatsAppService.Resolved data
  /\ exists flag, WhatsAppService.member "success" data = Js.Ok flag
                  /\ Js.truthy flag = true.

(** The result is a failure whose error is truthy. *)
Definition failedWithError (r : WhatsAppService.Result) : Prop :=
  exists e, r = WhatsAppService.NoSuccess e /\ Js.truthy (Some e) = true.

Definition apiDown (payload : Js.object) : WhatsAppService.Reply :=
  WhatsAppService.Rejected
    (WhatsAppService.mkFailure (Some "ECONNABORTED") None "timeout").

(** An API that answers a body only when its recipient is well
    formed. *)
Definition pickyApi (payload : Js.object) : WhatsAppService.Reply :=
  match Js.prop "to" payload with
  | Some (Js.Str t) =>
      if wellFormedNumber t then apiDown payload
      else WhatsAppService.Resolved None
  | _ => WhatsAppService.Resolved None
  end.

(** * The purchase routes in the numbers of the engine

    The purchase routes once more (src/routes/party.js, from line 306),
    this time over a number type that is given by its operations, so
    that the arithmetic of the stock and of the ledger is the one of
    the engine: [binary64] below is the IEEE double of JavaScript, with
    its rounding.  Documents, store and routes are as above but for the
    type of the numbers; the trace keeps what [console.error] printed. *)

Module Doubles.

(** A number type in the operations that the purchase routes apply to
    it: the number that an integer literal denotes, [+], [-], [/], [<]
    and [!==]. *)
Record Number := mkNumber {
  num :> Type;
  ofZ : Z -> num;
  plus : num -> num -> num;
  minus : num -> num -> num;
  divide : num -> num -> num;
  lessThan : num -> num -> bool;
  differs : num -> num -> bool }.

(** The double of a positive integer: exact below 2^53, rounded to
    nearest above. *)
Fixpoint ofPositive (p : positive) : float :=
  match p with
  | xH => 1%float
  | xO q => (2 * ofPositive q)%float
  | xI q => (2 * ofPositive q + 1)%float
  end.

Definition ofInteger (z : Z) : float :=
  match z with
  | Z0 => 0%float
  | Zpos p => ofPositive p
  | Zneg p => (- ofPositive p)%float
  end.

(** The numbers of JavaScript. *)
Definition binary64 : Number :=
  mkNumber float ofInteger PrimFloat.add PrimFloat.sub PrimFloat.div
    PrimFloat.ltb (fun x y => negb (PrimFloat.eqb x y)).

(** ** Documents *)

Module PartyDoc.
Record t {N : Number} := mk {
  _id : ObjectId;
  name : string;
  phoneNumber : string;
  type : option string;
  balance : N }.
Arguments t N : clear implicits.
End PartyDoc.

Module ItemDoc.
Record t {N : Number} := mk {
  _id : ObjectId;
  productName : string;
  isUniversal : bool;
  openingStock : N }.
Arguments t N : clear implicits.

Definition withStock {N : Number} (s : N) (i : t N) : t N :=
  mk N (_id i) (productName i) (isUniversal i) s.
End ItemDoc.

Module LineItem.
Record t {N : Number} := mk {
  id : ObjectId;
  quantity : N;
  price : N }.
Arguments t N : clear implicits.
End LineItem.

Module PurchaseDoc.
Record t {N : Number} := mk {
  _id : ObjectId;
  billNo : string;
  supplierName : string;
  phoneNumber : string;
  items : list (LineItem.t N);
  totalAmount : N;
  date : string;
  status : string;
  pdfUri : option string;
  partyId : option ObjectId }.
Arguments t N : clear implicits.
End PurchaseDoc.

(** ** The store *)

Record Db {N : Number} := mkDb {
  parties : list (PartyDoc.t N);
  stock : list (ItemDoc.t N);
  purchases : list (PurchaseDoc.t N);
  nextId : ObjectId;
  errors : list string }.
Arguments Db N : clear implicits.

Section Store.
Context {N : Number}.

Definition setParties (l : list (PartyDoc.t N)) (d : Db N) : Db N :=
  mkDb N l (stock d) (purchases d) (nextId d) (errors d).
Definition setStock (l : list (ItemDoc.t N)) (d : Db N) : Db N :=
  mkDb N (parties d) l (purchases d) (nextId d) (errors d).
Definition setPurchases (l : list (PurchaseDoc.t N)) (d : Db N) : Db N :=
  mkDb N (parties d) (stock d) l (nextId d) (errors d).
Definition bumpId (d : Db N) : Db N :=
  mkDb N (parties d) (stock d) (purchases d) (S (nextId d)) (errors d).
Definition record (msg : string) (d : Db N) : Db N :=
  mkDb N (parties d) (stock d) (purchases d) (nextId d)
       (errors d ++ [msg])%list.

(** ** Async computations *)

Definition Async (A : Type) := Db N -> Db N * Outcome A.

Definition ret {A} (a : A) : Async A := fun d => (d, Returned a).
Definition throw {A} (e : Exn) : Async A := fun d => (d, Thrown e).
Definition bind {A B} (m : Async A) (k : A -> Async B) : Async B :=
  fun d => match m d with
           | (d', Returned a) => k a d'
           | (d', Thrown e) => (d', Thrown e)
           end.
Definition tryCatch {A} (m : Async A) (h : Exn -> Async A) : Async A :=
  fun d => match m d with
           | (d', Returned a) => (d', Returned a)
           | (d', Thrown e) => h e d'
           end.
Definition get {A} (f : Db N -> A) : Async A := fun d => (d, Returned (f d)).
Definition modify (f : Db N -> Db N) : Async unit :=
  fun d => (f d, Returned tt).
Definition consoleError (msg : string) : Async unit := modify (record msg).

(** [for (const x of l) { body }] *)
Fixpoint forOf {A} (l : list A) (body : A -> Async unit) : Async unit :=
  match l with
  | [] => ret tt
  | x :: r => bind (body x) (fun _ => forOf r body)
  end.

Definition respond (body : Async Response) (onError : Exn -> Async Response)
    (d : Db N) : Db N * Response :=
  match tryCatch body onError d with
  | (d', Returned r) => (d', r)
  | (d', Thrown _) => (d', mkRes 500 None)
  end.
End Store.
Arguments Async N A : clear implicits.

Declare Scope doubles_scope.
Notation "x <- m ;; k" := (bind m (fun x => k))
  (at level 61, m at next level, right associativity) : doubles_scope.
Notation "m ;;; k" := (bind m (fun _ => k))
  (at level 61, right associativity) : doubles_scope.
Local Open Scope doubles_scope.

(** ** The party ledger *)

Module Party.
Section Ledger.
Context {N : Number}.

Definition findById (id : ObjectId) : Async N (option (PartyDoc.t N)) :=
  get (fun d => find (fun p => (PartyDoc._id p =? id)%nat) (parties d)).

Fixpoint replace (p : PartyDoc.t N) (l : list (PartyDoc.t N))
    : list (PartyDoc.t N) :=
  match l with
  | [] => []
  | x :: r =>
      if (PartyDoc._id x =? PartyDoc._id p)%nat then p :: r
      else x :: replace p r
  end.

Definition save (p : PartyDoc.t N) : Async N unit :=
  modify (fun d => setParties (replace p (parties d)) d).

Definition withBalance (b : N) (p : PartyDoc.t N) : PartyDoc.t N :=
  PartyDoc.mk N (PartyDoc._id p) (PartyDoc.name p) (PartyDoc.phoneNumber p)
    (PartyDoc.type p) b.

Definition adjust (operation : Operation) (current amount : N) : N :=
  match operation with
  | add => plus N current amount
  | subtract => minus N current amount
  | set => amount
  end.

(** Modelled from the spec: [Party.updateBalance] of models/Party.js,
    which is not among the sources.  "[add]/[subtract] apply the signed
    delta to current balance; [set] overwrites.  Fails with NotFound
    when the referenced party id does not resolve."  The message is the
    one routes/party.js tests for. *)
Definition updateBalance (partyId : ObjectId) (amount : N)
    (operation : Operation) : Async N (PartyDoc.t N) :=
  found <- findById partyId ;;
  match found with
  | None => throw (Error "Party not found")
  | Some p =>
      let p' := withBalance (adjust operation (PartyDoc.balance p) amount) p in
      save p' ;;; ret p'
  end.

(** Modelled from the spec: [Party.findOrCreate] of models/Party.js,
    which is not among the sources.  "Lookup by exact (name, phone)
    pair; if found, return it unchanged; else create with balance = 0.
    Phone is normalized before comparison/storage." *)
Definition findOrCreate (name' phone : string) (type' : option string)
    : Async N (PartyDoc.t N) :=
  let phone' := sanitizePhone phone in
  found <- get (fun d =>
    find (fun p => (PartyDoc.name p =? name')%string
                   && (PartyDoc.phoneNumber p =? phone')%string)
         (parties d)) ;;
  match found with
  | Some p => ret p
  | None =>
      id <- get nextId ;;
      let p := PartyDoc.mk N id name' phone' type' (ofZ N 0) in
      modify (fun d => bumpId (setParties (parties d ++ [p])%list d)) ;;;
      ret p
  end.
End Ledger.
End Party.

(** ** The inventory store *)

Module Item.
Section Faults.
Context {N : Number}.
(** [lookupFails id] says that [Item.findById(id)] rejects,
    [universalFails] that the lookup of the universal item does. *)
Variable lookupFails : ObjectId -> bool.
Variable universalFails : bool.

Definition findById (id : ObjectId) : Async N (option (ItemDoc.t N)) :=
  if lookupFails id then throw CastError
  else get (fun d => find (fun i => (ItemDoc._id i =? id)%nat) (stock d)).

(** [Item.findOne({ isUniversal: true, productName: 'Bardana' })] *)
Definition findUniversal : Async N (option (ItemDoc.t N)) :=
  if universalFails then throw StoreError
  else get (fun d =>
    find (fun i => ItemDoc.isUniversal i
                   && (ItemDoc.productName i =? "Bardana")%string)
         (stock d)).
End Faults.

Section Writes.
Context {N : Number}.

Fixpoint replace (i : ItemDoc.t N) (l : list (ItemDoc.t N))
    : list (ItemDoc.t N) :=
  match l with
  | [] => []
  | x :: r =>
      if (ItemDoc._id x =? ItemDoc._id i)%nat then i :: r
      else x :: replace i r
  end.

Definition save (i : ItemDoc.t N) : Async N unit :=
  modify (fun d => setStock (replace i (stock d)) d).
End Writes.
End Item.

(** ** The Purchase model *)

Module Purchase.
Section Schema.
Context {N : Number}.
(** models/Purchase.js is not among the sources.  Its schema
    validators, the total its pre-save hook computes from the line
    items ("Will be calculated in pre-save middleware") and its bill
    numbering are parameters. *)
Variable validate : PurchaseDoc.t N -> bool.
Variable total : list (LineItem.t N) -> N.
Variable nextBillNumber : list (PurchaseDoc.t N) -> string.

Definition preSave (p : PurchaseDoc.t N) : PurchaseDoc.t N :=
  PurchaseDoc.mk N (PurchaseDoc._id p) (PurchaseDoc.billNo p)
    (PurchaseDoc.supplierName p) (PurchaseDoc.phoneNumber p)
    (PurchaseDoc.items p) (total (PurchaseDoc.items p)) (PurchaseDoc.date p)
    (PurchaseDoc.status p) (PurchaseDoc.pdfUri p) (PurchaseDoc.partyId p).

Fixpoint replace (p : PurchaseDoc.t N) (l : list (PurchaseDoc.t N))
    : list (PurchaseDoc.t N) :=
  match l with
  | [] => []
  | x :: r =>
      if (PurchaseDoc._id x =? PurchaseDoc._id p)%nat then p :: r
      else x :: replace p r
  end.

Definition save (isNew : bool) (p : PurchaseDoc.t N)
    : Async N (PurchaseDoc.t N) :=
  if negb (validate p) then throw ValidationError
  else
    let p' := preSave p in
    modify (fun d =>
      setPurchases
        (if isNew then (purchases d ++ [p'])%list
         else replace p' (purchases d)) d) ;;;
    ret p'.

Definition generateNextBillNumber : Async N string :=
  get (fun d => nextBillNumber (purchases d)).
End Schema.

Section Reads.
Context {N : Number}.

Definition findById (id : ObjectId) : Async N (option (PurchaseDoc.t N)) :=
  get (fun d => find (fun p => (PurchaseDoc._id p =? id)%nat) (purchases d)).

Fixpoint remove (id : ObjectId) (l : list (PurchaseDoc.t N))
    : list (PurchaseDoc.t N) :=
  match l with
  | [] => []
  | x :: r => if (PurchaseDoc._id x =? id)%nat then r else x :: remove id r
  end.

Definition findByIdAndDelete (id : ObjectId) : Async N unit :=
  modify (fun d => setPurchases (remove id (purchases d)) d).
End Reads.
End Purchase.

(** ** The purchase routes *)

Module PurchaseRoutes.

(** [req.body] of POST and PUT. *)
Record Body {N : Number} := mkBody {
  supplierName : option string;
  phoneNumber : option string;
  items : option (list (LineItem.t N));
  date : option string;
  status : option string;
  pdfUri : option string }.
Arguments Body N : clear implicits.

Section Handlers.
Context {N : Number}.
Variable validate : PurchaseDoc.t N -> bool.
Variable total : list (LineItem.t N) -> N.
Variable nextBillNumber : list (PurchaseDoc.t N) -> string.
(** [JSON.stringify(originalItems) === JSON.stringify(items)], between
    the line items that are stored and those of the body: the
    comparison of the two texts is a parameter. *)
Variable sameJSON : list (LineItem.t N) -> list (LineItem.t N) -> bool.
Variable lookupFails : ObjectId -> bool.
Variable universalFails : bool.

(** [items.reduce((sum, item) => sum + item.quantity, 0)] *)
Definition totalKg (items : list (LineItem.t N)) : N :=
  fold_left (fun sum item => plus N sum (LineItem.quantity item)) items
    (ofZ N 0).

(** [if (x < 0) x = 0] *)
Definition clamp (x : N) : N :=
  if lessThan N x (ofZ N 0) then ofZ N 0 else x.

Definition onError (msg : string) (error : Exn) : Async N Response :=
  consoleError msg ;;;
  if isValidationError error then ret (mkRes 400 None)
  else ret (mkRes 500 None).

(** The body of the loop "increase stock on purchase". *)
Definition increaseStock (purchaseItem : LineItem.t N) : Async N unit :=
  tryCatch
    (item <- Item.findById lookupFails (LineItem.id purchaseItem) ;;
     match item with
     | Some item =>
         let quantityInBags :=
           divide N (LineItem.quantity purchaseItem) (ofZ N 30) in
         Item.save
           (ItemDoc.withStock
              (plus N (ItemDoc.openingStock item) quantityInBags) item)
     | None => ret tt
     end)
    (fun itemError => consoleError "Error updating stock for item").

(** The body of the loop "subtract what was previously added". *)
Definition restoreStock (purchaseItem : LineItem.t N) : Async N unit :=
  tryCatch
    (item <- Item.findById lookupFails (LineItem.id purchaseItem) ;;
     match item with
     | Some item =>
         let quantityInBags :=
           divide N (LineItem.quantity purchaseItem) (ofZ N 30) in
         Item.save
           (ItemDoc.withStock
              (clamp (minus N (ItemDoc.openingStock item) quantityInBags))
              item)
     | None => ret tt
     end)
    (fun itemError => consoleError "Error restoring stock for item").

(** The three updates of the universal item: [next] computes its new
    stock from the current one. *)
Definition updateBardana (next : N -> N) (msg : string) : Async N unit :=
  tryCatch
    (bardanaItem <- Item.findUniversal universalFails ;;
     match bardanaItem with
     | Some bardanaItem =>
         Item.save
           (ItemDoc.withStock (next (ItemDoc.openingStock bardanaItem))
              bardanaItem)
     | None => ret tt
     end)
    (fun bardanaError => consoleError msg).

(** POST /api/purchases (lines 395-509) *)
Definition post (body : Body N) : Db N -> Db N * Response :=
  respond
    (let status := orDefault (status body) "pending" in
     match supplierName body, phoneNumber body, items body, date body with
     | Some supplierName, Some phoneNumber, Some items, Some date =>
         if (supplierName =? "") || (phoneNumber =? "") || (date =? "")
         then ret (mkRes 400 None)
         else if (List.length items =? 0)%nat then ret (mkRes 400 None)
         else
           billNo <- Purchase.generateNextBillNumber nextBillNumber ;;
           party <- Party.findOrCreate supplierName phoneNumber
                      (Some "supplier") ;;
           id <- get nextId ;;
           modify bumpId ;;;
           purchase <- Purchase.save validate total true
             (PurchaseDoc.mk N id billNo supplierName phoneNumber items
                (ofZ N 0) date status (pdfUri body)
                (Some (PartyDoc._id party))) ;;
           _ <- Party.updateBalance (PartyDoc._id party)
                  (PurchaseDoc.totalAmount purchase) add ;;
           forOf items increaseStock ;;;
           updateBardana
             (fun openingStock =>
                let totalKgPurchased := totalKg items in
                let bardanaBagsToAdd :=
                  divide N totalKgPurchased (ofZ N 30) in
                plus N openingStock bardanaBagsToAdd)
             "Error updating Bardana stock:" ;;;
           ret (mkRes 201 (Some (PurchaseDoc._id purchase)))
     | _, _, _, _ => ret (mkRes 400 None)
     end)
    (onError "Error creating purchase:").

(** The assignments of PUT /api/purchases/:id to the loaded document. *)
Definition assign (body : Body N) (p : PurchaseDoc.t N) : PurchaseDoc.t N :=
  PurchaseDoc.mk N (PurchaseDoc._id p) (PurchaseDoc.billNo p)
    (if truthy (supplierName body)
     then orDefault (supplierName body) ""
     else PurchaseDoc.supplierName p)
    (if truthy (phoneNumber body)
     then orDefault (phoneNumber body) ""
     else PurchaseDoc.phoneNumber p)
    (match items body with
     | Some items => items
     | None => PurchaseDoc.items p
     end)
    (PurchaseDoc.totalAmount p)
    (if truthy (date body)
     then orDefault (date body) "" else PurchaseDoc.date p)
    (if truthy (status body)
     then orDefault (status body) "" else PurchaseDoc.status p)
    (match pdfUri body with
     | Some u => Some u
     | None => PurchaseDoc.pdfUri p
     end)
    (PurchaseDoc.partyId p).

(** PUT /api/purchases/:id (lines 511-636) *)
Definition put (id : ObjectId) (body : Body N) : Db N -> Db N * Response :=
  respond
    (found <- Purchase.findById id ;;
     match found with
     | None => ret (mkRes 404 None)
     | Some purchase =>
         let originalTotalAmount := PurchaseDoc.totalAmount purchase in
         let originalItems := PurchaseDoc.items purchase in
         purchase <- Purchase.save validate total false
                       (assign body purchase) ;;
         match PurchaseDoc.partyId purchase with
         | Some pid =>
             if differs N originalTotalAmount
                  (PurchaseDoc.totalAmount purchase)
             then
               let balanceDifference :=
                 minus N (PurchaseDoc.totalAmount purchase)
                   originalTotalAmount in
               _ <- Party.updateBalance pid balanceDifference add ;;
               ret tt
             else ret tt
         | None => ret tt
         end ;;;
         match items body with
         | Some items =>
             if negb (sameJSON originalItems items) then
               forOf originalItems restoreStock ;;;
               forOf items increaseStock ;;;
               updateBardana
                 (fun openingStock =>
                    let originalTotalKg := totalKg originalItems in
                    let newTotalKg := totalKg items in
                    let kgDifference :=
                      minus N newTotalKg originalTotalKg in
                    let bardanaBagsDifference :=
                      divide N kgDifference (ofZ N 30) in
                    clamp (plus N openingStock bardanaBagsDifference))
                 "Error updating Bardana stock:"
             else ret tt
         | None => ret tt
         end ;;;
         ret (mkRes 200 (Some (PurchaseDoc._id purchase)))
     end)
    (onError "Error updating purchase:").

(** DELETE /api/purchases/:id (lines 676-748) *)
Definition delete (id : ObjectId) : Db N -> Db N * Response :=
  respond
    (found <- Purchase.findById id ;;
     match found with
     | None => ret (mkRes 404 None)
     | Some purchase =>
         forOf (PurchaseDoc.items purchase) restoreStock ;;;
         updateBardana
           (fun openingStock =>
              let totalKgPurchased := totalKg (PurchaseDoc.items purchase) in
              let bardanaBagsToRestore :=
                divide N totalKgPurchased (ofZ N 30) in
              clamp (minus N openingStock bardanaBagsToRestore))
           "Error restoring Bardana stock:" ;;;
         match PurchaseDoc.partyId purchase with
         | Some pid =>
             _ <- Party.updateBalance pid
                    (PurchaseDoc.totalAmount purchase) subtract ;;
             ret tt
         | None => ret tt
         end ;;;
         Purchase.findByIdAndDelete id ;;;
         ret (mkRes 200 None)
     end)
    (fun error =>
       consoleError "Error deleting purchase:" ;;;
       ret (mkRes 500 None)).
End Handlers.
End PurchaseRoutes.

(** ** Observations *)

Section Observations.
Context {N : Number}.

Definition partyOf (id : ObjectId) (d : Db N) : option (PartyDoc.t N) :=
  find (fun p => (PartyDoc._id p =? id)%nat) (parties d).

Definition balanceOf (id : ObjectId) (d : Db N) : option N :=
  option_map PartyDoc.balance (partyOf id d).

Definition purchaseOf (id : ObjectId) (d : Db N) : option (PurchaseDoc.t N) :=
  find (fun p => (PurchaseDoc._id p =? id)%nat) (purchases d).

Definition itemOf (id : ObjectId) (l : list (ItemDoc.t N))
    : option (ItemDoc.t N) :=
  find (fun i => (ItemDoc._id i =? id)%nat) l.

Definition stockOf (id : ObjectId) (l : list (ItemDoc.t N)) : option N :=
  option_map ItemDoc.openingStock (itemOf id l).

(** What the updates never change: ids, names and flags, in order. *)
Definition shape (l : list (ItemDoc.t N)) : list (ObjectId * string * bool) :=
  map (fun i => (ItemDoc._id i, ItemDoc.productName i, ItemDoc.isUniversal i))
    l.

Definition partiesWf (d : Db N) : Prop :=
  NoDup (map PartyDoc._id (parties d))
  /\ Forall (fun p => (PartyDoc._id p < nextId d)%nat) (parties d).

Definition uniqueIds (l : list (ItemDoc.t N)) : Prop :=
  NoDup (map ItemDoc._id l).

Definition purchasesFresh (d : Db N) : Prop :=
  Forall (fun p => (PurchaseDoc._id p < nextId d)%nat) (purchases d).

Definition wellFormed (d : Db N) : Prop :=
  partiesWf d /\ uniqueIds (stock d) /\ purchasesFresh d.

(** A balance before and after: kept, or zero for a party that the
    operations created. *)
Definition settled (before after : option N) : Prop :=
  match before with
  | Some x => after = Some x
  | None => after = None \/ after = Some (ofZ N 0)
  end.

(** *** The steps of the routes when no lookup rejects *)

Definition increase (stock bags : N) : N := plus N stock bags.

Definition restore (stock bags : N) : N :=
  PurchaseRoutes.clamp (minus N stock bags).

Definition isBardana (i : ItemDoc.t N) : bool :=
  ItemDoc.isUniversal i && (ItemDoc.productName i =? "Bardana")%string.

Definition universalOf (l : list (ItemDoc.t N)) : option (ItemDoc.t N) :=
  find isBardana l.

Definition isUniversalId (l : list (ItemDoc.t N)) (j : ObjectId) : bool :=
  match universalOf l with
  | Some b => (ItemDoc._id b =? j)%nat
  | None => false
  end.

Definition adjustStock (next : N -> N) (id : ObjectId)
    (l : list (ItemDoc.t N)) : list (ItemDoc.t N) :=
  match itemOf id l with
  | Some item =>
      Item.replace (ItemDoc.withStock (next (ItemDoc.openingStock item)) item)
        l
  | None => l
  end.

Definition bagsOfLine (line : LineItem.t N) : N :=
  divide N (LineItem.quantity line) (ofZ N 30).

(** One turn of a stock loop. *)
Definition lineStep (next : N -> N -> N) (d : Db N) (line : LineItem.t N)
    : Db N :=
  match itemOf (LineItem.id line) (stock d) with
  | Some item =>
      setStock
        (Item.replace
           (ItemDoc.withStock
              (next (ItemDoc.openingStock item) (bagsOfLine line)) item)
           (stock d)) d
  | None => d
  end.

Definition bardanaStep (next : N -> N) (d : Db N) : Db N :=
  match universalOf (stock d) with
  | Some b =>
      setStock
        (Item.replace (ItemDoc.withStock (next (ItemDoc.openingStock b)) b)
           (stock d)) d
  | None => d
  end.

Definition linesStock (next : N -> N -> N) (lines : list (LineItem.t N))
    (l : list (ItemDoc.t N)) : list (ItemDoc.t N) :=
  fold_left
    (fun l line =>
       adjustStock (fun s => next s (bagsOfLine line)) (LineItem.id line) l)
    lines l.

Definition bardanaStock (next : N -> N) (l : list (ItemDoc.t N))
    : list (ItemDoc.t N) :=
  match universalOf l with
  | Some b => adjustStock next (ItemDoc._id b) l
  | None => l
  end.

(** The bags that the lines naming the item [j] move, line by line. *)
Definition bagsOf (j : ObjectId) (lines : list (LineItem.t N)) : list N :=
  map bagsOfLine (filter (fun line => (LineItem.id line =? j)%nat) lines).

Definition addTotal (lines : list (LineItem.t N)) (s : N) : N :=
  plus N s (divide N (PurchaseRoutes.totalKg lines) (ofZ N 30)).

Definition addDifference (original lines : list (LineItem.t N)) (s : N) : N :=
  PurchaseRoutes.clamp
    (plus N s
       (divide N
          (minus N (PurchaseRoutes.totalKg lines)
             (PurchaseRoutes.totalKg original))
          (ofZ N 30))).

Definition subtractTotal (lines : list (LineItem.t N)) (s : N) : N :=
  PurchaseRoutes.clamp
    (minus N s (divide N (PurchaseRoutes.totalKg lines) (ofZ N 30))).

Definition credited (operation : Operation) (amount : N) (p : PartyDoc.t N)
    : PartyDoc.t N :=
  Party.withBalance (Party.adjust operation (PartyDoc.balance p) amount) p.

(** The store after a purchase was created. *)
Definition created (total : list (LineItem.t N) -> N) (party : PartyDoc.t N)
    (p : PurchaseDoc.t N) (d1 : Db N) : Db N :=
  let lines := PurchaseDoc.items p in
  bardanaStep (addTotal lines)
    (fold_left (lineStep increase) lines
       (setParties
          (Party.replace (credited add (total lines) party) (parties d1))
          (setPurchases (purchases d1 ++ [Purchase.preSave total p])%list
             (bumpId d1)))).

Definition ledgerDelta (party : PartyDoc.t N) (t0 t1 : N) (d : Db N)
    : Db N :=
  if differs N t0 t1 then
    setParties (Party.replace (credited add (minus N t1 t0) party) (parties d))
      d
  else d.

Definition restocked
    (sameJSON : list (LineItem.t N) -> list (LineItem.t N) -> bool)
    (original : list (LineItem.t N)) (lines : option (list (LineItem.t N)))
    (d : Db N) : Db N :=
  match lines with
  | Some lines =>
      if negb (sameJSON original lines) then
        bardanaStep (addDifference original lines)
          (fold_left (lineStep increase) lines
             (fold_left (lineStep restore) original d))
      else d
  | None => d
  end.

Definition unstocked (p : PurchaseDoc.t N) (d : Db N) : Db N :=
  bardanaStep (subtractTotal (PurchaseDoc.items p))
    (fold_left (lineStep restore) (PurchaseDoc.items p) d).

(** *** Whole numbers *)

(** [x] is the number of an integer between [lo] and [hi]. *)
Definition whole (lo hi : Z) (x : N) : Prop :=
  exists n, x = ofZ N n /\ (lo <= n <= hi)%Z.

(** The operations are exact on the integers up to [B], as the
    operations of binary64 are up to 2^53: the sum and the difference
    of two integers when they are integers up to [B] themselves, the
    thirtieth of a multiple of 30, the comparison with 0 and the
    inequality of two integers. *)
Definition exact (B : Z) : Prop :=
  (forall a b, (- B <= a <= B)%Z -> (- B <= b <= B)%Z ->
     (- B <= a + b <= B)%Z ->
     plus N (ofZ N a) (ofZ N b) = ofZ N (a + b))
  /\ (forall a b, (- B <= a <= B)%Z -> (- B <= b <= B)%Z ->
        (- B <= a - b <= B)%Z ->
        minus N (ofZ N a) (ofZ N b) = ofZ N (a - b))
  /\ (forall k, (- B <= 30 * k <= B)%Z ->
        divide N (ofZ N (30 * k)) (ofZ N 30) = ofZ N k)
  /\ (forall a, (- B <= a <= B)%Z ->
        lessThan N (ofZ N a) (ofZ N 0) = (a <? 0)%Z)
  /\ (forall a b, (- B <= a <= B)%Z -> (- B <= b <= B)%Z ->
        differs N (ofZ N a) (ofZ N b) = negb (a =? b)%Z).

Definition sumZ (l : list Z) : Z := fold_right Z.add 0%Z l.

(** The lines are whole bags: the quantity of each line is 30 kg
    times the integer of [bags] at its place, which is not negative. *)
Definition wholeBags (lines : list (LineItem.t N)) (bags : list Z) : Prop :=
  Forall2
    (fun line k => LineItem.quantity line = ofZ N (30 * k) /\ (0 <= k)%Z)
    lines bags.

(** A body whose lines, when it has any, are whole bags, at most [M]
    in all, with a total that is an integer up to [M]. *)
Definition wholeOrder (total : list (LineItem.t N) -> N) (M : Z)
    (body : PurchaseRoutes.Body N) : Prop :=
  forall lines,
    PurchaseRoutes.items body = Some lines ->
    (exists bags, wholeBags lines bags /\ (sumZ bags <= M)%Z)
    /\ whole (- M) M (total lines).

(** A store whose stocks are whole bags from 0 to [M] and whose
    balances are integers up to [M]. *)
Definition wholeStore (M : Z) (d : Db N) : Prop :=
  Forall (fun i => whole 0 M (ItemDoc.openingStock i)) (stock d)
  /\ Forall (fun p => whole (- M) M (PartyDoc.balance p)) (parties d).

(** Two lists of whole bags whose texts are equal name the same items
    with the same quantities. *)
Definition comparesTexts
    (sameJSON : list (LineItem.t N) -> list (LineItem.t N) -> bool) : Prop :=
  forall a b bagsA bagsB,
    wholeBags a bagsA -> wholeBags b bagsB -> sameJSON a b = true ->
    map LineItem.id a = map LineItem.id b
    /\ map LineItem.quantity a = map LineItem.quantity b.

(** The bags of [bags] that belong to the lines naming the item [j]. *)
Fixpoint own (j : ObjectId) (lines : list (LineItem.t N)) (bags : list Z)
    : Z :=
  match lines, bags with
  | line :: lines, k :: bags =>
      ((if (LineItem.id line =? j)%nat then k else 0) + own j lines bags)%Z
  | _, _ => 0%Z
  end.

(** The stock of every item of [dk] is its stock in [d0], a whole
    number of bags from 0 to [M], plus what the lines added: the bags of
    its own lines, and for the universal item the bags of all lines. *)
Definition stockTracks (M : Z) (d0 : Db N) (lines : list (LineItem.t N))
    (bags : list Z) (dk : Db N) : Prop :=
  forall j,
    match stockOf j (stock d0), stockOf j (stock dk) with
    | Some s, Some v =>
        exists n,
          (0 <= n <= M)%Z /\ s = ofZ N n
          /\ v = ofZ N (n + own j lines bags
                        + (if isUniversalId (stock d0) j then sumZ bags
                           else 0))
    | None, None => True
    | _, _ => False
    end.

(** [dk] is [d0] with one more purchase, [pc], applied to the ledger
    (the party [pid], whose balance was the integer [b]) and to the
    inventory. *)
Definition live (total : list (LineItem.t N) -> N) (M : Z) (d0 : Db N)
    (id pid : ObjectId) (b : Z) (pc : PurchaseDoc.t N) (dk : Db N) : Prop :=
  purchaseOf id dk = Some pc
  /\ PurchaseDoc.partyId pc = Some pid
  /\ PurchaseDoc.totalAmount pc = total (PurchaseDoc.items pc)
  /\ (exists bags t party,
        wholeBags (PurchaseDoc.items pc) bags /\ (sumZ bags <= M)%Z
        /\ PurchaseDoc.totalAmount pc = ofZ N t /\ (- M <= t <= M)%Z
        /\ partyOf pid dk = Some party
        /\ PartyDoc.balance party = ofZ N (b + t)
        /\ stockTracks M d0 (PurchaseDoc.items pc) bags dk)
  /\ (forall j, j <> pid -> balanceOf j dk = balanceOf j d0)
  /\ shape (stock dk) = shape (stock d0)
  /\ Purchase.remove id (purchases dk) = purchases d0.
End Observations.

End Doubles.

(** ** Scenarios in binary64

    The absent Purchase model instantiated the way the spec words it (no
    validator, the total as the sum of quantity times price); the text
    of the stored line items is taken to differ from the text of the
    body, since mongoose stores each line with an [_id] of its own. *)

Definition accepts64 (p : Doubles.PurchaseDoc.t Doubles.binary64) : bool :=
  true.

Definition total64 (lines : list (Doubles.LineItem.t Doubles.binary64))
    : float :=
  fold_left
    (fun (sum : float) (line : Doubles.LineItem.t Doubles.binary64) =>
       let quantity : float := Doubles.LineItem.quantity line in
       let price : float := Doubles.LineItem.price line in
       (sum + quantity * price)%float)
    lines 0%float.

Definition billNumber64 (l : list (Doubles.PurchaseDoc.t Doubles.binary64))
    : string :=
  "PUR-" ++ toString (N.of_nat (List.length l) + 1).

Definition textsDiffer (a b : list (Doubles.LineItem.t Doubles.binary64))
    : bool := false.

(** A shop with the universal item and one ordinary item, each with
    [bags] bags in stock. *)
Definition shop64 (bags : float) : Doubles.Db Doubles.binary64 :=
  Doubles.mkDb Doubles.binary64 []
    [Doubles.ItemDoc.mk Doubles.binary64 1 "Bardana" true bags;
     Doubles.ItemDoc.mk Doubles.binary64 2 "Wheat" false bags]
    [] 10 [].

Definition wheat64 (kg price : float)
    : list (Doubles.LineItem.t Doubles.binary64) :=
  [Doubles.LineItem.mk Doubles.binary64 2 kg price].

Definition order64 (lines : list (Doubles.LineItem.t Doubles.binary64))
    : Doubles.PurchaseRoutes.Body Doubles.binary64 :=
  Doubles.PurchaseRoutes.mkBody Doubles.binary64 (Some "Asha Traders")
    (Some "9876543210") (Some lines) (Some "1/2/2025") None None.

Definition revision64 (lines : list (Doubles.LineItem.t Doubles.binary64))
    : Doubles.PurchaseRoutes.Body Doubles.binary64 :=
  Doubles.PurchaseRoutes.mkBody Doubles.binary64 None None (Some lines) None
    None None.

Definition completed64 : Doubles.PurchaseRoutes.Body Doubles.binary64 :=
  Doubles.PurchaseRoutes.mkBody Doubles.binary64 None None None None
    (Some "completed") None.

(** Create, update, delete of the purchase 11, the first of a shop;
    [lookupFails] says which item lookups of the creation reject. *)
Definition roundTrip64 (lookupFails : ObjectId -> bool)
    (d : Doubles.Db Doubles.binary64)
    (body upd : Doubles.PurchaseRoutes.Body Doubles.binary64)
    : Doubles.Db Doubles.binary64 :=
  let d1 :=
    fst (Doubles.PurchaseRoutes.post accepts64 total64 billNumber64
           lookupFails false body d) in
  let d2 :=
    fst (Doubles.PurchaseRoutes.put accepts64 total64 textsDiffer noFault
           false 11 upd d1) in
  fst (Doubles.PurchaseRoutes.delete noFault false 11 d2).

(** The integers from [-B] to [B]. *)
Definition zrange (B : Z) : list Z :=
  map (fun i => (Z.of_nat i - B)%Z) (seq 0 (Z.to_nat (2 * B + 1))).

Definition within (B z : Z) : bool := ((- B <=? z) && (z <=? B))%Z.

(** The operations of binary64 tried on every integer up to [B]. *)
Definition exactUpTo (B : Z) : bool :=
  let range := zrange B in
  forallb
    (fun a =>
       forallb
         (fun b =>
            implb (within B (a + b))
              (PrimFloat.Leibniz.eqb
                 (Doubles.ofInteger a + Doubles.ofInteger b)%float
                 (Doubles.ofInteger (a + b)))
            && implb (within B (a - b))
                 (PrimFloat.Leibniz.eqb
                    (Doubles.ofInteger a - Doubles.ofInteger b)%float
                    (Doubles.ofInteger (a - b)))
            && Bool.eqb
                 (negb (PrimFloat.eqb (Doubles.ofInteger a)
                          (Doubles.ofInteger b)))
                 (negb (a =? b)%Z))
         range
       && implb (within B (30 * a))
            (PrimFloat.Leibniz.eqb
               (Doubles.ofInteger (30 * a) / Doubles.ofInteger 30)%float
               (Doubles.ofInteger a))
       && Bool.eqb (PrimFloat.ltb (Doubles.ofInteger a) (Doubles.ofInteger 0))
            (a <? 0)%Z)
    range.

(** * Proofs *)

(** ** The ledger *)

Lemma emitted_app d d' l :
  trace d' = (trace d ++ l)%list -> emitted d d' = l.
Proof.
  unfold emitted. intros ->.
  rewrite skipn_app, skipn_all, Nat.sub_diag. reflexivity.
Qed.

Lemma party_find_replace p l j :
  find (fun x => (PartyDoc._id x =? j)%nat) (Party.replace p l) =
  if (PartyDoc._id p =? j)%nat
  then match find (fun x => (PartyDoc._id x =? j)%nat) l with
       | Some _ => Some p
       | None => None
       end
  else find (fun x => (PartyDoc._id x =? j)%nat) l.
Proof.
  induction l as [|x r IH]; simpl.
  - destruct (_ =? _)%nat; reflexivity.
  - destruct (PartyDoc._id x =? PartyDoc._id p)%nat eqn:E; simpl.
    + apply Nat.eqb_eq in E. rewrite E.
      destruct (PartyDoc._id p =? j)%nat; reflexivity.
    + rewrite IH. destruct (PartyDoc._id x =? j)%nat eqn:F; [|reflexivity].
      destruct (PartyDoc._id p =? j)%nat eqn:G; [|reflexivity].
      apply Nat.eqb_eq in F, G. apply Nat.eqb_neq in E. congruence.
Qed.

Lemma find_id_eq p j d :
  partyOf j d = Some p -> PartyDoc._id p = j.
Proof.
  unfold partyOf. intros H. apply find_some in H as [_ H].
  now apply Nat.eqb_eq in H.
Qed.

Lemma updateBalance_found pid amount operation d p :
  partyOf pid d = Some p ->
  Party.updateBalance pid amount operation d =
  (setParties (Party.replace (credited operation amount p) (parties d))
     (record (PartyUpdateBalance pid amount operation) d),
   Returned (credited operation amount p)).
Proof.
  intros H. unfold Party.updateBalance, Party.findById, Party.save, bind,
    modify, get, ret. simpl. unfold partyOf in H. rewrite H. reflexivity.
Qed.

Lemma updateBalance_missing pid amount operation d :
  partyOf pid d = None ->
  Party.updateBalance pid amount operation d =
  (record (PartyUpdateBalance pid amount operation) d,
   Thrown (Error "Party not found")).
Proof.
  intros H. unfold Party.updateBalance, Party.findById, bind, modify, get,
    throw. simpl. unfold partyOf in H. rewrite H. reflexivity.
Qed.

Lemma balanceOf_credit pid j operation amount p d d0 :
  partyOf pid d = Some p ->
  parties d0 = parties d ->
  balanceOf j
    (setParties (Party.replace (credited operation amount p) (parties d)) d0) =
  if (pid =? j)%nat
  then Some (Party.adjust operation (PartyDoc.balance p) amount)
  else balanceOf j d.
Proof.
  intros H _. unfold balanceOf, partyOf. simpl.
  rewrite party_find_replace. simpl.
  rewrite (find_id_eq _ _ _ H).
  destruct (pid =? j)%nat eqn:E; [|reflexivity].
  apply Nat.eqb_eq in E. subst j. unfold partyOf in H. rewrite H. reflexivity.
Qed.

(** * Payments *)

Lemma payment_save_valid p d :
  Payment.validate p = true ->
  Payment.save false p d =
  (setPayments (Payment.replace (Payment.preSave p) (payments d)) d,
   Returned (Payment.preSave p)).
Proof.
  intros H. unfold Payment.save. rewrite H. reflexivity.
Qed.

Lemma payment_save_invalid isNew p d :
  Payment.validate p = false ->
  Payment.save isNew p d = (d, Thrown ValidationError).
Proof.
  intros H. unfold Payment.save. rewrite H. reflexivity.
Qed.

Lemma updatePartyBalance_found payment pid party d :
  PaymentDoc.partyId payment = Some pid ->
  partyOf pid d = Some party ->
  Payment.updatePartyBalance payment d =
  (setParties
     (Party.replace (credited subtract (PaymentDoc.amount payment) party)
        (parties d))
     (record (PartyUpdateBalance pid (PaymentDoc.amount payment) subtract)
        (record (UpdatePartyBalanceCalled (PaymentDoc.paymentNo payment)) d)),
   Returned tt).
Proof.
  intros Hp Hf. unfold Payment.updatePartyBalance, tryCatch, bind, modify, ret.
  rewrite Hp.
  assert (E : (if (PaymentDoc.type payment =? "payment-in") then subtract
               else subtract) = subtract) by (destruct (_ =? _); reflexivity).
  rewrite E.
  rewrite (updateBalance_found pid _ _ _ party) by exact Hf. reflexivity.
Qed.

Lemma updatePartyBalance_missing payment pid d :
  PaymentDoc.partyId payment = Some pid ->
  partyOf pid d = None ->
  Payment.updatePartyBalance payment d =
  (record (ConsoleError "Error updating party balance:")
     (record (PartyUpdateBalance pid (PaymentDoc.amount payment) subtract)
        (record (UpdatePartyBalanceCalled (PaymentDoc.paymentNo payment)) d)),
   Thrown (Error "Party not found")).
Proof.
  intros Hp Hf. unfold Payment.updatePartyBalance, tryCatch, bind, modify, ret.
  rewrite Hp.
  assert (E : (if (PaymentDoc.type payment =? "payment-in") then subtract
               else subtract) = subtract) by (destruct (_ =? _); reflexivity).
  rewrite E.
  rewrite updateBalance_missing by exact Hf. reflexivity.
Qed.

Lemma updatePartyBalance_unresolved payment d :
  PaymentDoc.partyId payment = None ->
  Payment.updatePartyBalance payment d =
  (record (UpdatePartyBalanceCalled (PaymentDoc.paymentNo payment)) d,
   Returned tt).
Proof.
  intros Hp. unfold Payment.updatePartyBalance, tryCatch, bind, modify, ret.
  rewrite Hp. reflexivity.
Qed.

Lemma status_nonempty s : includes statuses s = true -> (s =? "") = false.
Proof.
  intros H. destruct (s =? "") eqn:E; [|reflexivity].
  apply String.eqb_eq in E. subst s. discriminate H.
Qed.

Lemma payment_patchStatus_run id s p d :
  paymentOf id d = Some p ->
  includes statuses s = true ->
  PaymentRoutes.patchStatus id (Some s) d =
  if Payment.validate (PaymentRoutes.withStatus s p) then
    let p' := Payment.preSave (PaymentRoutes.withStatus s p) in
    let d1 := setPayments (Payment.replace p' (payments d)) d in
    if toggles (PaymentDoc.status p) s then
      match Payment.updatePartyBalance p' d1 with
      | (d2, Returned _) => (d2, mkRes 200 (Some (PaymentDoc._id p')))
      | (d2, Thrown _) => (record (ConsoleError statusErr) d2, mkRes 500 None)
      end
    else (d1, mkRes 200 (Some (PaymentDoc._id p')))
  else (record (ConsoleError statusErr) d, mkRes 500 None).
Proof.
  intros Hp Hs. unfold PaymentRoutes.patchStatus, respond, tryCatch.
  rewrite (status_nonempty _ Hs), Hs. cbn [orb negb].
  unfold bind at 1. unfold Payment.findById, get.
  unfold paymentOf in Hp. rewrite Hp.
  unfold bind at 1.
  destruct (Payment.validate (PaymentRoutes.withStatus s p)) eqn:V.
  - rewrite payment_save_valid by exact V. cbv zeta.
    unfold bind at 1. fold (toggles (PaymentDoc.status p) s).
    destruct (toggles (PaymentDoc.status p) s); unfold when.
    + destruct (Payment.updatePartyBalance _ _) as [d2 [[]|e]]; reflexivity.
    + reflexivity.
  - rewrite payment_save_invalid by exact V. reflexivity.
Qed.

Lemma find_nodup_id (l : list PartyDoc.t) f p :
  NoDup (map PartyDoc._id l) ->
  find f l = Some p ->
  find (fun x => (PartyDoc._id x =? PartyDoc._id p)%nat) l = Some p.
Proof.
  induction l as [|x r IH]; simpl; [discriminate|].
  intros N H. inversion N as [|? ? Hn N']; subst.
  destruct (f x).
  - inversion H; subst. now rewrite Nat.eqb_refl.
  - destruct (PartyDoc._id x =? PartyDoc._id p)%nat eqn:E.
    + exfalso. apply Hn. apply Nat.eqb_eq in E. rewrite E.
      apply in_map. apply find_some in H. tauto.
    + auto.
Qed.

Lemma find_fresh_id (l : list PartyDoc.t) n :
  Forall (fun p => (PartyDoc._id p < n)%nat) l ->
  find (fun x => (PartyDoc._id x =? n)%nat) l = None.
Proof.
  induction 1 as [|x r Hx _ IH]; simpl; [reflexivity|].
  destruct (PartyDoc._id x =? n)%nat eqn:E; [|exact IH].
  apply Nat.eqb_eq in E. lia.
Qed.

Lemma find_append {A} (f : A -> bool) (l r : list A) :
  find f (l ++ r) = match find f l with Some x => Some x | None => find f r end.
Proof.
  induction l as [|x l IH]; simpl; [reflexivity|].
  destruct (f x); [reflexivity|exact IH].
Qed.

Lemma find_app_fresh (l : list PartyDoc.t) p :
  find (fun x => (PartyDoc._id x =? PartyDoc._id p)%nat) l = None ->
  find (fun x => (PartyDoc._id x =? PartyDoc._id p)%nat) (l ++ [p]) = Some p.
Proof.
  induction l as [|x r IH]; simpl.
  - now rewrite Nat.eqb_refl.
  - destruct (_ =? _)%nat; [discriminate|exact IH].
Qed.

(** What [Party.findOrCreate] does to the store: the party it returns
    is in the store afterwards, with the balance it had before or 0. *)
Lemma findOrCreate_run name phone ty d :
  partiesWf d ->
  exists party d1,
    Party.findOrCreate name phone ty d = (d1, Returned party)
    /\ partyOf (PartyDoc._id party) d1 = Some party
    /\ (balanceOf (PartyDoc._id party) d = Some (PartyDoc.balance party)
        \/ (balanceOf (PartyDoc._id party) d = None
            /\ PartyDoc.balance party = 0))
    /\ (forall j, j <> PartyDoc._id party -> balanceOf j d1 = balanceOf j d)
    /\ trace d1 = trace d /\ payments d1 = payments d
    /\ purchases d1 = purchases d /\ stock d1 = stock d.
Proof.
  intros [N F]. unfold Party.findOrCreate, bind, get, ret, modify.
  destruct (find _ (parties d)) as [p|] eqn:E.
  - exists p, d. pose proof (find_nodup_id _ _ _ N E) as H.
    unfold balanceOf, partyOf. rewrite H. simpl. intuition.
  - eexists. eexists. split; [reflexivity|].
    pose proof (find_fresh_id _ _ F) as H.
    unfold balanceOf, partyOf. simpl. rewrite H.
    split; [apply (find_app_fresh (parties d)
      (PartyDoc.mk (nextId d) name (sanitizePhone phone) ty 0)); exact H|].
    split; [right; split; reflexivity|].
    split; [|repeat split].
    intros j Hj. rewrite find_append.
    destruct (find (fun p => (PartyDoc._id p =? j)%nat) (parties d));
      [reflexivity|].
    simpl. destruct (nextId d =? j)%nat eqn:G; [|reflexivity].
    apply Nat.eqb_eq in G. congruence.
Qed.

Lemma generateNextPaymentNumber_run type d :
  Payment.generateNextPaymentNumber type d = (d, Returned (nextNumber type d)).
Proof.
  unfold nextNumber, Payment.generateNextPaymentNumber, tryCatch, bind,
    Payment.findLast, get, ret.
  destruct (Payment.greatest _ _); [|reflexivity].
  destruct (Payment.matchNumber _ _); reflexivity.
Qed.

Lemma bind_returned {A B} (m : Async A) (k : A -> Async B) d d1 a :
  m d = (d1, Returned a) -> bind m k d = k a d1.
Proof. intros H. unfold bind. rewrite H. reflexivity. Qed.

Lemma bind_thrown {A B} (m : Async A) (k : A -> Async B) d d1 e :
  m d = (d1, Thrown e) -> bind m k d = (d1, Thrown e).
Proof. intros H. unfold bind. rewrite H. reflexivity. Qed.


Lemma toggles_valid from s : toggles from s = true -> includes statuses s = true.
Proof.
  unfold toggles. intros H. apply orb_true_iff in H as [H|H];
    apply andb_true_iff in H as [_ H]; apply String.eqb_eq in H; subst;
    reflexivity.
Qed.

Lemma payment_find_replace p l j :
  find (fun x => (PaymentDoc._id x =? j)%nat) (Payment.replace p l) =
  if (PaymentDoc._id p =? j)%nat
  then match find (fun x => (PaymentDoc._id x =? j)%nat) l with
       | Some _ => Some p
       | None => None
       end
  else find (fun x => (PaymentDoc._id x =? j)%nat) l.
Proof.
  induction l as [|x r IH]; simpl.
  - destruct (_ =? _)%nat; reflexivity.
  - destruct (PaymentDoc._id x =? PaymentDoc._id p)%nat eqn:E; simpl.
    + apply Nat.eqb_eq in E. rewrite E.
      destruct (PaymentDoc._id p =? j)%nat; reflexivity.
    + rewrite IH. destruct (PaymentDoc._id x =? j)%nat eqn:F; [|reflexivity].
      destruct (PaymentDoc._id p =? j)%nat eqn:G; [|reflexivity].
      apply Nat.eqb_eq in F, G. apply Nat.eqb_neq in E. congruence.
Qed.

Lemma paymentOf_id id d p : paymentOf id d = Some p -> PaymentDoc._id p = id.
Proof.
  unfold paymentOf. intros H. apply find_some in H as [_ H].
  now apply Nat.eqb_eq in H.
Qed.

(** A status toggle that is answered 200 on a payment with a party. *)
Lemma payment_toggle_run id s p pid d d' r :
  paymentOf id d = Some p ->
  PaymentDoc.partyId p = Some pid ->
  toggles (PaymentDoc.status p) s = true ->
  PaymentRoutes.patchStatus id (Some s) d = (d', r) ->
  statusCode r = 200%nat ->
  exists b,
    balanceOf pid d = Some b
    /\ balanceOf pid d' = Some (b - PaymentDoc.amount p)
    /\ (forall j, j <> pid -> balanceOf j d' = balanceOf j d)
    /\ emitted d d' =
       [UpdatePartyBalanceCalled (PaymentDoc.paymentNo p);
        PartyUpdateBalance pid (PaymentDoc.amount p) subtract]
    /\ paymentOf id d' =
       Some (Payment.preSave (PaymentRoutes.withStatus s p)).
Proof.
  intros Hp Hpid T H C.
  rewrite (payment_patchStatus_run _ _ _ _ Hp (toggles_valid _ _ T)) in H.
  destruct (Payment.validate _); [|inversion H; subst; discriminate].
  cbv zeta in H. rewrite T in H.
  set (p' := Payment.preSave (PaymentRoutes.withStatus s p)) in *.
  set (d1 := setPayments _ d) in *.
  assert (Hpid' : PaymentDoc.partyId p' = Some pid) by exact Hpid.
  destruct (partyOf pid d) as [party|] eqn:Hf.
  - assert (Hf1 : partyOf pid d1 = Some party) by exact Hf.
    rewrite (updatePartyBalance_found _ _ _ _ Hpid' Hf1) in H.
    inversion H; subst d' r; clear H.
    exists (PartyDoc.balance party). split.
    { unfold balanceOf. rewrite Hf. reflexivity. }
    split.
    { rewrite (balanceOf_credit _ _ _ _ _ d1 _ Hf1) by reflexivity.
      now rewrite Nat.eqb_refl. }
    split.
    { intros j Hj. rewrite (balanceOf_credit _ _ _ _ _ d1 _ Hf1) by reflexivity.
      destruct (pid =? j)%nat eqn:E; [|reflexivity].
      apply Nat.eqb_eq in E. congruence. }
    split.
    { apply emitted_app. simpl. rewrite <- app_assoc. reflexivity. }
    unfold paymentOf. simpl. rewrite payment_find_replace.
    assert (E : PaymentDoc._id p' = id) by exact (paymentOf_id _ _ _ Hp).
    rewrite E, Nat.eqb_refl. unfold paymentOf in Hp. now rewrite Hp.
  - assert (Hf1 : partyOf pid d1 = None) by exact Hf.
    rewrite (updatePartyBalance_missing _ _ _ Hpid' Hf1) in H.
    inversion H; subst; discriminate.
Qed.

Lemma balanceOf_setPayments j l d : balanceOf j (setPayments l d) = balanceOf j d.
Proof. reflexivity. Qed.

Lemma payment_put_same_amount id body d :
  (forall p a, paymentOf id d = Some p ->
     PaymentRoutes.amount body = Some a -> a == PaymentDoc.amount p) ->
  parties (fst (PaymentRoutes.put id body d)) = parties d.
Proof.
  intros Ha. unfold PaymentRoutes.put, respond, tryCatch.
  unfold bind at 1. unfold Payment.findById, get.
  fold (paymentOf id d). destruct (paymentOf id d) as [p|] eqn:Hp;
    [|reflexivity].
  unfold bind at 1.
  destruct (Payment.validate (PaymentRoutes.assign body p)) eqn:V.
  - rewrite payment_save_valid by exact V. cbv zeta.
    assert (E : Qeq_bool (PaymentDoc.amount p)
                  (PaymentDoc.amount
                     (Payment.preSave (PaymentRoutes.assign body p))) = true).
    { simpl. destruct (PaymentRoutes.amount body) as [a|] eqn:A.
      - apply Qeq_bool_iff. symmetry. now apply Ha.
      - apply Qeq_bool_iff. reflexivity. }
    rewrite E. reflexivity.
  - rewrite payment_save_invalid by exact V. reflexivity.
Qed.

Lemma payment_put_new_amount id body p pid a d d' r :
  paymentOf id d = Some p ->
  PaymentDoc.partyId p = Some pid ->
  PaymentRoutes.amount body = Some a ->
  ~ a == PaymentDoc.amount p ->
  PaymentRoutes.put id body d = (d', r) ->
  statusCode r = 200%nat ->
  exists b b',
    balanceOf pid d = Some b
    /\ balanceOf pid d' = Some b'
    /\ b' - b == PaymentDoc.amount p - a
    /\ (forall j, j <> pid -> balanceOf j d' = balanceOf j d)
    /\ emitted d d' =
       [PartyUpdateBalance pid (PaymentDoc.amount p) add;
        UpdatePartyBalanceCalled (PaymentDoc.paymentNo p);
        PartyUpdateBalance pid a subtract].
Proof.
  intros Hp Hpid A Hne H C. unfold PaymentRoutes.put, respond, tryCatch in H.
  unfold bind at 1 in H. unfold Payment.findById, get in H.
  unfold paymentOf in Hp. rewrite Hp in H. fold (paymentOf id d) in Hp.
  unfold bind at 1 in H.
  destruct (Payment.validate (PaymentRoutes.assign body p)) eqn:V.
  2:{ rewrite payment_save_invalid in H by exact V.
      unfold PaymentRoutes.onError, bind, consoleError, modify in H.
      simpl in H. inversion H; subst; discriminate. }
  rewrite payment_save_valid in H by exact V. cbv zeta in H.
  set (p' := Payment.preSave (PaymentRoutes.assign body p)) in *.
  set (d1 := setPayments _ d) in *.
  assert (Ea : PaymentDoc.amount p' = a) by (simpl; now rewrite A).
  assert (Hpid' : PaymentDoc.partyId p' = Some pid) by exact Hpid.
  assert (En : PaymentDoc.paymentNo p' = PaymentDoc.paymentNo p)
    by reflexivity.
  assert (E : Qeq_bool (PaymentDoc.amount p) (PaymentDoc.amount p') = false).
  { apply not_true_is_false. intros Q. apply Hne. symmetry.
    apply Qeq_bool_iff. rewrite <- Ea. exact Q. }
  rewrite E, Hpid', Hpid in H. cbn [negb andb isSome] in H.
  assert (Eop : (if (PaymentDoc.type p' =? "payment-in") then add else add)
                = add) by (destruct (_ =? _); reflexivity).
  rewrite Eop in H.
  destruct (partyOf pid d) as [party|] eqn:Hf.
  2:{ assert (Hf1 : partyOf pid d1 = None) by exact Hf.
      unfold bind at 1 in H. unfold bind at 1 in H.
      rewrite (updateBalance_missing _ _ _ _ Hf1) in H.
      unfold PaymentRoutes.onError, bind, consoleError, modify in H.
      simpl in H. inversion H; subst; discriminate. }
  assert (Hf1 : partyOf pid d1 = Some party) by exact Hf.
  unfold bind at 1 in H. unfold bind at 1 in H.
  rewrite (updateBalance_found _ _ _ _ _ Hf1) in H.
  set (party1 := credited add (PaymentDoc.amount p) party) in *.
  set (d2 := setParties _ _) in *.
  assert (Hf2 : partyOf pid d2 = Some party1).
  { unfold partyOf, d2. simpl. rewrite party_find_replace. simpl.
    rewrite (find_id_eq _ _ _ Hf), Nat.eqb_refl.
    unfold partyOf in Hf1. simpl in Hf1. now rewrite Hf1. }
  rewrite (updatePartyBalance_found _ _ _ _ Hpid' Hf2) in H.
  unfold ret in H. inversion H; subst d' r; clear H.
  exists (PartyDoc.balance party),
    (PartyDoc.balance party + PaymentDoc.amount p - PaymentDoc.amount p').
  split; [unfold balanceOf; now rewrite Hf|].
  split.
  { match goal with |- balanceOf _ (setParties _ ?d0) = _ =>
      rewrite (balanceOf_credit _ _ _ _ _ d2 d0 Hf2) by reflexivity end.
    now rewrite Nat.eqb_refl. }
  split; [rewrite Ea; ring|].
  split.
  { intros j Hj.
    match goal with |- balanceOf _ (setParties _ ?d0) = _ =>
      rewrite (balanceOf_credit _ _ _ _ _ d2 d0 Hf2) by reflexivity end.
    destruct (pid =? j)%nat eqn:G;
      [apply Nat.eqb_eq in G; congruence|].
    unfold d2, party1.
    rewrite (balanceOf_credit _ _ _ _ _ d1 _ Hf1) by reflexivity.
    now rewrite G. }
  apply emitted_app. simpl. rewrite A.
  repeat rewrite <- app_assoc. reflexivity.
Qed.

Lemma emitted_self d : emitted d d = [].
Proof. unfold emitted. apply skipn_all. Qed.

Lemma updatePartyBalance_trace payment d :
  exists l,
    trace (fst (Payment.updatePartyBalance payment d)) =
    (trace d ++ UpdatePartyBalanceCalled (PaymentDoc.paymentNo payment) :: l)%list.
Proof.
  destruct (PaymentDoc.partyId payment) as [pid|] eqn:Hp.
  - destruct (partyOf pid d) as [party|] eqn:Hf.
    + rewrite (updatePartyBalance_found _ _ _ _ Hp Hf). simpl.
      eexists. rewrite <- app_assoc. reflexivity.
    + rewrite (updatePartyBalance_missing _ _ _ Hp Hf). simpl.
      eexists. repeat rewrite <- app_assoc. reflexivity.
  - rewrite (updatePartyBalance_unresolved _ _ Hp). simpl.
    eexists. reflexivity.
Qed.

Lemma payment_status_reconciled id s p d :
  paymentOf id d = Some p ->
  includes statuses s = true ->
  Payment.validate (PaymentRoutes.withStatus s p) = true ->
  existsb isReconciliation
    (emitted d (fst (PaymentRoutes.patchStatus id (Some s) d))) =
  toggles (PaymentDoc.status p) s.
Proof.
  intros Hp Hs V. rewrite (payment_patchStatus_run _ _ _ _ Hp Hs), V.
  cbv zeta. destruct (toggles (PaymentDoc.status p) s).
  - match goal with |- context [Payment.updatePartyBalance ?q ?s] =>
      destruct (updatePartyBalance_trace q s) as [l Hl];
      destruct (Payment.updatePartyBalance q s) as [d2 [[]|e]] end;
    simpl in Hl |- *.
    + rewrite (emitted_app d d2 _ Hl). reflexivity.
    + erewrite emitted_app; [|simpl; rewrite Hl, <- app_assoc; reflexivity].
      reflexivity.
  - simpl. unfold emitted. simpl. now rewrite skipn_all.
Qed.

Lemma payment_status_frame id s p d :
  paymentOf id d = Some p ->
  toggles (PaymentDoc.status p) s = false ->
  parties (fst (PaymentRoutes.patchStatus id (Some s) d)) = parties d.
Proof.
  intros Hp T. destruct (includes statuses s) eqn:Hs.
  - rewrite (payment_patchStatus_run _ _ _ _ Hp Hs), T.
    destruct (Payment.validate _); reflexivity.
  - unfold PaymentRoutes.patchStatus, respond, tryCatch. rewrite Hs.
    cbn [negb]. rewrite orb_true_r. reflexivity.
Qed.

Lemma toggles_pending from s :
  from = "pending" \/ s = "pending" -> toggles from s = false.
Proof.
  intros [-> | ->]; unfold toggles; simpl.
  - reflexivity.
  - now rewrite !andb_false_r.
Qed.

(** * The inventory *)

Lemma item_find_replace i l j :
  itemOf j (Item.replace i l) =
  if (ItemDoc._id i =? j)%nat
  then match itemOf j l with
       | Some _ => Some i
       | None => None
       end
  else itemOf j l.
Proof.
  unfold itemOf. induction l as [|x r IH]; simpl.
  - destruct (_ =? _)%nat; reflexivity.
  - destruct (ItemDoc._id x =? ItemDoc._id i)%nat eqn:E; simpl.
    + apply Nat.eqb_eq in E. rewrite E.
      destruct (ItemDoc._id i =? j)%nat; reflexivity.
    + rewrite IH. destruct (ItemDoc._id x =? j)%nat eqn:F; [|reflexivity].
      destruct (ItemDoc._id i =? j)%nat eqn:G; [|reflexivity].
      apply Nat.eqb_eq in F, G. apply Nat.eqb_neq in E. congruence.
Qed.

Lemma itemOf_id j l i : itemOf j l = Some i -> ItemDoc._id i = j.
Proof.
  unfold itemOf. intros H. apply find_some in H as [_ H].
  now apply Nat.eqb_eq in H.
Qed.

Lemma stockOf_adjust next id l j :
  stockOf j (adjustStock next id l) =
  if (id =? j)%nat then option_map next (stockOf j l) else stockOf j l.
Proof.
  unfold adjustStock, stockOf.
  destruct (itemOf id l) as [item|] eqn:E.
  - rewrite item_find_replace. simpl. rewrite (itemOf_id _ _ _ E).
    destruct (id =? j)%nat eqn:G; [|reflexivity].
    apply Nat.eqb_eq in G. subst j. rewrite E. reflexivity.
  - destruct (id =? j)%nat eqn:G; [|reflexivity].
    apply Nat.eqb_eq in G. subst j. rewrite E. reflexivity.
Qed.

Lemma shape_replace i l :
  (forall x, itemOf (ItemDoc._id i) l = Some x ->
     ItemDoc.productName i = ItemDoc.productName x
     /\ ItemDoc.isUniversal i = ItemDoc.isUniversal x) ->
  shape (Item.replace i l) = shape l.
Proof.
  unfold itemOf. induction l as [|x r IH]; simpl; [reflexivity|].
  intros H. destruct (ItemDoc._id x =? ItemDoc._id i)%nat eqn:E.
  - destruct (H x eq_refl) as [H1 H2]. apply Nat.eqb_eq in E.
    unfold shape. simpl. now rewrite E, H1, H2.
  - simpl. now rewrite IH.
Qed.

Lemma shape_adjust next id l : shape (adjustStock next id l) = shape l.
Proof.
  unfold adjustStock. destruct (itemOf id l) as [item|] eqn:E; [|reflexivity].
  apply shape_replace. simpl. rewrite (itemOf_id _ _ _ E), E.
  intros x [= <-]. split; reflexivity.
Qed.

Lemma uniqueIds_shape l l' : shape l = shape l' -> uniqueIds l -> uniqueIds l'.
Proof.
  unfold uniqueIds. intros H.
  assert (E : forall m, map ItemDoc._id m = map (fun t => fst (fst t)) (shape m)).
  { intros m. unfold shape. rewrite map_map. reflexivity. }
  intros U. rewrite E in U |- *. rewrite <- H. exact U.
Qed.

(** The id of the universal item is read off the shape. *)
Lemma universalOf_shape l l' :
  shape l = shape l' ->
  option_map ItemDoc._id (universalOf l) = option_map ItemDoc._id (universalOf l').
Proof.
  unfold universalOf, shape. revert l'.
  induction l as [|x r IH]; intros [|y r'] H; try discriminate; simpl;
    [reflexivity|].
  simpl in H. inversion H as [[H1 H2 H3 H4]].
  unfold isBardana. rewrite H2, H3.
  destruct (_ && _); simpl; [now rewrite H1|]. now apply IH.
Qed.

Lemma universalOf_itemOf l b :
  uniqueIds l -> universalOf l = Some b -> itemOf (ItemDoc._id b) l = Some b.
Proof.
  unfold uniqueIds, universalOf, itemOf.
  induction l as [|x r IH]; simpl; [discriminate|].
  intros N H. inversion N as [|? ? Hn N']; subst.
  destruct (isBardana x).
  - inversion H; subst. now rewrite Nat.eqb_refl.
  - destruct (ItemDoc._id x =? ItemDoc._id b)%nat eqn:E.
    + exfalso. apply Hn. apply Nat.eqb_eq in E. rewrite E.
      apply in_map. apply find_some in H. tauto.
    + auto.
Qed.

(** ** The loops of the purchase routes as functions of the store *)

Section StockLoops.
Variable lookupFails : ObjectId -> bool.
Variable universalFails : bool.

Lemma increaseStock_run line d :
  PurchaseRoutes.increaseStock lookupFails line d =
  (lineStep lookupFails increase "Error updating stock for item" d line,
   Returned tt).
Proof.
  unfold PurchaseRoutes.increaseStock, lineStep, tryCatch, bind,
    Item.findById, Item.save, consoleError, modify, get, throw, ret.
  destruct (lookupFails _); [reflexivity|].
  fold (itemOf (LineItem.id line) (stock d)).
  destruct (itemOf _ _); reflexivity.
Qed.

Lemma restoreStock_run line d :
  PurchaseRoutes.restoreStock lookupFails line d =
  (lineStep lookupFails restore "Error restoring stock for item" d line,
   Returned tt).
Proof.
  unfold PurchaseRoutes.restoreStock, lineStep, tryCatch, bind,
    Item.findById, Item.save, consoleError, modify, get, throw, ret.
  destruct (lookupFails _); [reflexivity|].
  fold (itemOf (LineItem.id line) (stock d)).
  destruct (itemOf _ _); reflexivity.
Qed.

Lemma forOf_run (body : LineItem.t -> Async unit) step lines :
  (forall line d, body line d = (step d line, Returned tt)) ->
  forall d, forOf lines body d = (fold_left step lines d, Returned tt).
Proof.
  intros H. induction lines as [|x r IH]; intros d; simpl; [reflexivity|].
  unfold bind. rewrite H. apply IH.
Qed.

Lemma updateBardana_run next msg d :
  PurchaseRoutes.updateBardana universalFails next msg d =
  (bardanaStep universalFails next msg d, Returned tt).
Proof.
  unfold PurchaseRoutes.updateBardana, bardanaStep, tryCatch, bind,
    Item.findUniversal, Item.save, consoleError, modify, get, throw, ret.
  destruct universalFails; [reflexivity|].
  fold isBardana. fold (universalOf (stock d)).
  destruct (universalOf _); reflexivity.
Qed.

(** A stock loop touches the item collection and the trace only. *)
Lemma lineStep_stock next msg d line :
  stock (lineStep lookupFails next msg d line) =
  linesStock lookupFails next [line] (stock d).
Proof.
  unfold lineStep, linesStock, adjustStock. simpl.
  destruct (lookupFails _); [reflexivity|].
  destruct (itemOf _ _); reflexivity.
Qed.

Lemma lineStep_frame next msg d line :
  let d' := lineStep lookupFails next msg d line in
  parties d' = parties d /\ purchases d' = purchases d
  /\ payments d' = payments d /\ nextId d' = nextId d
  /\ existsb isLedgerCall (emitted d d') = false.
Proof.
  unfold lineStep. destruct (lookupFails _).
  - simpl. repeat split. erewrite emitted_app; [|reflexivity]. reflexivity.
  - destruct (itemOf _ _); simpl; repeat split;
      unfold emitted; simpl; now rewrite skipn_all.
Qed.

Lemma linesStep_stock next msg lines d :
  stock (fold_left (lineStep lookupFails next msg) lines d) =
  linesStock lookupFails next lines (stock d).
Proof.
  revert d. induction lines as [|x r IH]; intros d; [reflexivity|].
  simpl. rewrite IH, lineStep_stock. reflexivity.
Qed.

Lemma linesStep_parties next msg lines d :
  parties (fold_left (lineStep lookupFails next msg) lines d) = parties d
  /\ purchases (fold_left (lineStep lookupFails next msg) lines d) = purchases d
  /\ nextId (fold_left (lineStep lookupFails next msg) lines d) = nextId d.
Proof.
  revert d. induction lines as [|x r IH]; intros d; [repeat split|].
  simpl. destruct (IH (lineStep lookupFails next msg d x)) as (A & B & C).
  destruct (lineStep_frame next msg d x) as (A' & B' & _ & C' & _).
  rewrite A, B, C. auto.
Qed.

Lemma bardanaStep_stock next msg d :
  uniqueIds (stock d) ->
  stock (bardanaStep universalFails next msg d) =
  bardanaStock universalFails next (stock d).
Proof.
  intros U. unfold bardanaStep, bardanaStock, adjustStock.
  destruct universalFails; [reflexivity|].
  destruct (universalOf (stock d)) as [b|] eqn:E; [|reflexivity].
  rewrite (universalOf_itemOf _ _ U E). reflexivity.
Qed.

Lemma bardanaStep_parties next msg d :
  parties (bardanaStep universalFails next msg d) = parties d
  /\ purchases (bardanaStep universalFails next msg d) = purchases d
  /\ nextId (bardanaStep universalFails next msg d) = nextId d.
Proof.
  unfold bardanaStep. destruct universalFails; [repeat split|].
  destruct (universalOf _); repeat split.
Qed.

Lemma shape_linesStock next lines l :
  shape (linesStock lookupFails next lines l) = shape l.
Proof.
  unfold linesStock. revert l.
  induction lines as [|x r IH]; intros l; [reflexivity|].
  simpl. rewrite IH. destruct (lookupFails _); [reflexivity|].
  apply shape_adjust.
Qed.

Lemma shape_bardanaStock next l :
  shape (bardanaStock universalFails next l) = shape l.
Proof.
  unfold bardanaStock. destruct universalFails; [reflexivity|].
  destruct (universalOf l); [apply shape_adjust|reflexivity].
Qed.

(** The stock of the item [j] after a loop: its lines applied in order. *)
Lemma stockOf_linesStock next lines l j :
  stockOf j (linesStock lookupFails next lines l) =
  option_map (fun s => fold_left next (bagsOf lookupFails j lines) s)
    (stockOf j l).
Proof.
  unfold linesStock, bagsOf. revert l.
  induction lines as [|x r IH]; intros l; simpl.
  - destruct (stockOf j l); reflexivity.
  - rewrite IH. destruct (lookupFails (LineItem.id x)) eqn:F.
    + rewrite andb_false_r. reflexivity.
    + rewrite andb_true_r, stockOf_adjust.
      destruct (LineItem.id x =? j)%nat; [|reflexivity].
      destruct (stockOf j l); reflexivity.
Qed.

End StockLoops.

(** * Purchases *)

Section PurchaseRuns.
Variable validate : PurchaseDoc.t -> bool.
Variable total : list LineItem.t -> Q.
Variable nextBillNumber : list PurchaseDoc.t -> string.
Variable lookupFails : ObjectId -> bool.
Variable universalFails : bool.

Let post := PurchaseRoutes.post validate total nextBillNumber lookupFails
  universalFails.
Let put := PurchaseRoutes.put validate total lookupFails universalFails.
Let delete := PurchaseRoutes.delete lookupFails universalFails.

Lemma purchase_save_valid isNew p d :
  validate p = true ->
  Purchase.save validate total isNew p d =
  (setPurchases
     (if isNew then (purchases d ++ [Purchase.preSave total p])%list
      else Purchase.replace (Purchase.preSave total p) (purchases d)) d,
   Returned (Purchase.preSave total p)).
Proof.
  intros V. unfold Purchase.save. rewrite V. reflexivity.
Qed.

Lemma purchase_save_invalid isNew p d :
  validate p = false ->
  Purchase.save validate total isNew p d = (d, Thrown ValidationError).
Proof.
  intros V. unfold Purchase.save. rewrite V. reflexivity.
Qed.

Lemma purchase_post_run body d name phone lines date party d1 :
  PurchaseRoutes.supplierName body = Some name ->
  PurchaseRoutes.phoneNumber body = Some phone ->
  PurchaseRoutes.items body = Some lines ->
  PurchaseRoutes.date body = Some date ->
  (name =? "") || (phone =? "") || (date =? "") = false ->
  lines <> [] ->
  Party.findOrCreate name phone (Some "supplier") d = (d1, Returned party) ->
  partyOf (PartyDoc._id party) d1 = Some party ->
  let p := PurchaseDoc.mk (nextId d1) (nextBillNumber (purchases d)) name
             phone lines 0 date
             (orDefault (PurchaseRoutes.status body) "pending")
             (PurchaseRoutes.pdfUri body) (Some (PartyDoc._id party)) in
  post body d =
  if validate p then
    (created total lookupFails universalFails party p d1,
     mkRes 201 (Some (nextId d1)))
  else (record (ConsoleError "Error creating purchase:") (bumpId d1),
        mkRes 400 None).
Proof.
  intros Hn Hp Hl Hd Hne Hnil R Hf p.
  unfold post, PurchaseRoutes.post, respond, tryCatch.
  rewrite Hn, Hp, Hl, Hd, Hne.
  assert (E0 : (List.length lines =? 0)%nat = false)
    by (destruct lines; [congruence|reflexivity]).
  rewrite E0.
  unfold bind at 1. unfold Purchase.generateNextBillNumber, get at 1.
  rewrite (bind_returned _ _ _ _ _ R).
  unfold bind at 1. unfold get at 1.
  unfold bind at 1. unfold modify at 1.
  unfold bind at 1. fold p.
  destruct (validate p) eqn:V.
  - rewrite purchase_save_valid by exact V.
    unfold bind at 1.
    assert (Hf' : partyOf (PartyDoc._id party)
              (setPurchases (purchases (bumpId d1) ++ [Purchase.preSave total p])
                 (bumpId d1)) = Some party) by exact Hf.
    rewrite (updateBalance_found _ _ _ _ _ Hf').
    unfold bind at 1.
    rewrite (forOf_run _ _ _ (increaseStock_run lookupFails)).
    unfold bind at 1. rewrite updateBardana_run. reflexivity.
  - rewrite purchase_save_invalid by exact V. reflexivity.
Qed.

Lemma purchase_delete_run id p pid d :
  purchaseOf id d = Some p ->
  PurchaseDoc.partyId p = Some pid ->
  let d1 := unstocked lookupFails universalFails p d in
  delete id d =
  match partyOf pid d with
  | Some party =>
      let d2 :=
        setParties
          (Party.replace
             (credited subtract (PurchaseDoc.totalAmount p) party)
             (parties d1))
          (record
             (PartyUpdateBalance pid (PurchaseDoc.totalAmount p) subtract)
             d1) in
      (setPurchases (Purchase.remove id (purchases d2)) d2, mkRes 200 None)
  | None =>
      (record (ConsoleError "Error deleting purchase:")
         (record
            (PartyUpdateBalance pid (PurchaseDoc.totalAmount p) subtract) d1),
       mkRes 500 None)
  end.
Proof.
  intros Hp Hpid d1.
  unfold delete, PurchaseRoutes.delete, respond, tryCatch.
  unfold bind at 1. unfold Purchase.findById, get.
  unfold purchaseOf in Hp. rewrite Hp.
  unfold bind at 1.
  rewrite (forOf_run _ _ _ (restoreStock_run lookupFails)).
  unfold bind at 1. rewrite updateBardana_run. fold (unstocked lookupFails universalFails p d). fold d1.
  rewrite Hpid. unfold bind at 1. unfold bind at 1.
  assert (Hs : partyOf pid d1 = partyOf pid d).
  { unfold partyOf, d1, unstocked.
    destruct (bardanaStep_parties universalFails
                (fun s => PurchaseRoutes.clamp
                   (s - PurchaseRoutes.totalKg (PurchaseDoc.items p) / 30))
                "Error restoring Bardana stock:"
                (fold_left (lineStep lookupFails restore restoreErr)
                   (PurchaseDoc.items p) d)) as [-> _].
    destruct (linesStep_parties lookupFails restore restoreErr
                (PurchaseDoc.items p) d) as [-> _]. reflexivity. }
  destruct (partyOf pid d) as [party|] eqn:Hf.
  - rewrite (updateBalance_found _ _ _ _ _ Hs). reflexivity.
  - rewrite (updateBalance_missing _ _ _ _ Hs). reflexivity.
Qed.

End PurchaseRuns.

(** * Arithmetic of the stock adjustments *)

Lemma clamp_nonneg x : 0 <= PurchaseRoutes.clamp x.
Proof.
  unfold PurchaseRoutes.clamp, Qltb.
  destruct (Qle_bool 0 x) eqn:E; simpl.
  - now apply Qle_bool_iff.
  - apply Qle_refl.
Qed.

Lemma bags_nonneg q : 0 <= q -> 0 <= q / 30.
Proof.
  intros H. unfold Qdiv. apply Qmult_le_0_compat; [exact H|].
  discriminate.
Qed.

Lemma sumQ_nonneg l : Forall (fun x => 0 <= x) l -> 0 <= sumQ l.
Proof.
  induction 1 as [|x r Hx _ IH]; simpl; [apply Qle_refl|].
  rewrite <- (Qplus_0_l 0). now apply Qplus_le_compat.
Qed.

Lemma fold_increase l s : fold_left increase l s == s + sumQ l.
Proof.
  revert s. induction l as [|x r IH]; intros s; simpl.
  - ring.
  - rewrite IH. unfold increase. ring.
Qed.

Lemma fold_restore_nonneg l s : 0 <= s -> 0 <= fold_left restore l s.
Proof.
  revert s. induction l as [|x r IH]; intros s Hs; simpl; [exact Hs|].
  apply IH. apply clamp_nonneg.
Qed.

Lemma fold_increase_nonneg l s :
  Forall (fun x => 0 <= x) l -> 0 <= s -> 0 <= fold_left increase l s.
Proof.
  intros H Hs. rewrite fold_increase. pose proof (sumQ_nonneg _ H). lra.
Qed.

Lemma totalKg_sum lines :
  PurchaseRoutes.totalKg lines == sumQ (map LineItem.quantity lines).
Proof.
  unfold PurchaseRoutes.totalKg.
  assert (G : forall s, fold_left (fun sum item => sum + LineItem.quantity item)
                          lines s == s + sumQ (map LineItem.quantity lines)).
  { induction lines as [|x r IH]; intros s; simpl; [ring|].
    rewrite IH. ring. }
  rewrite G. ring.
Qed.

Lemma totalKg_nonneg lines :
  nonnegative lines -> 0 <= PurchaseRoutes.totalKg lines.
Proof.
  intros H. rewrite totalKg_sum. apply sumQ_nonneg.
  unfold nonnegative in H. rewrite Forall_forall in *.
  intros x Hx. apply in_map_iff in Hx as (l & <- & Hl). now apply H.
Qed.

(** ** The effect of the three routes on the item collection *)

Section StockEffects.
Variable lookupFails : ObjectId -> bool.
Variable universalFails : bool.

Lemma isUniversalId_shape l l' j :
  shape l = shape l' ->
  isUniversalId universalFails l j = isUniversalId universalFails l' j.
Proof.
  intros H. unfold isUniversalId.
  pose proof (universalOf_shape _ _ H) as E.
  destruct (universalOf l), (universalOf l'); simpl in E; try discriminate;
    [inversion E as [E']; now rewrite E'|reflexivity].
Qed.

Lemma stockOf_bardanaStock next l j :
  stockOf j (bardanaStock universalFails next l) =
  option_map (fun s => if isUniversalId universalFails l j then next s else s)
    (stockOf j l).
Proof.
  unfold bardanaStock, isUniversalId.
  destruct universalFails; simpl.
  - destruct (stockOf j l); reflexivity.
  - destruct (universalOf l) as [b|].
    + rewrite stockOf_adjust. destruct (_ =? _)%nat; [reflexivity|].
      destruct (stockOf j l); reflexivity.
    + destruct (stockOf j l); reflexivity.
Qed.

Lemma option_map_map {A B C} (f : A -> B) (g : B -> C) o :
  option_map g (option_map f o) = option_map (fun x => g (f x)) o.
Proof. destruct o; reflexivity. Qed.

Lemma stockOf_createStock lines l j :
  stockOf j (createStock lookupFails universalFails lines l) =
  option_map
    (fun s =>
       let s1 := fold_left increase (bagsOf lookupFails j lines) s in
       if isUniversalId universalFails l j
       then s1 + PurchaseRoutes.totalKg lines / 30 else s1)
    (stockOf j l).
Proof.
  unfold createStock. rewrite stockOf_bardanaStock, stockOf_linesStock.
  rewrite option_map_map.
  rewrite (isUniversalId_shape _ l) by apply shape_linesStock. reflexivity.
Qed.

Lemma shape_deleteStock lines l :
  shape (deleteStock lookupFails universalFails lines l) = shape l.
Proof.
  unfold deleteStock. now rewrite shape_bardanaStock, shape_linesStock.
Qed.

End StockEffects.

Section PurchaseStock.
Variable total : list LineItem.t -> Q.
Variable lookupFails : ObjectId -> bool.
Variable universalFails : bool.

Lemma created_stock_eq party p d1 :
  uniqueIds (stock d1) ->
  stock (created total lookupFails universalFails party p d1) =
  createStock lookupFails universalFails (PurchaseDoc.items p) (stock d1).
Proof.
  intros U. unfold created, createStock. cbv zeta.
  rewrite bardanaStep_stock.
  - rewrite linesStep_stock. reflexivity.
  - rewrite linesStep_stock. simpl.
    eapply uniqueIds_shape; [|exact U]. symmetry. apply shape_linesStock.
Qed.

Lemma unstocked_stock_eq p d :
  uniqueIds (stock d) ->
  stock (unstocked lookupFails universalFails p d) =
  deleteStock lookupFails universalFails (PurchaseDoc.items p) (stock d).
Proof.
  intros U. unfold unstocked, deleteStock.
  rewrite bardanaStep_stock.
  - rewrite linesStep_stock. reflexivity.
  - rewrite linesStep_stock.
    eapply uniqueIds_shape; [|exact U]. symmetry. apply shape_linesStock.
Qed.

End PurchaseStock.

(** ** The creation of a purchase *)

Section Life.
Variable validate : PurchaseDoc.t -> bool.
Variable total : list LineItem.t -> Q.
Variable nextBillNumber : list PurchaseDoc.t -> string.
Variable lookupFails : ObjectId -> bool.
Variable universalFails : bool.

Let post := PurchaseRoutes.post validate total nextBillNumber lookupFails
  universalFails.

(** A creation answered 201 went through every step of the route. *)
Lemma purchase_post_created body d d1 r1 :
  partiesWf d ->
  post body d = (d1, r1) ->
  statusCode r1 = 201%nat ->
  exists name phone lines date party dp,
    PurchaseRoutes.items body = Some lines
    /\ Party.findOrCreate name phone (Some "supplier") d = (dp, Returned party)
    /\ d1 = created total lookupFails universalFails party
              (PurchaseDoc.mk (nextId dp) (nextBillNumber (purchases d)) name
                 phone lines 0 date
                 (orDefault (PurchaseRoutes.status body) "pending")
                 (PurchaseRoutes.pdfUri body) (Some (PartyDoc._id party))) dp
    /\ r1 = mkRes 201 (Some (nextId dp)).
Proof.
  intros W H C.
  destruct (PurchaseRoutes.supplierName body) as [name|] eqn:Hn.
  2:{ unfold post, PurchaseRoutes.post, respond, tryCatch in H.
      rewrite Hn in H. inversion H; subst; discriminate. }
  destruct (PurchaseRoutes.phoneNumber body) as [phone|] eqn:Hp.
  2:{ unfold post, PurchaseRoutes.post, respond, tryCatch in H.
      rewrite Hn, Hp in H. inversion H; subst; discriminate. }
  destruct (PurchaseRoutes.items body) as [lines|] eqn:Hl.
  2:{ unfold post, PurchaseRoutes.post, respond, tryCatch in H.
      rewrite Hn, Hp, Hl in H. inversion H; subst; discriminate. }
  destruct (PurchaseRoutes.date body) as [date|] eqn:Hd.
  2:{ unfold post, PurchaseRoutes.post, respond, tryCatch in H.
      rewrite Hn, Hp, Hl, Hd in H. inversion H; subst; discriminate. }
  destruct ((name =? "") || (phone =? "") || (date =? "")) eqn:He.
  { unfold post, PurchaseRoutes.post, respond, tryCatch in H.
    rewrite Hn, Hp, Hl, Hd, He in H. inversion H; subst; discriminate. }
  destruct lines as [|l0 ls] eqn:El.
  { unfold post, PurchaseRoutes.post, respond, tryCatch in H.
    rewrite Hn, Hp, Hl, Hd, He in H. inversion H; subst; discriminate. }
  rewrite <- El in *.
  assert (Hnil : lines <> []) by (rewrite El; discriminate).
  destruct (findOrCreate_run name phone (Some "supplier") d W)
    as (party & dp & R & Hf & _).
  unfold post in H.
  rewrite (purchase_post_run validate total nextBillNumber lookupFails
             universalFails body d name phone lines date party dp
             Hn Hp Hl Hd He Hnil R Hf) in H.
  cbv zeta in H.
  destruct (validate _); [|inversion H; subst; discriminate].
  inversion H; subst d1 r1.
  exists name, phone, lines, date, party, dp. repeat split. exact R.
Qed.

End Life.

(** * What every path of a route keeps *)

Section Keeps.
Variable I : Db -> Prop.

Lemma keeps_ret {A} (a : A) : keeps I (ret a).
Proof. intros d H. exact H. Qed.

Lemma keeps_throw {A} e : keeps I (@throw A e).
Proof. intros d H. exact H. Qed.

Lemma keeps_get {A} (f : Db -> A) : keeps I (get f).
Proof. intros d H. exact H. Qed.

Lemma keeps_modify f : (forall d, I d -> I (f d)) -> keeps I (modify f).
Proof. intros Hf d H. simpl. now apply Hf. Qed.

Lemma keeps_bind {A B} (m : Async A) (k : A -> Async B) :
  keeps I m -> (forall a, keeps I (k a)) -> keeps I (bind m k).
Proof.
  intros Hm Hk d H. unfold bind. specialize (Hm d H).
  destruct (m d) as [d' [a|e]]; simpl in *; [now apply Hk|exact Hm].
Qed.

Lemma keeps_tryCatch {A} (m : Async A) h :
  keeps I m -> (forall e, keeps I (h e)) -> keeps I (tryCatch m h).
Proof.
  intros Hm Hh d H. unfold tryCatch. specialize (Hm d H).
  destruct (m d) as [d' [a|e]]; simpl in *; [exact Hm|now apply Hh].
Qed.

Lemma keeps_respond body h d :
  keeps I body -> (forall e, keeps I (h e)) -> I d -> I (fst (respond body h d)).
Proof.
  intros Hb Hh H. unfold respond.
  pose proof (keeps_tryCatch body h Hb Hh d H) as K.
  destruct (tryCatch body h d) as [d' [r|e]]; exact K.
Qed.

Lemma keeps_forOf {A} (l : list A) body :
  (forall x, keeps I (body x)) -> keeps I (forOf l body).
Proof.
  intros Hb. induction l as [|x r IH]; simpl; [apply keeps_ret|].
  apply keeps_bind; [apply Hb|intros _; exact IH].
Qed.

End Keeps.

Lemma replace_nonneg i l :
  0 <= ItemDoc.openingStock i ->
  stockNonnegative l -> stockNonnegative (Item.replace i l).
Proof.
  intros Hi. induction 1 as [|x r Hx Hr IH]; simpl; [constructor|].
  destruct (_ =? _)%nat; constructor; assumption.
Qed.

Lemma itemOf_nonneg l j i :
  stockNonnegative l -> itemOf j l = Some i -> 0 <= ItemDoc.openingStock i.
Proof.
  unfold stockNonnegative, itemOf. intros N H.
  apply find_some in H as [H _]. rewrite Forall_forall in N. now apply N.
Qed.

Section KeepsStock.
Variable validate : PurchaseDoc.t -> bool.
Variable total : list LineItem.t -> Q.
Variable nextBillNumber : list PurchaseDoc.t -> string.
Variable lookupFails : ObjectId -> bool.
Variable universalFails : bool.

Lemma keeps_consoleError msg : keeps stockOk (consoleError msg).
Proof. apply keeps_modify. intros d H. exact H. Qed.

Lemma keeps_updateBalance pid amount op :
  keeps stockOk (Party.updateBalance pid amount op).
Proof.
  unfold Party.updateBalance.
  apply keeps_bind; [apply keeps_modify; auto|intros _].
  apply keeps_bind; [apply keeps_get|intros [p|]]; [|apply keeps_throw].
  apply keeps_bind; [apply keeps_modify; auto|intros _; apply keeps_ret].
Qed.

Lemma keeps_findOrCreate name phone ty :
  keeps stockOk (Party.findOrCreate name phone ty).
Proof.
  unfold Party.findOrCreate.
  apply keeps_bind; [apply keeps_get|intros [p|]]; [apply keeps_ret|].
  apply keeps_bind; [apply keeps_get|intros id].
  apply keeps_bind; [apply keeps_modify; auto|intros _; apply keeps_ret].
Qed.

Lemma keeps_purchase_save isNew p :
  keeps stockOk (Purchase.save validate total isNew p).
Proof.
  unfold Purchase.save. destruct (negb _); [apply keeps_throw|].
  apply keeps_bind; [apply keeps_modify; auto|intros _; apply keeps_ret].
Qed.

Lemma keeps_lineStep next msg line :
  (forall s, 0 <= s -> 0 <= next s (LineItem.quantity line / 30)) ->
  forall d, stockOk d -> stockOk (lineStep lookupFails next msg d line).
Proof.
  intros Hn d H. unfold lineStep. destruct (lookupFails _); [exact H|].
  destruct (itemOf _ _) as [item|] eqn:E; [|exact H].
  unfold stockOk. simpl. apply replace_nonneg; [|exact H].
  simpl. apply Hn. exact (itemOf_nonneg _ _ _ H E).
Qed.

Lemma keeps_increaseStock line :
  0 <= LineItem.quantity line ->
  keeps stockOk (PurchaseRoutes.increaseStock lookupFails line).
Proof.
  intros Hq d H. rewrite increaseStock_run. simpl.
  apply keeps_lineStep; [|exact H].
  intros s Hs. unfold increase. pose proof (bags_nonneg _ Hq). lra.
Qed.

Lemma keeps_restoreStock line :
  keeps stockOk (PurchaseRoutes.restoreStock lookupFails line).
Proof.
  intros d H. rewrite restoreStock_run. simpl.
  apply keeps_lineStep; [|exact H].
  intros s Hs. apply clamp_nonneg.
Qed.

Lemma keeps_updateBardana next msg :
  (forall s, 0 <= s -> 0 <= next s) ->
  keeps stockOk (PurchaseRoutes.updateBardana universalFails next msg).
Proof.
  intros Hn d H. rewrite updateBardana_run. simpl.
  unfold bardanaStep. destruct universalFails; [exact H|].
  destruct (universalOf _) as [b|] eqn:E; [|exact H].
  unfold stockOk. simpl. apply replace_nonneg; [|exact H].
  simpl. apply Hn. unfold universalOf in E.
  apply find_some in E as [E _]. unfold stockOk, stockNonnegative in H.
  rewrite Forall_forall in H. now apply H.
Qed.

Lemma keeps_increaseLoop lines :
  nonnegative lines ->
  keeps stockOk (forOf lines (PurchaseRoutes.increaseStock lookupFails)).
Proof.
  induction 1 as [|x r Hx _ IH]; simpl; [apply keeps_ret|].
  apply keeps_bind; [now apply keeps_increaseStock|intros _; exact IH].
Qed.

Lemma keeps_onError msg e : keeps stockOk (PurchaseRoutes.onError msg e).
Proof.
  unfold PurchaseRoutes.onError.
  apply keeps_bind; [apply keeps_consoleError|intros _].
  destruct (isValidationError e); apply keeps_ret.
Qed.

Lemma post_keeps_stock body d :
  linesNonnegative body -> stockOk d ->
  stockOk (fst (PurchaseRoutes.post validate total nextBillNumber lookupFails
                  universalFails body d)).
Proof.
  intros Nn H. unfold PurchaseRoutes.post.
  apply keeps_respond; [|apply keeps_onError|exact H].
  destruct (PurchaseRoutes.supplierName body); [|apply keeps_ret].
  destruct (PurchaseRoutes.phoneNumber body); [|apply keeps_ret].
  destruct (PurchaseRoutes.items body) as [lines|] eqn:El; [|apply keeps_ret].
  destruct (PurchaseRoutes.date body); [|apply keeps_ret].
  destruct (_ || _); [apply keeps_ret|].
  destruct (_ =? _)%nat; [apply keeps_ret|].
  pose proof (Nn _ El) as Nl.
  apply keeps_bind; [apply keeps_get|intros billNo].
  apply keeps_bind; [apply keeps_findOrCreate|intros party].
  apply keeps_bind; [apply keeps_get|intros id].
  apply keeps_bind; [apply keeps_modify; auto|intros _].
  apply keeps_bind; [apply keeps_purchase_save|intros purchase].
  apply keeps_bind; [apply keeps_updateBalance|intros _].
  apply keeps_bind; [now apply keeps_increaseLoop|intros _].
  apply keeps_bind; [|intros _; apply keeps_ret].
  apply keeps_updateBardana. intros x Hx.
  pose proof (bags_nonneg _ (totalKg_nonneg _ Nl)). lra.
Qed.

Lemma put_keeps_stock id body d :
  linesNonnegative body -> stockOk d ->
  stockOk (fst (PurchaseRoutes.put validate total lookupFails universalFails
                  id body d)).
Proof.
  intros Nn H. unfold PurchaseRoutes.put.
  apply keeps_respond; [|apply keeps_onError|exact H].
  apply keeps_bind; [apply keeps_get|intros [purchase|]]; [|apply keeps_ret].
  apply keeps_bind; [apply keeps_purchase_save|intros saved].
  apply keeps_bind.
  { destruct (PurchaseDoc.partyId saved); [|apply keeps_ret].
    destruct (negb _); [|apply keeps_ret].
    apply keeps_bind; [apply keeps_updateBalance|intros _; apply keeps_ret]. }
  intros _. apply keeps_bind; [|intros _; apply keeps_ret].
  destruct (PurchaseRoutes.items body) as [lines|] eqn:El; [|apply keeps_ret].
  destruct (negb _); [|apply keeps_ret].
  apply keeps_bind; [apply keeps_forOf, keeps_restoreStock|intros _].
  apply keeps_bind; [apply keeps_increaseLoop; now apply Nn|intros _].
  apply keeps_updateBardana. intros s Hs. apply clamp_nonneg.
Qed.

Lemma delete_keeps_stock id d :
  stockOk d ->
  stockOk (fst (PurchaseRoutes.delete lookupFails universalFails id d)).
Proof.
  intros H. unfold PurchaseRoutes.delete.
  apply keeps_respond; [| |exact H].
  2:{ intros e. apply keeps_bind; [apply keeps_consoleError|].
      intros _. apply keeps_ret. }
  apply keeps_bind; [apply keeps_get|intros [purchase|]]; [|apply keeps_ret].
  apply keeps_bind; [apply keeps_forOf, keeps_restoreStock|intros _].
  apply keeps_bind.
  { apply keeps_updateBardana. intros s Hs. apply clamp_nonneg. }
  intros _. apply keeps_bind.
  { destruct (PurchaseDoc.partyId purchase); [|apply keeps_ret].
    apply keeps_bind; [apply keeps_updateBalance|intros _; apply keeps_ret]. }
  intros _. apply keeps_bind; [apply keeps_modify; auto|].
  intros _. apply keeps_ret.
Qed.

End KeepsStock.

(** * Absorbed failures *)

Section Absorbed.
Variable lookupFails : ObjectId -> bool.


Lemma linesStep_trace next msg lines d :
  trace (fold_left (lineStep lookupFails next msg) lines d) =
  (trace d ++ map (fun _ => ConsoleError msg) (failing lookupFails lines))%list.
Proof.
  unfold failing. revert d.
  induction lines as [|x r IH]; intros d; simpl.
  - now rewrite app_nil_r.
  - rewrite IH. unfold lineStep.
    destruct (lookupFails (LineItem.id x)); simpl.
    + now rewrite <- app_assoc.
    + destruct (itemOf _ _); reflexivity.
Qed.


End Absorbed.

Section Responses.
Variable validate : PurchaseDoc.t -> bool.
Variable total : list LineItem.t -> Q.
Variable nextBillNumber : list PurchaseDoc.t -> string.



Lemma purchase_patchStatus_frame id status d :
  let d' := fst (PurchaseRoutes.patchStatus validate total id status d) in
  parties d' = parties d
  /\ existsb isLedgerCall (emitted d d') = false
  /\ existsb isReconciliation (emitted d d') = false.
Proof.
  cbv zeta.
  assert (K : ledgerUntouched d
                (fst (PurchaseRoutes.patchStatus validate total id status d))).
  { unfold PurchaseRoutes.patchStatus.
    assert (Kc : forall msg, keeps (ledgerUntouched d) (consoleError msg)).
    { intros msg. apply keeps_modify. intros x (Hx & l & Hl & A & B).
      split; [exact Hx|]. exists (l ++ [ConsoleError msg])%list. simpl.
      rewrite Hl, <- app_assoc, !existsb_app, A, B. repeat split. }
    apply keeps_respond.
    - destruct status as [status|]; [|apply keeps_ret].
      destruct (_ || _); [apply keeps_ret|].
      apply keeps_bind; [apply keeps_get|intros [p|]]; [|apply keeps_ret].
      apply keeps_bind; [|intros q; apply keeps_ret].
      unfold Purchase.save. destruct (negb _); [apply keeps_throw|].
      apply keeps_bind; [|intros _; apply keeps_ret].
      apply keeps_modify. intros x H. exact H.
    - intros e. apply keeps_bind; [apply Kc|intros _; apply keeps_ret].
    - split; [reflexivity|]. exists []. rewrite app_nil_r. repeat split. }
  destruct K as (Hp & l & Hl & A & B).
  rewrite (emitted_app _ _ _ Hl). repeat split; assumption.
Qed.

End Responses.

(** * The claims *)

Section Claims.
Variable validate : PurchaseDoc.t -> bool.
Variable total : list LineItem.t -> Q.
Variable nextBillNumber : list PurchaseDoc.t -> string.
Variable lookupFails : ObjectId -> bool.
Variable universalFails : bool.

Let post := PurchaseRoutes.post validate total nextBillNumber lookupFails
  universalFails.
Let put := PurchaseRoutes.put validate total lookupFails universalFails.
Let delete := PurchaseRoutes.delete lookupFails universalFails.

(** C2 (amended).  While the line-item quantities of the requests are
    not negative, no stock is negative after any sequence of purchase
    create, update and delete requests: a decrease is clamped at 0
    ([restore] is never negative), an increase adds a quantity that is
    not negative and has no clamp. *)
Theorem stock_never_negative requests d :
  stockNonnegative (stock d) ->
  Forall requestNonnegative requests ->
  stockNonnegative
    (stock (fold_left
              (serve validate total nextBillNumber lookupFails universalFails)
              requests d))
  /\ (forall s bags, 0 <= restore s bags)
  /\ (forall s bags, 0 <= s -> 0 <= bags -> 0 <= increase s bags).
Proof.
  intros N F. split.
  - revert d N. induction F as [|r rs Hr _ IH]; intros d N; [exact N|].
    simpl. apply IH. destruct r as [body|id body|id]; simpl.
    + now apply post_keeps_stock.
    + now apply put_keeps_stock.
    + now apply delete_keeps_stock.
  - split.
    + intros s bags. apply clamp_nonneg.
    + intros s bags Hs Hb. unfold increase. lra.
Qed.


End Claims.

Section Aggregate.
Variable validate : PurchaseDoc.t -> bool.
Variable total : list LineItem.t -> Q.
Variable nextBillNumber : list PurchaseDoc.t -> string.
Variable lookupFails : ObjectId -> bool.

Let post := PurchaseRoutes.post validate total nextBillNumber lookupFails
  false.

Lemma bagsOf_other j lines :
  Forall (fun line => LineItem.id line <> j) lines ->
  bagsOf lookupFails j lines = [].
Proof.
  unfold bagsOf. induction 1 as [|x r Hx _ IH]; simpl; [reflexivity|].
  apply Nat.eqb_neq in Hx. now rewrite Hx.
Qed.

Lemma created_trace party p dp :
  trace (created total lookupFails false party p dp) =
  (trace dp
   ++ PartyUpdateBalance (PartyDoc._id party) (total (PurchaseDoc.items p)) add
   :: map (fun _ => ConsoleError stockErr)
        (failing lookupFails (PurchaseDoc.items p)))%list.
Proof.
  unfold created. cbv zeta.
  assert (B : forall next msg d, trace (bardanaStep false next msg d) = trace d).
  { intros next msg d. unfold bardanaStep.
    destruct (universalOf _); reflexivity. }
  rewrite B, linesStep_trace. simpl. now rewrite <- app_assoc.
Qed.

(** C10 (amended).  On a purchase create that is answered 201, the stock
    of the universal Bardana item grows by the sum of all line-item
    quantities divided by 30, on top of the bags of the line items that
    name the Bardana item itself; when no line item names it, it grows
    by that sum alone.  A line item whose id matches no stored item is
    skipped for its own stock adjustment without an error (only a lookup
    that rejects is logged) and still counts in the sum. *)
Theorem bardana_increase_on_create body lines b d :
  wellFormed d ->
  PurchaseRoutes.items body = Some lines ->
  universalOf (stock d) = Some b ->
  statusCode (snd (post body d)) = 201%nat ->
  exists v,
    stockOf (ItemDoc._id b) (stock (fst (post body d))) = Some v
    /\ v == ItemDoc.openingStock b
            + sumQ (bagsOf lookupFails (ItemDoc._id b) lines)
            + PurchaseRoutes.totalKg lines / 30
    /\ (Forall (fun line => LineItem.id line <> ItemDoc._id b) lines ->
        v == ItemDoc.openingStock b + PurchaseRoutes.totalKg lines / 30)
    /\ (forall line, In line lines ->
          stockOf (LineItem.id line) (stock d) = None ->
          stockOf (LineItem.id line) (stock (fst (post body d))) = None)
    /\ filter isConsoleError (emitted d (fst (post body d))) =
       map (fun _ => ConsoleError stockErr) (failing lookupFails lines).
Proof.
  intros W Hl Hu C.
  destruct (purchase_post_created validate total nextBillNumber lookupFails
              false body d _ _ (proj1 W) (surjective_pairing _) C)
    as (name & phone & lines' & date & party & dp & Hl' & R & E & _).
  rewrite Hl in Hl'. inversion Hl'; subst lines'. clear Hl'.
  destruct (findOrCreate_run name phone (Some "supplier") d (proj1 W))
    as (party' & dp' & R' & _ & _ & _ & Htr & _ & _ & Hst).
  rewrite R in R'. inversion R'; subst party' dp'. clear R'.
  destruct W as (_ & U & _).
  fold post in E. rewrite E.
  rewrite created_stock_eq by (now rewrite Hst).
  rewrite Hst. cbn [PurchaseDoc.items].
  assert (Hs : stockOf (ItemDoc._id b) (stock d)
               = Some (ItemDoc.openingStock b)).
  { unfold stockOf. now rewrite (universalOf_itemOf _ _ U Hu). }
  assert (Hi : isUniversalId false (stock d) (ItemDoc._id b) = true).
  { unfold isUniversalId. rewrite Hu. simpl. apply Nat.eqb_refl. }
  eexists. split.
  { rewrite stockOf_createStock, Hs, Hi. reflexivity. }
  split.
  { cbv zeta. rewrite fold_increase. reflexivity. }
  split.
  { intros F. cbv zeta. rewrite (bagsOf_other _ _ F). simpl. reflexivity. }
  split.
  { intros line _ Hn. now rewrite stockOf_createStock, Hn. }
  erewrite emitted_app; [|rewrite created_trace, Htr; reflexivity].
  cbn [PurchaseDoc.items filter isConsoleError].
  induction (failing lookupFails lines) as [|x r IH]; simpl;
    [reflexivity|now rewrite IH].
Qed.

End Aggregate.

(** C5 (amended).  A payment status update re-invokes the ledger
    reconciliation ([updatePartyBalance]) exactly when the transition is
    completed to cancelled or cancelled to completed; a purchase status
    update never touches the ledger, whatever the transition; every
    transition that involves pending leaves the party balances as they
    are, for payments and purchases alike. *)
Theorem status_update_reconciliation :
  (forall id s p d,
     paymentOf id d = Some p ->
     includes statuses s = true ->
     Payment.validate (PaymentRoutes.withStatus s p) = true ->
     existsb isReconciliation
       (emitted d (fst (PaymentRoutes.patchStatus id (Some s) d)))
     = toggles (PaymentDoc.status p) s)
  /\ (forall validate total id status d,
        let d' := fst (PurchaseRoutes.patchStatus validate total id status d) in
        parties d' = parties d
        /\ existsb isLedgerCall (emitted d d') = false
        /\ existsb isReconciliation (emitted d d') = false)
  /\ (forall id s p d,
        paymentOf id d = Some p ->
        PaymentDoc.status p = "pending" \/ s = "pending" ->
        parties (fst (PaymentRoutes.patchStatus id (Some s) d)) = parties d).
Proof.
  split; [exact payment_status_reconciled|].
  split; [exact purchase_patchStatus_frame|].
  intros id s p d Hp H. apply (payment_status_frame _ _ _ _ Hp).
  now apply toggles_pending.
Qed.


(** C9.  A payment update (PUT) whose amount is absent or equal to the
    stored one modifies no party, whatever other fields it changes.  An
    update that is answered 200 with a changed amount, on a payment with
    a party, adds the original amount back and subtracts the new one:
    the balance of the party changes by the original amount minus the
    new amount, and no other balance changes. *)
Theorem payment_update_balance :
  (forall id body d,
     (forall p a, paymentOf id d = Some p ->
        PaymentRoutes.amount body = Some a -> a == PaymentDoc.amount p) ->
     parties (fst (PaymentRoutes.put id body d)) = parties d)
  /\ (forall id body p pid a d d' r,
        paymentOf id d = Some p ->
        PaymentDoc.partyId p = Some pid ->
        PaymentRoutes.amount body = Some a ->
        ~ a == PaymentDoc.amount p ->
        PaymentRoutes.put id body d = (d', r) ->
        statusCode r = 200%nat ->
        exists b b',
          balanceOf pid d = Some b
          /\ balanceOf pid d' = Some b'
          /\ b' - b == PaymentDoc.amount p - a
          /\ (forall j, j <> pid -> balanceOf j d' = balanceOf j d)
          /\ emitted d d' =
             [PartyUpdateBalance pid (PaymentDoc.amount p) add;
              UpdatePartyBalanceCalled (PaymentDoc.paymentNo p);
              PartyUpdateBalance pid a subtract]).
Proof.
  split; [exact payment_put_same_amount|exact payment_put_new_amount].
Qed.

(** * Counterexamples, failing inputs and witnesses *)

Ltac qle := unfold Qle, Z.le; simpl; discriminate.

Lemma shop_wellFormed : wellFormed shop.
Proof.
  repeat split; simpl; repeat constructor; simpl; intuition discriminate.
Qed.

Lemma wheat_nonnegative kg : 0 <= kg -> linesNonnegative (order (wheat kg)).
Proof.
  intros H lines [= <-]. repeat constructor. exact H.
Qed.

Lemma revision_nonnegative kg :
  0 <= kg -> linesNonnegative (revision (wheat kg)).
Proof.
  intros H lines [= <-]. repeat constructor. exact H.
Qed.

(** C2, counterexample.  The stocks of [shop] are not negative; a
    create of -30 kg is answered 201 and leaves the item with a stock
    below 0: the increase of the create path has no clamp. *)
Lemma create_drives_stock_negative :
  stockIs 2 shop 0 = true
  /\ statusCode (snd (shopPost (order (wheat (-30))) shop)) = 201%nat
  /\ stockIs 2 (fst (shopPost (order (wheat (-30))) shop)) (-1) = true
  /\ ~ stockNonnegative (stock (fst (shopPost (order (wheat (-30))) shop))).
Proof.
  repeat split; try reflexivity.
  intros H. inversion H as [|? ? _ H']; subst.
  inversion H' as [|? ? Hw _]; subst.
  vm_compute in Hw. now apply Hw.
Qed.

(** C2, witness.  A create, an update and two deletes in [shop]. *)
Lemma stock_never_negative_witness :
  stockNonnegative
    (stock (fold_left
              (serve accepts quantityTimesPrice billNumber noFault false)
              [Create (order (wheat 300)); Update 11 (revision (wheat 150));
               Delete 11; Delete 11]
              shop))
  /\ (forall s bags, 0 <= restore s bags)
  /\ (forall s bags, 0 <= s -> 0 <= bags -> 0 <= increase s bags).
Proof.
  apply (stock_never_negative accepts quantityTimesPrice billNumber noFault
           false).
  - repeat constructor; qle.
  - repeat constructor.
    + apply wheat_nonnegative. qle.
    + apply revision_nonnegative. qle.
Defined.

(** Supporting C3: with no payment under the prefix, the number is
    prefix-1. *)
Lemma first_number_is_one type d :
  (forall p, In p (payments d) ->
     String.prefix (Payment.prefixOf type ++ "-") (PaymentDoc.paymentNo p)
     = false) ->
  Payment.generateNextPaymentNumber type d =
  (d, Returned (Payment.prefixOf type ++ "-1")).
Proof.
  intros H. unfold Payment.generateNextPaymentNumber, tryCatch, bind,
    Payment.findLast, get, ret.
  assert (E : filter
                (fun p => String.prefix (Payment.prefixOf type ++ "-")
                            (PaymentDoc.paymentNo p)) (payments d) = []).
  { induction (payments d) as [|x r IH]; simpl; [reflexivity|].
    rewrite (H x (or_introl eq_refl)). apply IH.
    intros p Hp. apply H. now right. }
  rewrite E. reflexivity.
Qed.

(** C3, failing input.  The first number is PAY-IN-1 and ten creations
    give PAY-IN-1 to PAY-IN-10; the next number is PAY-IN-10 again, since
    PAY-IN-9 is the greatest of the ten in the order of strings, and the
    eleventh creation is refused by the unique index (500). *)
Theorem eleventh_payment_number_repeats :
  Payment.generateNextPaymentNumber "payment-in" emptyDb
  = (emptyDb, Returned "PAY-IN-1")
  /\ map PaymentDoc.paymentNo (payments tenReceipts)
     = ["PAY-IN-1"; "PAY-IN-2"; "PAY-IN-3"; "PAY-IN-4"; "PAY-IN-5";
        "PAY-IN-6"; "PAY-IN-7"; "PAY-IN-8"; "PAY-IN-9"; "PAY-IN-10"]
  /\ lastNumberOf "PAY-IN" tenReceipts = Some "PAY-IN-9"
  /\ snd (Payment.generateNextPaymentNumber "payment-in" tenReceipts)
     = Returned "PAY-IN-10"
  /\ statusCode (snd (PaymentRoutes.post (receipt "payment-in" 5) tenReceipts))
     = 500%nat.
Proof.
  repeat split; vm_compute; reflexivity.
Qed.

(** Supporting C4: whatever the payment, cancelling it and completing
    it again, both answered 200, takes its amount from the balance of
    its party twice. *)
Lemma status_round_trip_net id p pid d d1 r1 d2 r2 :
  paymentOf id d = Some p ->
  PaymentDoc.partyId p = Some pid ->
  PaymentDoc.status p = "completed" ->
  PaymentRoutes.patchStatus id (Some "cancelled") d = (d1, r1) ->
  statusCode r1 = 200%nat ->
  PaymentRoutes.patchStatus id (Some "completed") d1 = (d2, r2) ->
  statusCode r2 = 200%nat ->
  exists b,
    balanceOf pid d = Some b
    /\ balanceOf pid d2
       = Some (b - PaymentDoc.amount p - PaymentDoc.amount p).
Proof.
  intros Hp Hpid Hs H1 C1 H2 C2.
  assert (T1 : toggles (PaymentDoc.status p) "cancelled" = true)
    by (rewrite Hs; reflexivity).
  destruct (payment_toggle_run _ _ _ _ _ _ _ Hp Hpid T1 H1 C1)
    as (b & A & B & _ & _ & Hp1).
  assert (T2 : toggles
                 (PaymentDoc.status
                    (Payment.preSave (PaymentRoutes.withStatus "cancelled" p)))
                 "completed" = true) by reflexivity.
  destruct (payment_toggle_run _ _ _ _ _ _ _ Hp1 Hpid T2 H2 C2)
    as (b1 & A1 & B1 & _).
  exists b. split; [exact A|].
  rewrite B in A1. inversion A1; subst b1. exact B1.
Qed.

(** C4, failing input.  A completed payment of 500 is cancelled and
    then completed again; both requests are answered 200 and both
    re-invoke the reconciliation, which subtracts 500 each time: the
    balance goes from -500 to -1500 where the claim has it back at
    -500. *)
Theorem cancel_and_restore_subtracts_twice :
  paymentOf 1 paid = Some paidPayment
  /\ statusCode (snd (PaymentRoutes.patchStatus 1 (Some "cancelled") paid))
     = 200%nat
  /\ statusCode
       (snd (PaymentRoutes.patchStatus 1 (Some "completed") cancelled))
     = 200%nat
  /\ emitted paid cancelled
     = [UpdatePartyBalanceCalled "PAY-IN-1"; PartyUpdateBalance 0 500 subtract]
  /\ emitted cancelled restored
     = [UpdatePartyBalanceCalled "PAY-IN-1"; PartyUpdateBalance 0 500 subtract]
  /\ balanceIs 0 paid (-500) = true
  /\ balanceIs 0 cancelled (-1000) = true
  /\ balanceIs 0 restored (-1500) = true.
Proof.
  repeat split; vm_compute; reflexivity.
Qed.

(** C5, counterexample.  A completed purchase is set to cancelled: the
    request is answered 200, the transition is one of the two toggles,
    and the route emits no event and changes no party. *)
Lemma purchase_status_toggle_skips_ledger :
  option_map PurchaseDoc.status (purchaseOf 11 completedPurchase)
  = Some "completed"
  /\ statusCode (snd (shopPatch 11 (Some "cancelled") completedPurchase))
     = 200%nat
  /\ toggles "completed" "cancelled" = true
  /\ emitted completedPurchase
       (fst (shopPatch 11 (Some "cancelled") completedPurchase)) = []
  /\ parties (fst (shopPatch 11 (Some "cancelled") completedPurchase))
     = parties completedPurchase.
Proof.
  repeat split; vm_compute; reflexivity.
Qed.

(** C5, witness.  The payment of [paid] set to cancelled, and set to
    pending. *)
Lemma status_update_reconciliation_witness :
  existsb isReconciliation
    (emitted paid (fst (PaymentRoutes.patchStatus 1 (Some "cancelled") paid)))
  = toggles (PaymentDoc.status paidPayment) "cancelled"
  /\ parties (fst (PaymentRoutes.patchStatus 1 (Some "pending") paid))
     = parties paid.
Proof.
  split.
  - apply (proj1 status_update_reconciliation 1%nat "cancelled" paidPayment paid);
      reflexivity.
  - apply (proj2 (proj2 status_update_reconciliation) 1%nat "pending" paidPayment
             paid); [reflexivity|right; reflexivity].
Defined.


(** Supporting C7: the pre-save hook copies the amount only into a
    total that is 0. *)
Lemma preSave_total p :
  PaymentDoc.totalAmount (Payment.preSave p) =
  if isZero (PaymentDoc.totalAmount p) && negb (isZero (PaymentDoc.amount p))
  then PaymentDoc.amount p else PaymentDoc.totalAmount p.
Proof. reflexivity. Qed.

(** C7, failing input.  A payment created with amount 500 and no
    totalAmount is stored with totalAmount 500; a PUT that sets the amount
    to 700 and gives no totalAmount is answered 200 and stores amount 700
    with totalAmount still 500. *)
Theorem updated_amount_leaves_total_stale :
  PaymentRoutes.totalAmount (receipt "payment-in" 500) = None
  /\ option_map amountAndTotal (paymentOf 1 paid) = Some (500, 500)
  /\ PaymentRoutes.totalAmount (newAmount 700) = None
  /\ statusCode (snd (PaymentRoutes.put 1 (newAmount 700) paid)) = 200%nat
  /\ option_map amountAndTotal
       (paymentOf 1 (fst (PaymentRoutes.put 1 (newAmount 700) paid)))
     = Some (700, 500).
Proof.
  repeat split; vm_compute; reflexivity.
Qed.

(** C9, witness.  The payment of [paid] updated in every field but the
    amount, and updated from 500 to 700. *)
Lemma payment_update_balance_witness :
  parties (fst (PaymentRoutes.put 1 rename paid)) = parties paid
  /\ exists b b',
       balanceOf 0 paid = Some b
       /\ balanceOf 0 (fst (PaymentRoutes.put 1 (newAmount 700) paid))
          = Some b'
       /\ b' - b == PaymentDoc.amount paidPayment - 700
       /\ (forall j, j <> 0%nat ->
             balanceOf j (fst (PaymentRoutes.put 1 (newAmount 700) paid))
             = balanceOf j paid)
       /\ emitted paid (fst (PaymentRoutes.put 1 (newAmount 700) paid))
          = [PartyUpdateBalance 0 (PaymentDoc.amount paidPayment) add;
             UpdatePartyBalanceCalled (PaymentDoc.paymentNo paidPayment);
             PartyUpdateBalance 0 700 subtract].
Proof.
  split.
  - apply (proj1 payment_update_balance 1%nat rename paid).
    intros p a _ H. discriminate H.
  - apply (proj2 payment_update_balance 1%nat (newAmount 700) paidPayment 0%nat
             700 paid _
             (snd (PaymentRoutes.put 1 (newAmount 700) paid)));
      first [reflexivity | intros H; vm_compute in H; discriminate H].
Defined.


(** C10, counterexample.  The order buys 30 kg of the Bardana item
    itself and 60 kg of an item that is not stored: the sum of the
    quantities divided by 30 is 3, and the stock of the Bardana item
    goes from 0 to 4. *)
Lemma bardana_line_counts_twice :
  statusCode (snd (shopPost (order bardanaOrder) shop)) = 201%nat
  /\ stockIs 1 shop 0 = true
  /\ Qeq_bool (PurchaseRoutes.totalKg bardanaOrder / 30) 3 = true
  /\ stockIs 1 (fst (shopPost (order bardanaOrder) shop)) 4 = true
  /\ stockIs 1 (fst (shopPost (order bardanaOrder) shop)) 3 = false.
Proof.
  repeat split; vm_compute; reflexivity.
Qed.

(** C10, witness.  300 kg of wheat and 60 kg of an item that is not
    stored, bought in [shop]. *)
Lemma bardana_increase_on_create_witness :
  exists v,
    stockOf (ItemDoc._id bardana)
      (stock (fst (shopPost (order (wheat 300 ++ [LineItem.mk 7 60 1])%list)
                     shop)))
    = Some v
    /\ v == ItemDoc.openingStock bardana
            + sumQ (bagsOf noFault (ItemDoc._id bardana)
                      (wheat 300 ++ [LineItem.mk 7 60 1])%list)
            + PurchaseRoutes.totalKg (wheat 300 ++ [LineItem.mk 7 60 1])%list
              / 30
    /\ (Forall (fun line => LineItem.id line <> ItemDoc._id bardana)
          (wheat 300 ++ [LineItem.mk 7 60 1])%list ->
        v == ItemDoc.openingStock bardana
             + PurchaseRoutes.totalKg (wheat 300 ++ [LineItem.mk 7 60 1])%list
               / 30)
    /\ (forall line,
          In line (wheat 300 ++ [LineItem.mk 7 60 1])%list ->
          stockOf (LineItem.id line) (stock shop) = None ->
          stockOf (LineItem.id line)
            (stock (fst (shopPost
                           (order (wheat 300 ++ [LineItem.mk 7 60 1])%list)
                           shop))) = None)
    /\ filter isConsoleError
         (emitted shop
            (fst (shopPost (order (wheat 300 ++ [LineItem.mk 7 60 1])%list)
                    shop)))
       = map (fun _ => ConsoleError stockErr)
           (failing noFault (wheat 300 ++ [LineItem.mk 7 60 1])%list).
Proof.
  apply (bardana_increase_on_create accepts quantityTimesPrice billNumber
           noFault (order (wheat 300 ++ [LineItem.mk 7 60 1])%list)
           (wheat 300 ++ [LineItem.mk 7 60 1])%list bardana shop).
  - exact shop_wellFormed.
  - reflexivity.
  - reflexivity.
  - reflexivity.
Defined.

(** * The request validators *)

Lemma filterChars_idem p s : filterChars p (filterChars p s) = filterChars p s.
Proof.
  induction s as [|c r IH]; simpl; [reflexivity|].
  destruct (p c) eqn:E; simpl; [rewrite E, IH; reflexivity|exact IH].
Qed.

Lemma substring_whole s : substring 0 (String.length s) s = s.
Proof. induction s as [|c r IH]; simpl; [reflexivity|now rewrite IH]. Qed.

Lemma slice_one c s : slice 1 (String c s) = s.
Proof. unfold slice. simpl. rewrite Nat.sub_0_r. apply substring_whole. Qed.

Lemma prefix_plus s :
  String.prefix "+" s = true -> exists r, s = String "+" r.
Proof.
  destruct s as [|c r]; [discriminate|].
  change (String.prefix "+" (String c r))
    with (if ascii_dec "+" c then String.prefix "" r else false).
  destruct (ascii_dec "+" c) as [<-|]; [|discriminate]. intros _. now exists r.
Qed.

Lemma prefix_plus_cons r : String.prefix "+" (String "+" r) = true.
Proof.
  change (String.prefix "+" (String "+" r))
    with (if ascii_dec "+" "+" then String.prefix "" r else false).
  destruct (ascii_dec "+" "+"); [|congruence]. destruct r; reflexivity.
Qed.

Lemma phoneRegex_plus s :
  String.prefix "+" s = false ->
  Validation.phoneRegex ("+" ++ s) = Validation.phoneRegex s.
Proof.
  intros H. unfold Validation.phoneRegex at 1. cbn [append].
  rewrite prefix_plus_cons, slice_one. unfold Validation.phoneRegex.
  now rewrite H.
Qed.

Lemma stripSpaces_idem s :
  Validation.stripSpaces (Validation.stripSpaces s) = Validation.stripSpaces s.
Proof. apply filterChars_idem. Qed.


Lemma sanitized_prefix s : String.prefix "+" (sanitized s) = true.
Proof.
  unfold sanitized. cbv zeta.
  destruct (String.prefix "+" (Validation.stripSpaces s)) eqn:E; [exact E|].
  apply prefix_plus_cons.
Qed.

Lemma stripSpaces_sanitized s :
  Validation.stripSpaces (sanitized s) = sanitized s.
Proof.
  unfold sanitized. cbv zeta.
  destruct (String.prefix "+" (Validation.stripSpaces s));
    [apply stripSpaces_idem|].
  cbn [append]. unfold Validation.stripSpaces at 1. cbn [filterChars].
  change (isSpace "+") with false. cbn [negb].
  fold (Validation.stripSpaces (Validation.stripSpaces s)).
  now rewrite stripSpaces_idem.
Qed.

Lemma sanitized_idem s : sanitized (sanitized s) = sanitized s.
Proof.
  unfold sanitized at 1. cbv zeta.
  now rewrite stripSpaces_sanitized, sanitized_prefix.
Qed.

Lemma sanitized_valid s :
  Validation.phoneRegex (Validation.stripSpaces s) = true ->
  wellFormedNumber (sanitized s) = true
  /\ Validation.phoneRegex (Validation.stripSpaces (sanitized s)) = true.
Proof.
  intros H. rewrite stripSpaces_sanitized. unfold sanitized. cbv zeta.
  destruct (String.prefix "+" (Validation.stripSpaces s)) eqn:E.
  - split; [|exact H].
    destruct (prefix_plus _ E) as [r Hr]. rewrite Hr in *.
    unfold Validation.phoneRegex in H. rewrite E, slice_one in H.
    destruct r as [|c r]; [discriminate H|exact H].
  - rewrite phoneRegex_plus by exact E. split; [|exact H].
    unfold Validation.phoneRegex in H. rewrite E in H. cbn [append].
    destruct (Validation.stripSpaces s) as [|c r]; [discriminate H|exact H].
Qed.

Lemma prop_setProp k k' v o :
  Js.prop k (Js.setProp k' v o) = if (k' =? k) then Some v else Js.prop k o.
Proof.
  induction o as [|[k0 v0] r IH]; simpl.
  - reflexivity.
  - destruct (k0 =? k') eqn:E; simpl.
    + apply String.eqb_eq in E. subst k0. destruct (k' =? k); reflexivity.
    + rewrite IH. destruct (k0 =? k) eqn:F; [|reflexivity].
      destruct (k' =? k) eqn:G; [|reflexivity].
      apply String.eqb_eq in F, G. apply String.eqb_neq in E. congruence.
Qed.

(** X1: sanitizePhoneNumber is idempotent on strings: its result
    starts with a plus sign, holds no white space, and is returned
    unchanged when it is sanitized again. *)
Theorem sanitizePhoneNumber_idempotent s :
  exists t,
    Validation.sanitizePhoneNumber (Some (Js.Str s)) = Js.Ok t
    /\ Validation.sanitizePhoneNumber (Some (Js.Str t)) = Js.Ok t
    /\ String.prefix "+" t = true
    /\ Validation.stripSpaces t = t.
Proof.
  exists (sanitized s). split; [reflexivity|]. split.
  - unfold Validation.sanitizePhoneNumber. fold (sanitized (sanitized s)).
    now rewrite sanitized_idem.
  - split; [apply sanitized_prefix|apply stripSpaces_sanitized].
Qed.

(** X2: a phone number that validatePhoneNumber accepts is still
    accepted after sanitizePhoneNumber, and is then a plus sign
    followed by 2 to 15 digits, the first of them not 0. *)
Theorem sanitized_number_stays_valid s :
  Validation.validatePhoneNumber (Some (Js.Str s)) = Js.Ok true ->
  exists t,
    Validation.sanitizePhoneNumber (Some (Js.Str s)) = Js.Ok t
    /\ wellFormedNumber t = true
    /\ Validation.validatePhoneNumber (Some (Js.Str t)) = Js.Ok true.
Proof.
  intros H. exists (sanitized s). split; [reflexivity|].
  unfold Validation.validatePhoneNumber in *.
  assert (V : Validation.phoneRegex (Validation.stripSpaces s) = true)
    by (inversion H; reflexivity).
  destruct (sanitized_valid _ V) as [W P]. split; [exact W|now rewrite P].
Qed.

Lemma sanitized_number_stays_valid_witness :
  exists t,
    Validation.sanitizePhoneNumber (Some (Js.Str "98765 43210")) = Js.Ok t
    /\ wellFormedNumber t = true
    /\ Validation.validatePhoneNumber (Some (Js.Str t)) = Js.Ok true.
Proof. apply (sanitized_number_stays_valid "98765 43210"). reflexivity. Defined.

(** What the three validators do once the required fields are there. *)
Lemma recipient_checked req to :
  match Validation.validatePhoneNumber to with
  | Js.TypeError => True
  | Js.Ok false => True
  | Js.Ok true =>
      exists s, to = Some (Js.Str s)
        /\ Validation.sanitizeAndNext req to =
           Validation.Next
             (Validation.setBody
                (Js.setProp "to" (Js.Str (sanitized s)) (Validation.body req))
                req)
        /\ wellFormedNumber (sanitized s) = true
  end.
Proof.
  destruct to as [[| | |s| |]|]; simpl; trivial.
  destruct (Validation.phoneRegex (Validation.stripSpaces s)) eqn:V; [|trivial].
  exists s. split; [reflexivity|]. split; [reflexivity|].
  apply (sanitized_valid _ V).
Qed.


Lemma forwarded_recipient req to req' :
  Js.prop "to" (Validation.body req) = to ->
  Validation.validatePhoneNumber to = Js.Ok true ->
  Validation.sanitizeAndNext req to = Validation.Next req' ->
  exists s t,
    Js.prop "to" (Validation.body req) = Some (Js.Str s)
    /\ Validation.sanitizePhoneNumber (Some (Js.Str s)) = Js.Ok t
    /\ Js.prop "to" (Validation.body req') = Some (Js.Str t)
    /\ wellFormedNumber t = true
    /\ Validation.file req' = Validation.file req
    /\ forall k, k <> "to" ->
         Js.prop k (Validation.body req') = Js.prop k (Validation.body req).
Proof.
  intros Hto V H. pose proof (recipient_checked req to) as R.
  rewrite V in R. destruct R as (s & E & N & W).
  rewrite N in H. inversion H; subst req'; clear H.
  exists s, (sanitized s). rewrite Hto. split; [exact E|].
  split; [reflexivity|]. simpl. rewrite prop_setProp. simpl.
  split; [reflexivity|]. split; [exact W|]. split; [reflexivity|].
  intros k Hk. rewrite prop_setProp.
  destruct ("to" =? k) eqn:G; [|reflexivity].
  apply String.eqb_eq in G. congruence.
Qed.

(** X3: whichever of validateWhatsAppRequest, validateDocumentRequest
    and validateInvoiceRequest calls next(), the request it passes on
    has the sanitized number of the string that was sent as its [to], a
    plus sign followed by 2 to 15 digits; the file and every other
    property of the body are as they were sent. *)
Theorem validators_forward_sanitized_recipient req req' :
  forwards Validation.validateWhatsAppRequest req req'
  \/ forwards Validation.validateDocumentRequest req req'
  \/ forwards Validation.validateInvoiceRequest req req' ->
  exists s t,
    Js.prop "to" (Validation.body req) = Some (Js.Str s)
    /\ Validation.sanitizePhoneNumber (Some (Js.Str s)) = Js.Ok t
    /\ Js.prop "to" (Validation.body req') = Some (Js.Str t)
    /\ wellFormedNumber t = true
    /\ Validation.file req' = Validation.file req
    /\ forall k, k <> "to" ->
         Js.prop k (Validation.body req') = Js.prop k (Validation.body req).
Proof.
  unfold forwards. intros [H|[H|H]].
  - unfold Validation.validateWhatsAppRequest in H. cbv zeta in H.
    destruct (_ || _); [discriminate H|].
    destruct (Validation.validatePhoneNumber _) as [[|]|] eqn:V;
      try discriminate H.
    exact (forwarded_recipient _ _ _ eq_refl V H).
  - unfold Validation.validateDocumentRequest in H. cbv zeta in H.
    destruct (_ || _); [discriminate H|].
    destruct (Validation.validatePhoneNumber _) as [[|]|] eqn:V;
      try discriminate H.
    exact (forwarded_recipient _ _ _ eq_refl V H).
  - unfold Validation.validateInvoiceRequest in H. cbv zeta in H.
    destruct (_ || _); [discriminate H|].
    destruct (Validation.validatePhoneNumber _) as [[|]|] eqn:V;
      try discriminate H.
    destruct (Validation.notPositiveNumber _); [discriminate H|].
    exact (forwarded_recipient _ _ _ eq_refl V H).
Qed.

Lemma validators_forward_sanitized_recipient_witness :
  exists s t,
    Js.prop "to" (Validation.body (textRequest (Js.Str "98765 43210")))
    = Some (Js.Str s)
    /\ Validation.sanitizePhoneNumber (Some (Js.Str s)) = Js.Ok t
    /\ Js.prop "to"
         (Validation.body
            (Validation.setBody
               [("to", Js.Str "+9876543210");
                ("text", Js.Str "Your bill is ready")]
               (textRequest (Js.Str "98765 43210"))))
       = Some (Js.Str t)
    /\ wellFormedNumber t = true
    /\ Validation.file
         (Validation.setBody
            [("to", Js.Str "+9876543210");
             ("text", Js.Str "Your bill is ready")]
            (textRequest (Js.Str "98765 43210")))
       = Validation.file (textRequest (Js.Str "98765 43210"))
    /\ forall k, k <> "to" ->
         Js.prop k
           (Validation.body
              (Validation.setBody
                 [("to", Js.Str "+9876543210");
                  ("text", Js.Str "Your bill is ready")]
                 (textRequest (Js.Str "98765 43210"))))
         = Js.prop k (Validation.body (textRequest (Js.Str "98765 43210"))).
Proof.
  apply (validators_forward_sanitized_recipient
           (textRequest (Js.Str "98765 43210"))).
  left. reflexivity.
Defined.

(** X4: a [to] that is truthy but not a string (a number, [true], an
    array, an object) makes each of the three validators throw a
    TypeError once the other required fields are there: none of them
    answers 400 for it, none calls next(). *)
Theorem non_string_recipient_throws req to :
  Js.prop "to" (Validation.body req) = Some to ->
  Js.truthy (Some to) = true ->
  isString to = false ->
  (Js.truthy (Js.prop "text" (Validation.body req)) = true ->
   Validation.validateWhatsAppRequest req = Validation.Raised)
  /\ (Js.truthy (Js.prop "text" (Validation.body req)) = true ->
      Js.truthy (Js.prop "documentUrl" (Validation.body req)) = true ->
      Validation.validateDocumentRequest req = Validation.Raised)
  /\ (Js.truthy (Js.prop "customerName" (Validation.body req)) = true ->
      Js.truthy (Js.prop "invoiceNo" (Validation.body req)) = true ->
      Js.truthy (Js.prop "totalAmount" (Validation.body req)) = true ->
      Js.truthy (Js.prop "date" (Validation.body req)) = true ->
      Validation.validateInvoiceRequest req = Validation.Raised).
Proof.
  intros Hto T S.
  assert (V : Validation.validatePhoneNumber (Some to) = Js.TypeError)
    by (destruct to; try reflexivity; discriminate S).
  repeat split.
  - intros H1. unfold Validation.validateWhatsAppRequest. cbv zeta.
    rewrite Hto, T, H1, V. reflexivity.
  - intros H1 H2. unfold Validation.validateDocumentRequest. cbv zeta.
    rewrite Hto, T, H1, H2, V. reflexivity.
  - intros H1 H2 H3 H4. unfold Validation.validateInvoiceRequest. cbv zeta.
    rewrite Hto, T, H1, H2, H3, H4, V. reflexivity.
Qed.

Lemma non_string_recipient_throws_witness :
  Validation.validateWhatsAppRequest (textRequest (Js.Num 9876543210))
  = Validation.Raised.
Proof.
  apply (non_string_recipient_throws (textRequest (Js.Num 9876543210))
           (Js.Num 9876543210)); reflexivity.
Defined.

(** X5: validateInvoiceRequest calls next() only for a [totalAmount]
    that is a number greater than 0: a string such as "100", [true] or
    an array never passes. *)
Theorem invoice_amount_is_positive_number req req' :
  Validation.validateInvoiceRequest req = Validation.Next req' ->
  exists x,
    Js.prop "totalAmount" (Validation.body req) = Some (Js.Num x)
    /\ 0 < x
    /\ Js.prop "totalAmount" (Validation.body req') = Some (Js.Num x).
Proof.
  intros H. unfold Validation.validateInvoiceRequest in H. cbv zeta in H.
  destruct (_ || _); [discriminate H|].
  destruct (Validation.validatePhoneNumber _) as [[|]|] eqn:V;
    try discriminate H.
  destruct (Validation.notPositiveNumber _) eqn:P; [discriminate H|].
  destruct (forwarded_recipient _ _ _ eq_refl V H) as (_ & _ & _ & _ & _ & _ & _ & K).
  destruct (Js.prop "totalAmount" (Validation.body req)) as [[| |x| | |]|] eqn:A;
    try discriminate P.
  exists x. split; [reflexivity|]. split.
  - simpl in P. destruct (Qlt_le_dec 0 x) as [L|L]; [exact L|].
    apply Qle_bool_iff in L. congruence.
  - rewrite K by discriminate. exact A.
Qed.

Lemma invoice_amount_is_positive_number_witness :
  exists x,
    Js.prop "totalAmount" (Validation.body (invoiceRequest (Js.Num 1500)))
    = Some (Js.Num x)
    /\ 0 < x
    /\ Js.prop "totalAmount" (Validation.body (invoiceRequest (Js.Num 1500)))
       = Some (Js.Num x).
Proof.
  apply (invoice_amount_is_positive_number (invoiceRequest (Js.Num 1500))
           (invoiceRequest (Js.Num 1500))).
  reflexivity.
Defined.

(** X6: validateUploadRequest calls next() exactly for a file of type
    application/pdf of at most 10485760 bytes, and then passes the
    request on as it came; for every other request it answers 400, and
    it never throws. *)
Theorem upload_accepts_pdf_up_to_10MB req :
  (Validation.validateUploadRequest req = Validation.Next req
   <-> exists f, Validation.file req = Some f
         /\ Validation.mimetype f = "application/pdf"
         /\ (Validation.size f <= 10485760)%N)
  /\ (Validation.validateUploadRequest req = Validation.Next req
      \/ exists e, Validation.validateUploadRequest req
                   = Validation.Answered 400 e).
Proof.
  unfold Validation.validateUploadRequest, Validation.validateFileType,
    Validation.validateFileSize, includes. cbv zeta.
  destruct (Validation.file req) as [f|].
  2:{ split; [split|right; eexists; reflexivity].
      - discriminate.
      - intros (f & H & _). discriminate H. }
  cbn [existsb]. rewrite orb_false_r.
  destruct (Validation.mimetype f =? "application/pdf") eqn:M; cbn [negb].
  2:{ split; [split|right; eexists; reflexivity].
      - discriminate.
      - intros (f' & H & E & _). inversion H; subst f'.
        apply String.eqb_neq in M. contradiction. }
  apply String.eqb_eq in M.
  change (10 * 1024 * 1024)%N with 10485760%N.
  destruct (Validation.size f <=? 10485760)%N eqn:L; cbn [negb].
  - apply N.leb_le in L. split; [split|left; reflexivity].
    + intros _. exists f. auto.
    + reflexivity.
  - apply N.leb_gt in L. split; [split|right; eexists; reflexivity].
    + discriminate.
    + intros (f' & H & _ & L'). inversion H; subst f'. lia.
Qed.

(** X7: validateItem calls next() only for an item whose name is a
    string that is not blank, whose category is Primary or Kirana,
    whose two prices, opening stock and low-stock alert are numbers that
    are not negative (0 is accepted), and whose date reads
    dddd-dd-dd.  The request it passes on has the trimmed name; nothing
    else of it has changed. *)
Theorem validateItem_forwards_checked_item numberToString req req' :
  Validation.validateItem numberToString req = Validation.Next req' ->
  (exists name,
     Js.prop "productName" (Validation.body req) = Some (Js.Str name)
     /\ trim name <> ""
     /\ Js.prop "productName" (Validation.body req')
        = Some (Js.Str (trim name)))
  /\ (Js.prop "category" (Validation.body req) = Some (Js.Str "Primary")
      \/ Js.prop "category" (Validation.body req) = Some (Js.Str "Kirana"))
  /\ nonNegativeNumber (Js.prop "purchasePrice" (Validation.body req))
  /\ nonNegativeNumber (Js.prop "salePrice" (Validation.body req))
  /\ nonNegativeNumber (Js.prop "openingStock" (Validation.body req))
  /\ nonNegativeNumber (Js.prop "lowStockAlert" (Validation.body req))
  /\ Validation.dateRegex
       (Js.toStringOf numberToString
          (Js.prop "asOfDate" (Validation.body req))) = true
  /\ Validation.file req' = Validation.file req
  /\ forall k, k <> "productName" ->
       Js.prop k (Validation.body req') = Js.prop k (Validation.body req).
Proof.
  assert (NN : forall v, Validation.notNonNegativeNumber v = false ->
                         nonNegativeNumber v).
  { intros [[| |x| | |]|] H; try discriminate H. exists x.
    split; [reflexivity|]. unfold Validation.notNonNegativeNumber, Qltb in H.
    apply negb_false_iff in H. now apply Qle_bool_iff in H. }
  intros H. unfold Validation.validateItem in H. cbv zeta in H.
  destruct (_ || _); [discriminate H|].
  destruct (Js.prop "productName" (Validation.body req))
    as [[| | |name| |]|] eqn:Hn; try discriminate H.
  destruct (String.length (trim name) =? 0)%nat eqn:L; [discriminate H|].
  destruct (Js.prop "category" (Validation.body req))
    as [[| | |c| |]|] eqn:Hc; try discriminate H.
  destruct (includes ["Primary"; "Kirana"] c) eqn:C; [|discriminate H].
  cbn [negb] in H.
  destruct (Validation.notNonNegativeNumber (Js.prop "purchasePrice" _)) eqn:P1;
    [discriminate H|].
  destruct (Validation.notNonNegativeNumber (Js.prop "salePrice" _)) eqn:P2;
    [discriminate H|].
  destruct (Validation.notNonNegativeNumber (Js.prop "openingStock" _)) eqn:P3;
    [discriminate H|].
  destruct (Validation.notNonNegativeNumber (Js.prop "lowStockAlert" _)) eqn:P4;
    [discriminate H|].
  destruct (Validation.dateRegex _) eqn:D; [|discriminate H].
  cbn [negb] in H. inversion H; subst req'; clear H.
  split.
  { exists name. split; [reflexivity|]. split.
    - intros E. rewrite E in L. discriminate L.
    - simpl. rewrite prop_setProp. reflexivity. }
  split.
  { unfold includes in C. cbn [existsb] in C. rewrite orb_false_r in C.
    apply orb_true_iff in C as [C|C]; apply String.eqb_eq in C; subst c; auto. }
  split; [exact (NN _ P1)|]. split; [exact (NN _ P2)|].
  split; [exact (NN _ P3)|]. split; [exact (NN _ P4)|].
  split; [reflexivity|]. split; [reflexivity|].
  intros k Hk. simpl. rewrite prop_setProp.
  destruct ("productName" =? k) eqn:G; [|reflexivity].
  apply String.eqb_eq in G. congruence.
Qed.

Lemma validateItem_forwards_checked_item_witness :
  exists name,
    Js.prop "productName" (Validation.body itemRequest) = Some (Js.Str name)
    /\ trim name <> ""
    /\ Js.prop "productName" (Validation.body itemForwarded)
       = Some (Js.Str (trim name)).
Proof.
  apply (validateItem_forwards_checked_item noDecimal itemRequest
           itemForwarded).
  reflexivity.
Defined.

(** * The Payment model, besides the claims *)

Lemma sanitizePhone_shape phone :
  String.prefix "+" (sanitizePhone phone) = true
  /\ filterChars (fun c => isDigit c || Ascii.eqb c "+") (sanitizePhone phone)
     = sanitizePhone phone.
Proof.
  unfold sanitizePhone. cbv zeta.
  destruct (String.prefix "+" (filterChars _ phone)) eqn:E.
  - split; [exact E|apply filterChars_idem].
  - split; [reflexivity|]. cbn [append filterChars].
    change (isDigit "+" || Ascii.eqb "+" "+") with true.
    change (isDigit "9" || Ascii.eqb "9" "+") with true.
    change (isDigit "1" || Ascii.eqb "1" "+") with true.
    cbv iota. now rewrite filterChars_idem.
Qed.

Lemma sanitizePhone_idem phone :
  sanitizePhone (sanitizePhone phone) = sanitizePhone phone.
Proof.
  destruct (sanitizePhone_shape phone) as [P F].
  unfold sanitizePhone at 1. cbv zeta. now rewrite F, P.
Qed.

Lemma sanitizePhone_nonempty phone : (sanitizePhone phone =? "") = false.
Proof.
  destruct (sanitizePhone_shape phone) as [P _].
  destruct (sanitizePhone phone); [discriminate P|reflexivity].
Qed.

(** X8: the pre-save hook of the Payment schema is idempotent: saving
    a stored payment again changes neither its phone number nor its
    total. *)
Theorem payment_preSave_idempotent p :
  Payment.preSave (Payment.preSave p) = Payment.preSave p.
Proof.
  unfold Payment.preSave. cbn [PaymentDoc.phoneNumber PaymentDoc.totalAmount
    PaymentDoc.amount PaymentDoc._id PaymentDoc.paymentNo PaymentDoc.type
    PaymentDoc.partyName PaymentDoc.date PaymentDoc.status
    PaymentDoc.description PaymentDoc.paymentMethod PaymentDoc.reference
    PaymentDoc.partyId].
  f_equal.
  - destruct (PaymentDoc.phoneNumber p =? "") eqn:E; cbn [negb].
    + now rewrite E.
    + rewrite sanitizePhone_nonempty. cbn [negb]. apply sanitizePhone_idem.
  - destruct (isZero (PaymentDoc.totalAmount p)) eqn:Z;
      destruct (isZero (PaymentDoc.amount p)) eqn:A; cbn [negb andb];
      rewrite ?Z, ?A; reflexivity.
Qed.

Lemma allChars_weaken (p q : ascii -> bool) s :
  (forall c, p c = true -> q c = true) ->
  allChars p s = true -> allChars q s = true.
Proof.
  intros W. induction s as [|c r IH]; simpl; [reflexivity|].
  intros H. apply andb_true_iff in H as [H1 H2].
  now rewrite (W _ H1), IH.
Qed.

Lemma space_is_no_digit c :
  isSpace c = true -> isDigit c || Ascii.eqb c "+" = false.
Proof.
  destruct c as [[] [] [] [] [] [] [] []]; intros H; try reflexivity;
    discriminate H.
Qed.

Lemma filterChars_agree v :
  allChars (fun c => isDigit c || Ascii.eqb c "+") (Validation.stripSpaces v)
  = true ->
  filterChars (fun c => isDigit c || Ascii.eqb c "+") v
  = Validation.stripSpaces v.
Proof.
  unfold Validation.stripSpaces. induction v as [|c r IH]; simpl;
    [reflexivity|].
  destruct (isSpace c) eqn:S; cbn [negb].
  - rewrite (space_is_no_digit _ S). exact IH.
  - simpl. intros H. apply andb_true_iff in H as [H1 H2].
    rewrite H1, IH by exact H2. reflexivity.
Qed.

Lemma phoneRegex_chars c :
  Validation.phoneRegex c = true ->
  allChars (fun c => isDigit c || Ascii.eqb c "+") c = true
  /\ (String.prefix "+" c = false -> allChars isDigit c = true).
Proof.
  assert (D : forall s, allChars isDigit s = true ->
            allChars (fun c => isDigit c || Ascii.eqb c "+") s = true).
  { intros s. apply allChars_weaken. intros a ->. reflexivity. }
  unfold Validation.phoneRegex. cbv zeta.
  destruct (String.prefix "+" c) eqn:E.
  - destruct (prefix_plus _ E) as [r ->]. rewrite slice_one.
    destruct r as [|a r]; [discriminate|]. intros H.
    apply andb_true_iff in H as [H H3]. apply andb_true_iff in H as [H1 _].
    unfold digits in H3. apply andb_true_iff in H3 as [H3 _].
    apply andb_true_iff in H3 as [H3 _].
    split; [|discriminate].
    change (allChars (fun c => isDigit c || Ascii.eqb c "+")
              (String "+" (String a r)))
      with (allChars (fun c => isDigit c || Ascii.eqb c "+") (String a r)).
    apply D. cbn [allChars]. now rewrite H1, H3.
  - destruct c as [|a r]; [discriminate|]. intros H.
    apply andb_true_iff in H as [H H3]. apply andb_true_iff in H as [H1 _].
    unfold digits in H3. apply andb_true_iff in H3 as [H3 _].
    apply andb_true_iff in H3 as [H3 _].
    assert (A : allChars isDigit (String a r) = true)
      by (cbn [allChars]; now rewrite H1, H3).
    split; [apply D; exact A|intros _; exact A].
Qed.

Lemma phoneValid_regex v :
  Payment.phoneValid v = Validation.phoneRegex (Validation.stripSpaces v).
Proof. reflexivity. Qed.

Lemma sanitizePhone_valid v :
  Payment.phoneValid v = true ->
  sanitizePhone v =
  if String.prefix "+" (Validation.stripSpaces v)
  then Validation.stripSpaces v else "+91" ++ Validation.stripSpaces v.
Proof.
  rewrite phoneValid_regex. intros H.
  destruct (phoneRegex_chars _ H) as [A _].
  unfold sanitizePhone. cbv zeta. now rewrite (filterChars_agree _ A).
Qed.

Lemma stripSpaces_digits s :
  allChars isDigit s = true -> Validation.stripSpaces s = s.
Proof.
  unfold Validation.stripSpaces. induction s as [|c r IH]; simpl;
    [reflexivity|].
  intros H. apply andb_true_iff in H as [H1 H2].
  destruct (isSpace c) eqn:S.
  - pose proof (space_is_no_digit _ S) as N. rewrite H1 in N. discriminate N.
  - cbn [negb]. now rewrite IH.
Qed.

Lemma phoneValid_sanitizePhone v :
  Payment.phoneValid v = true ->
  Payment.phoneValid (sanitizePhone v) =
  String.prefix "+" (Validation.stripSpaces v)
  || (String.length (Validation.stripSpaces v) <=? 13)%nat.
Proof.
  intros H. rewrite (sanitizePhone_valid _ H).
  rewrite phoneValid_regex in *.
  destruct (phoneRegex_chars _ H) as [_ A].
  destruct (String.prefix "+" (Validation.stripSpaces v)) eqn:E.
  - now rewrite stripSpaces_idem.
  - specialize (A eq_refl). cbn [orb].
    set (c := Validation.stripSpaces v) in *.
    assert (S : Validation.stripSpaces ("+91" ++ c) = "+91" ++ c).
    { cbn [append]. unfold Validation.stripSpaces. cbn [filterChars].
      change (isSpace "+") with false. change (isSpace "9") with false.
      change (isSpace "1") with false. cbn [negb].
      fold (Validation.stripSpaces c). now rewrite (stripSpaces_digits _ A). }
    rewrite S. unfold Validation.phoneRegex. cbn [append].
    rewrite prefix_plus_cons, slice_one. unfold digits. cbn [allChars].
    rewrite A. reflexivity.
Qed.

Lemma validate_preSave p :
  Payment.validate p = true ->
  Payment.validate (Payment.preSave p)
  = Payment.phoneValid (sanitizePhone (PaymentDoc.phoneNumber p)).
Proof.
  intros H. unfold Payment.validate in H.
  repeat (apply andb_true_iff in H; destruct H as [H ?]).
  unfold Payment.validate, Payment.preSave.
  cbn [PaymentDoc.phoneNumber PaymentDoc.totalAmount
    PaymentDoc.amount PaymentDoc._id PaymentDoc.paymentNo PaymentDoc.type
    PaymentDoc.partyName PaymentDoc.date PaymentDoc.status
    PaymentDoc.description PaymentDoc.paymentMethod PaymentDoc.reference
    PaymentDoc.partyId].
  match goal with N : negb (PaymentDoc.phoneNumber p =? "") = true |- _ =>
    rewrite N end.
  rewrite sanitizePhone_nonempty.
  assert (T : Qle_bool 0
            (if isZero (PaymentDoc.totalAmount p)
                && negb (isZero (PaymentDoc.amount p))
             then PaymentDoc.amount p else PaymentDoc.totalAmount p) = true)
    by (destruct (_ && _); assumption).
  rewrite T.
  repeat match goal with E : _ = true |- _ => rewrite E; clear E end.
  cbn [negb andb]. now rewrite !andb_true_r.
Qed.

(** X9: the validator and the pre-save hook of the Payment schema
    disagree on long numbers.  For a payment that passes validation, the
    payment as the hook stores it passes validation again exactly when
    the phone number was sent with its plus sign or has at most 13
    digits: the hook puts +91 before a number of 14 or 15 digits, which
    the validator then rejects. *)
Theorem stored_payment_validates_again p :
  Payment.validate p = true ->
  (Payment.validate (Payment.preSave p) = true
   <-> String.prefix "+" (Validation.stripSpaces (PaymentDoc.phoneNumber p))
       = true
       \/ (String.length (Validation.stripSpaces (PaymentDoc.phoneNumber p))
           <= 13)%nat).
Proof.
  intros H. rewrite (validate_preSave _ H).
  assert (V : Payment.phoneValid (PaymentDoc.phoneNumber p) = true).
  { unfold Payment.validate in H.
    repeat (apply andb_true_iff in H; destruct H as [H ?]). assumption. }
  rewrite (phoneValid_sanitizePhone _ V), orb_true_iff, Nat.leb_le.
  reflexivity.
Qed.

Lemma stored_payment_validates_again_witness :
  Payment.validate (Payment.preSave longNumber) = true
  <-> String.prefix "+"
        (Validation.stripSpaces (PaymentDoc.phoneNumber longNumber)) = true
      \/ (String.length
            (Validation.stripSpaces (PaymentDoc.phoneNumber longNumber))
          <= 13)%nat.
Proof. apply (stored_payment_validates_again longNumber). reflexivity. Defined.

Lemma prefix_append a b : String.prefix a (a ++ b) = true.
Proof.
  induction a as [|c a IH]; [destruct b; reflexivity|].
  change (String.prefix (String c a) (String c a ++ b))
    with (if ascii_dec c c then String.prefix a (a ++ b) else false).
  destruct (ascii_dec c c); [exact IH|congruence].
Qed.

Lemma substring_append a b :
  substring (String.length a) (String.length b) (a ++ b) = b.
Proof.
  induction a as [|c a IH]; simpl; [apply substring_whole|exact IH].
Qed.

Lemma length_append a b :
  String.length (a ++ b) = (String.length a + String.length b)%nat.
Proof. induction a as [|c a IH]; simpl; [reflexivity|now rewrite IH]. Qed.

Lemma slice_append a b : slice (String.length a) (a ++ b) = b.
Proof.
  unfold slice. rewrite length_append.
  replace (String.length a + String.length b - String.length a)%nat
    with (String.length b) by lia.
  apply substring_append.
Qed.

Lemma uint_digits u : allChars isDigit (NilEmpty.string_of_uint u) = true.
Proof. induction u; simpl; auto. Qed.

Lemma toString_digits n :
  allChars isDigit (toString n) = true
  /\ (1 <= String.length (toString n))%nat
  /\ parseInt (toString n) = n.
Proof.
  unfold toString, parseInt.
  assert (E : NilZero.string_of_uint (N.to_uint n)
              = NilEmpty.string_of_uint (N.to_uint n)).
  { destruct n as [|p]; [reflexivity|]. simpl.
    pose proof (DecimalPos.Unsigned.to_uint_nonnil p) as N.
    destruct (Pos.to_uint p); [contradiction|reflexivity..]. }
  rewrite E. split; [apply uint_digits|]. split.
  - destruct n as [|p]; [simpl; lia|]. simpl.
    pose proof (DecimalPos.Unsigned.to_uint_nonnil p) as N.
    destruct (Pos.to_uint p); [contradiction|simpl; lia..].
  - rewrite NilEmpty.usu. apply DecimalN.Unsigned.of_to.
Qed.

Lemma matchNumber_generated prefix n :
  Payment.matchNumber prefix (prefix ++ "-" ++ toString n)
  = Some (toString n).
Proof.
  unfold Payment.matchNumber. cbv zeta.
  replace (prefix ++ "-" ++ toString n) with ((prefix ++ "-") ++ toString n).
  2:{ induction prefix as [|c r IH]; simpl; [reflexivity|now rewrite IH]. }
  rewrite prefix_append, slice_append.
  destruct (toString_digits n) as (D & L & _).
  unfold digits. rewrite D. cbn [andb].
  apply Nat.leb_le in L. rewrite L, Nat.leb_refl. reflexivity.
Qed.

(** X10: while the number that the latest payment of the prefix
    carries is below 2^53, so that [parseInt] reads it and [+ 1] counts
    on from it without rounding, generateNextPaymentNumber does not
    throw and leaves the store as it is; the number it returns is the
    prefix of the type (PAY-IN for payment-in, PAY-OUT for anything
    else), a hyphen and the decimal writing of an integer from 1 to
    2^53, and it matches the pattern the generator itself reads numbers
    with, which gives that integer back. *)
Theorem generated_number_reads_back type d :
  (forall last m,
     lastNumberOf (Payment.prefixOf type) d = Some last ->
     Payment.matchNumber (Payment.prefixOf type) last = Some m ->
     (parseInt m < 2 ^ 53)%N) ->
  exists n,
    Payment.generateNextPaymentNumber type d
    = (d, Returned (Payment.prefixOf type ++ "-" ++ toString n))
    /\ (1 <= n <= 2 ^ 53)%N
    /\ Payment.matchNumber (Payment.prefixOf type)
         (Payment.prefixOf type ++ "-" ++ toString n) = Some (toString n)
    /\ parseInt (toString n) = n.
Proof.
  intros B.
  assert (R : forall n, (1 <= n <= 2 ^ 53)%N ->
    Payment.generateNextPaymentNumber type d
    = (d, Returned (Payment.prefixOf type ++ "-" ++ toString n)) ->
    exists n,
      Payment.generateNextPaymentNumber type d
      = (d, Returned (Payment.prefixOf type ++ "-" ++ toString n))
      /\ (1 <= n <= 2 ^ 53)%N
      /\ Payment.matchNumber (Payment.prefixOf type)
           (Payment.prefixOf type ++ "-" ++ toString n) = Some (toString n)
      /\ parseInt (toString n) = n).
  { intros n L E. exists n. split; [exact E|]. split; [exact L|].
    split; [apply matchNumber_generated|apply toString_digits]. }
  unfold lastNumberOf in B.
  unfold Payment.generateNextPaymentNumber, tryCatch, bind,
    Payment.findLast, get, ret in *.
  destruct (Payment.greatest _ _) as [last|].
  - destruct (Payment.matchNumber _ _) as [m|] eqn:M.
    + pose proof (B _ m eq_refl M) as Hm.
      apply (R (parseInt m + 1)%N); [lia|reflexivity].
    + apply (R 1%N); [split; [lia|discriminate]|reflexivity].
  - apply (R 1%N); [split; [lia|discriminate]|reflexivity].
Qed.

Lemma generated_number_reads_back_witness :
  exists n,
    Payment.generateNextPaymentNumber "payment-in" tenReceipts
    = (tenReceipts, Returned (Payment.prefixOf "payment-in" ++ "-" ++ toString n))
    /\ (1 <= n <= 2 ^ 53)%N
    /\ Payment.matchNumber (Payment.prefixOf "payment-in")
         (Payment.prefixOf "payment-in" ++ "-" ++ toString n)
       = Some (toString n)
    /\ parseInt (toString n) = n.
Proof.
  apply (generated_number_reads_back "payment-in" tenReceipts).
  intros last m L M. vm_compute in L.
  injection L as <-. vm_compute in M. injection M as <-.
  vm_compute. reflexivity.
Defined.

(** ** The summary *)

Lemma getPaymentSummary_run createdBetween type startDate endDate d :
  PaymentSummary.getPaymentSummary createdBetween false type startDate endDate
    d
  = (d, Returned
          (PaymentSummary.aggregate createdBetween type startDate endDate
             (payments d))).
Proof. reflexivity. Qed.

Lemma getPaymentSummary_rejected createdBetween type startDate endDate d :
  PaymentSummary.getPaymentSummary createdBetween true type startDate endDate d
  = (d, Thrown StoreError).
Proof. reflexivity. Qed.

Lemma status_cond p :
  includes statuses (PaymentDoc.status p) = true ->
  (PaymentSummary.cond "completed" p + PaymentSummary.cond "pending" p
   + PaymentSummary.cond "cancelled" p = 1)%nat.
Proof.
  unfold includes, statuses, PaymentSummary.cond. cbn [existsb].
  rewrite orb_false_r. intros H.
  apply orb_true_iff in H as [H|H]; [|apply orb_true_iff in H as [H|H]];
    apply String.eqb_eq in H; rewrite H; reflexivity.
Qed.

Lemma group_countsAddUp p rows :
  includes statuses (PaymentDoc.status p) = true ->
  Forall countsAddUp rows -> Forall countsAddUp (PaymentSummary.group p rows).
Proof.
  intros V. pose proof (status_cond p V) as C.
  induction 1 as [|r rest Hr Hrest IH]; simpl.
  - constructor; [|constructor]. unfold countsAddUp. simpl. lia.
  - destruct (PaymentSummary._id r =? PaymentDoc.type p).
    + constructor; [|assumption]. unfold countsAddUp in *. simpl. lia.
    + constructor; assumption.
Qed.

Lemma validate_status p :
  Payment.validate p = true -> includes statuses (PaymentDoc.status p) = true.
Proof.
  intros H. unfold Payment.validate in H.
  repeat (apply andb_true_iff in H; destruct H as [H ?]).
  match goal with E : includes _ (PaymentDoc.status p) = true |- _ =>
    exact E end.
Qed.

(** X11: when every stored payment passes the validators of the
    schema, the three counts by status of every row of
    getPaymentSummary add up to its total count. *)
Theorem summary_counts_add_up createdBetween aggregateFails type startDate
    endDate d :
  allValid d ->
  Forall countsAddUp
    (summaryOf createdBetween aggregateFails type startDate endDate d).
Proof.
  intros V. unfold summaryOf. destruct aggregateFails.
  { rewrite getPaymentSummary_rejected. constructor. }
  rewrite getPaymentSummary_run.
  unfold PaymentSummary.aggregate.
  assert (F : Forall (fun p => includes statuses (PaymentDoc.status p) = true)
                (filter (PaymentSummary.matches createdBetween type startDate
                           endDate) (payments d))).
  { apply Forall_forall. intros p Hp. apply filter_In in Hp as [Hp _].
    apply validate_status. unfold allValid in V.
    rewrite Forall_forall in V. now apply V. }
  revert F. generalize (filter (PaymentSummary.matches createdBetween type
                                  startDate endDate) (payments d)).
  assert (G : Forall countsAddUp []) by constructor.
  revert G. generalize (@nil PaymentSummary.Row).
  intros rows G l. revert rows G.
  induction l as [|p l IH]; intros rows G F; simpl; [exact G|].
  inversion F; subst. apply IH; [|assumption].
  now apply group_countsAddUp.
Qed.

Lemma summary_counts_add_up_witness :
  Forall countsAddUp (summaryOf anyDate false None None None paid).
Proof.
  apply (summary_counts_add_up anyDate false None None None paid).
  unfold allValid. vm_compute. repeat constructor.
Defined.

Lemma sumQ_snoc l x : sumQ (l ++ [x]) == sumQ l + x.
Proof.
  unfold sumQ. induction l as [|y l IH]; simpl; [ring|]. rewrite IH. ring.
Qed.

Lemma countStatus_snoc s l p :
  countStatus s (l ++ [p]) = (countStatus s l + PaymentSummary.cond s p)%nat.
Proof.
  unfold countStatus, PaymentSummary.cond. rewrite filter_app, length_app.
  simpl. destruct (PaymentDoc.status p =? s); reflexivity.
Qed.

Lemma describes_other seen p r :
  (PaymentDoc.type p =? PaymentSummary._id r) = false ->
  describes seen r -> describes (seen ++ [p]) r.
Proof.
  unfold describes. cbv zeta. intros E H. rewrite filter_app. simpl.
  rewrite E, app_nil_r. exact H.
Qed.

Lemma describes_accumulate seen p r :
  (PaymentDoc.type p =? PaymentSummary._id r) = true ->
  describes seen r -> describes (seen ++ [p]) (PaymentSummary.accumulate p r).
Proof.
  unfold describes. cbv zeta. intros E (H1 & H2 & H3 & H4 & H5 & H6).
  cbn [PaymentSummary.accumulate PaymentSummary._id PaymentSummary.totalCount
    PaymentSummary.totalAmount PaymentSummary.completedCount
    PaymentSummary.pendingCount PaymentSummary.cancelledCount].
  rewrite filter_app. simpl. rewrite E.
  rewrite !countStatus_snoc, map_app, length_app. simpl.
  rewrite sumQ_snoc, H3. repeat split; try lia; try reflexivity.
Qed.

Lemma describes_first seen p :
  filter (fun q => (PaymentDoc.type q =? PaymentDoc.type p)) seen = [] ->
  describes (seen ++ [p])
    (PaymentSummary.accumulate p
       (PaymentSummary.mkRow (PaymentDoc.type p) 0 0 0 0 0)).
Proof.
  unfold describes. cbv zeta. intros E.
  cbn [PaymentSummary.accumulate PaymentSummary._id PaymentSummary.totalCount
    PaymentSummary.totalAmount PaymentSummary.completedCount
    PaymentSummary.pendingCount PaymentSummary.cancelledCount].
  rewrite filter_app, E. simpl. rewrite String.eqb_refl. simpl.
  unfold countStatus, PaymentSummary.cond. simpl.
  repeat split; try lia; try reflexivity; try ring;
    match goal with |- context [PaymentDoc.status p =? ?s] =>
      destruct (PaymentDoc.status p =? s) end; reflexivity.
Qed.

Lemma group_summarizes seen p rows :
  summarizes seen rows ->
  summarizes (seen ++ [p]) (PaymentSummary.group p rows).
Proof.
  intros (N & D & C).
  assert (E : forall q, In q seen ->
            (PaymentDoc.type q =? PaymentDoc.type p) = true ->
            In (PaymentDoc.type p) (map PaymentSummary._id rows)).
  { intros q Hq Hqp. apply String.eqb_eq in Hqp. rewrite <- Hqp. now apply C. }
  assert (K : NoDup (map PaymentSummary._id (PaymentSummary.group p rows))
    /\ (forall r, In r (PaymentSummary.group p rows) ->
          describes (seen ++ [p]) r)
    /\ In (PaymentDoc.type p)
         (map PaymentSummary._id (PaymentSummary.group p rows))
    /\ (forall t, In t (map PaymentSummary._id rows) ->
          In t (map PaymentSummary._id (PaymentSummary.group p rows)))).
  { clear C. induction rows as [|r rest IH].
    - simpl. split; [constructor; [intros []|constructor]|].
      split; [|split; [now left|intros t []]].
      intros r [<-|[]]. apply describes_first.
      destruct (filter _ seen) as [|q g] eqn:F; [reflexivity|].
      assert (Hq : In q (filter (fun q => (PaymentDoc.type q
                                           =? PaymentDoc.type p)) seen))
        by (rewrite F; now left).
      apply filter_In in Hq as [Hq1 Hq2]. destruct (E q Hq1 Hq2).
    - simpl. inversion N as [|? ? Hn N']; subst.
      destruct (PaymentSummary._id r =? PaymentDoc.type p) eqn:G.
      + apply String.eqb_eq in G. simpl.
        split; [constructor; assumption|].
        split; [|split; [now left|intros t Ht; exact Ht]].
        intros r' [<-|Hr'].
        * apply describes_accumulate; [|apply D; now left].
          rewrite G. apply String.eqb_refl.
        * apply describes_other; [|apply D; now right].
          apply String.eqb_neq. intros Q. apply Hn. rewrite G, Q.
          now apply in_map.
      + assert (E' : forall q, In q seen ->
                  (PaymentDoc.type q =? PaymentDoc.type p) = true ->
                  In (PaymentDoc.type p) (map PaymentSummary._id rest)).
        { intros q Hq Hqp. destruct (E q Hq Hqp) as [Q|Q]; [|exact Q].
          apply String.eqb_neq in G. contradiction. }
        destruct (IH N' (fun r' Hr' => D r' (or_intror Hr')) E')
          as (N1 & D1 & I1 & S1).
        simpl. split.
        { constructor; [|exact N1]. intros Q.
          assert (Q' : In (PaymentSummary._id r)
                         (map PaymentSummary._id rest)
                       \/ PaymentSummary._id r = PaymentDoc.type p).
          { clear - Q. induction rest as [|x rest IH]; simpl in *.
            - destruct Q as [Q|[]]; auto.
            - destruct (PaymentSummary._id x =? PaymentDoc.type p) eqn:X.
              + simpl in Q. destruct Q as [Q|Q]; auto.
              + simpl in Q. destruct Q as [Q|Q]; auto.
                destruct (IH Q); auto. }
          destruct Q' as [Q'|Q']; [contradiction|].
          apply String.eqb_neq in G. contradiction. }
        split.
        { intros r' [<-|Hr']; [|now apply D1].
          apply describes_other; [|apply D; now left].
          rewrite String.eqb_sym. exact G. }
        split; [now right|].
        intros t [<-|Ht]; [now left|right; now apply S1]. }
  destruct K as (K1 & K2 & K3 & K4).
  split; [exact K1|]. split; [exact K2|].
  intros q Hq. apply in_app_or in Hq as [Hq|[<-|[]]]; [|exact K3].
  apply K4. now apply C.
Qed.

Lemma aggregate_summarizes l seen rows :
  summarizes seen rows ->
  summarizes (seen ++ l) (fold_left (fun rows p => PaymentSummary.group p rows)
                            l rows).
Proof.
  revert seen rows. induction l as [|p l IH]; intros seen rows H; simpl.
  - now rewrite app_nil_r.
  - replace (seen ++ p :: l)%list with ((seen ++ [p]) ++ l)%list
      by (rewrite <- app_assoc; reflexivity).
    apply IH. now apply group_summarizes.
Qed.

(** X12: getPaymentSummary rethrows the error of an aggregation that
    the store rejects, and leaves the store as it is.  Otherwise it
    returns one row for each type that occurs among the payments it
    matches, and no other row.  In the row of a type, the total count
    is the number of the matched payments of the type, the total amount
    the sum of their [amount]s, and each count by status the number of
    them with the status.  When a type is asked for, every row is the
    row of that type. *)
Theorem summary_has_one_row_per_type createdBetween aggregateFails type
    startDate endDate d :
  let summary :=
    PaymentSummary.getPaymentSummary createdBetween aggregateFails type
      startDate endDate d in
  (aggregateFails = true /\ summary = (d, Thrown StoreError))
  \/ (aggregateFails = false
      /\ exists rows,
           summary = (d, Returned rows)
           /\ summarizes
                (filter
                   (PaymentSummary.matches createdBetween type startDate
                      endDate)
                   (payments d))
                rows
           /\ (truthy type = true ->
               Forall (fun r => PaymentSummary._id r = orDefault type "")
                 rows)).
Proof.
  cbv zeta. destruct aggregateFails.
  { left. split; [reflexivity|]. apply getPaymentSummary_rejected. }
  right. split; [reflexivity|]. rewrite getPaymentSummary_run.
  eexists. split; [reflexivity|].
  assert (S : summarizes
       (filter (PaymentSummary.matches createdBetween type startDate endDate)
          (payments d))
       (PaymentSummary.aggregate createdBetween type startDate endDate
          (payments d))).
  { unfold PaymentSummary.aggregate.
    apply (aggregate_summarizes _ [] []).
    split; [constructor|]. split; intros ? []. }
  split; [exact S|].
  intros T. apply Forall_forall. intros r Hr.
  destruct S as (_ & D & _). destruct (D r Hr) as (C & L & _).
  destruct (filter _ (filter _ (payments d))) as [|p g] eqn:F;
    [simpl in C; lia|].
  assert (Hp : In p (filter (fun p => (PaymentDoc.type p
                                       =? PaymentSummary._id r))
                       (filter (PaymentSummary.matches createdBetween type
                                  startDate endDate) (payments d))))
    by (rewrite F; now left).
  apply filter_In in Hp as [Hp E]. apply filter_In in Hp as [_ M].
  unfold PaymentSummary.matches in M. rewrite T in M.
  apply andb_true_iff in M as [M _].
  apply String.eqb_eq in E, M. congruence.
Qed.

(** * Payments, from creation to deletion *)

Lemma findOrCreate_cases name phone ty d :
  (exists p,
     find (fun p => (PartyDoc.name p =? name)
                    && (PartyDoc.phoneNumber p =? sanitizePhone phone))
       (parties d) = Some p
     /\ Party.findOrCreate name phone ty d = (d, Returned p))
  \/ (find (fun p => (PartyDoc.name p =? name)
                     && (PartyDoc.phoneNumber p =? sanitizePhone phone))
        (parties d) = None
      /\ Party.findOrCreate name phone ty d
         = (bumpId
              (setParties
                 (parties d
                  ++ [PartyDoc.mk (nextId d) name (sanitizePhone phone) ty 0])
                 d),
            Returned (PartyDoc.mk (nextId d) name (sanitizePhone phone) ty 0))).
Proof.
  unfold Party.findOrCreate, bind, get, ret, modify. cbv zeta.
  destruct (find _ (parties d)) as [p|].
  - left. exists p. split; reflexivity.
  - right. split; reflexivity.
Qed.

(** POST /api/payments once the body has passed the checks of the
    route. *)
Lemma payment_post_run body d name phone amount date party d1 :
  PaymentRoutes.partyName body = Some name ->
  PaymentRoutes.phoneNumber body = Some phone ->
  PaymentRoutes.amount body = Some amount ->
  PaymentRoutes.date body = Some date ->
  (name =? "") || (phone =? "") || isZero amount || (date =? "") = false ->
  Qle_bool amount 0 = false ->
  Party.findOrCreate name phone None d = (d1, Returned party) ->
  let payment :=
    draft body name phone amount date
      (nextNumber (orDefault (PaymentRoutes.type body) "payment-in") d)
      (nextId d1) (PartyDoc._id party) in
  PaymentRoutes.post body d =
  if Payment.validate payment then
    if existsb (fun x => (PaymentDoc.paymentNo x
                          =? PaymentDoc.paymentNo (Payment.preSave payment)))
         (payments d1)
    then (record (ConsoleError createErr) (bumpId d1), mkRes 500 None)
    else
      match Payment.updatePartyBalance (Payment.preSave payment)
              (setPayments (payments d1 ++ [Payment.preSave payment])
                 (bumpId d1)) with
      | (d3, Returned _) => (d3, mkRes 201 (Some (nextId d1)))
      | (d3, Thrown e) =>
          (record (ConsoleError createErr) d3,
           mkRes (if isValidationError e then 400 else 500) None)
      end
  else (record (ConsoleError createErr) (bumpId d1), mkRes 400 None).
Proof.
  intros Hn Hp Ha Hd C1 C2 F payment.
  unfold PaymentRoutes.post, respond, tryCatch.
  rewrite Hn, Hp, Ha, Hd, C1, C2.
  rewrite (bind_returned _ _ _ _ _ (generateNextPaymentNumber_run _ d)).
  rewrite (bind_returned _ _ _ _ _ F).
  unfold bind at 1. unfold get at 1.
  unfold bind at 1. unfold modify at 1.
  unfold bind at 1.
  fold (draft body name phone amount date
          (nextNumber (orDefault (PaymentRoutes.type body) "payment-in") d)
          (nextId d1) (PartyDoc._id party)).
  fold payment. unfold Payment.save.
  destruct (Payment.validate payment); cbn [negb]; [|reflexivity].
  cbv zeta. unfold bind at 1. unfold get at 1.
  change (payments (bumpId d1)) with (payments d1).
  destruct (existsb _ (payments d1)).
  - reflexivity.
  - unfold bind at 1. unfold modify at 1. unfold ret at 1.
    unfold bind at 1.
    change (payments (bumpId d1)) with (payments d1).
    destruct (Payment.updatePartyBalance _ _) as [d3 [[]|e]]; simpl.
    + reflexivity.
    + unfold PaymentRoutes.onError, bind, consoleError, modify, ret.
      destruct (isValidationError e); reflexivity.
Qed.

(** What a POST /api/payments that answered 201 has done. *)
Lemma payment_post_201 body d d1 r1 :
  partiesWf d ->
  PaymentRoutes.post body d = (d1, r1) ->
  statusCode r1 = 201%nat ->
  exists name phone amount date party d0,
    (PaymentRoutes.partyName body = Some name
     /\ PaymentRoutes.phoneNumber body = Some phone
     /\ PaymentRoutes.amount body = Some amount
     /\ PaymentRoutes.date body = Some date)
    /\ Party.findOrCreate name phone None d = (d0, Returned party)
    /\ partyOf (PartyDoc._id party) d0 = Some party
    /\ (balanceOf (PartyDoc._id party) d = Some (PartyDoc.balance party)
        \/ (balanceOf (PartyDoc._id party) d = None
            /\ PartyDoc.balance party = 0))
    /\ (forall j, j <> PartyDoc._id party -> balanceOf j d0 = balanceOf j d)
    /\ payments d0 = payments d
    /\ (nextId d <= nextId d0)%nat
    /\ Payment.validate
         (draft body name phone amount date
            (nextNumber (orDefault (PaymentRoutes.type body) "payment-in") d)
            (nextId d0) (PartyDoc._id party)) = true
    /\ r1 = mkRes 201 (Some (nextId d0))
    /\ d1 =
       let saved :=
         Payment.preSave
           (draft body name phone amount date
              (nextNumber (orDefault (PaymentRoutes.type body) "payment-in") d)
              (nextId d0) (PartyDoc._id party)) in
       setParties
         (Party.replace (credited subtract amount party) (parties d0))
         (record (PartyUpdateBalance (PartyDoc._id party) amount subtract)
            (record (UpdatePartyBalanceCalled (PaymentDoc.paymentNo saved))
               (setPayments (payments d0 ++ [saved]) (bumpId d0)))).
Proof.
  intros W H C.
  destruct (PaymentRoutes.partyName body) as [name|] eqn:Hn;
    [|unfold PaymentRoutes.post, respond, tryCatch in H; rewrite Hn in H;
      inversion H; subst; discriminate].
  destruct (PaymentRoutes.phoneNumber body) as [phone|] eqn:Hp;
    [|unfold PaymentRoutes.post, respond, tryCatch in H; rewrite Hn, Hp in H;
      inversion H; subst; discriminate].
  destruct (PaymentRoutes.amount body) as [amount|] eqn:Ha;
    [|unfold PaymentRoutes.post, respond, tryCatch in H;
      rewrite Hn, Hp, Ha in H; inversion H; subst; discriminate].
  destruct (PaymentRoutes.date body) as [date|] eqn:Hd;
    [|unfold PaymentRoutes.post, respond, tryCatch in H;
      rewrite Hn, Hp, Ha, Hd in H; inversion H; subst; discriminate].
  destruct ((name =? "") || (phone =? "") || isZero amount || (date =? ""))
    eqn:C1;
    [unfold PaymentRoutes.post, respond, tryCatch in H;
     rewrite Hn, Hp, Ha, Hd, C1 in H; inversion H; subst; discriminate|].
  destruct (Qle_bool amount 0) eqn:C2;
    [unfold PaymentRoutes.post, respond, tryCatch in H;
     rewrite Hn, Hp, Ha, Hd, C1, C2 in H; inversion H; subst; discriminate|].
  destruct (findOrCreate_run name phone None d W)
    as (party & d0 & R & Hf & Hb & Ho & Ht & Hpay & _).
  assert (Hid : (nextId d <= nextId d0)%nat).
  { destruct (findOrCreate_cases name phone None d) as [(p & _ & E)|(_ & E)];
      rewrite E in R; inversion R; subst; simpl; lia. }
  rewrite (payment_post_run body d name phone amount date party d0
             Hn Hp Ha Hd C1 C2 R) in H.
  cbv zeta in H.
  set (payment := draft body name phone amount date _ _ _) in *.
  destruct (Payment.validate payment) eqn:V;
    [|inversion H; subst; discriminate].
  destruct (existsb _ (payments d0)); [inversion H; subst; discriminate|].
  set (saved := Payment.preSave payment) in *.
  assert (Hpid : PaymentDoc.partyId saved = Some (PartyDoc._id party))
    by reflexivity.
  assert (Hf' : partyOf (PartyDoc._id party)
                  (setPayments (payments d0 ++ [saved]) (bumpId d0))
                = Some party) by exact Hf.
  rewrite (updatePartyBalance_found _ _ _ _ Hpid Hf') in H.
  inversion H; subst d1 r1; clear H.
  exists name, phone, amount, date, party, d0.
  split; [repeat split|].
  repeat (split; [first [reflexivity|assumption]|]).
  reflexivity.
Qed.

Lemma payment_delete_run id p d :
  paymentOf id d = Some p ->
  PaymentRoutes.delete id d =
  match PaymentDoc.partyId p with
  | Some pid =>
      if (PaymentDoc.status p =? "completed") then
        match Party.updateBalance pid (PaymentDoc.amount p) add d with
        | (d1, Returned _) =>
            (setPayments (Payment.remove id (payments d1)) d1, mkRes 200 None)
        | (d1, Thrown _) =>
            (record (ConsoleError "Error deleting payment:") d1,
             mkRes 500 None)
        end
      else (setPayments (Payment.remove id (payments d)) d, mkRes 200 None)
  | None => (setPayments (Payment.remove id (payments d)) d, mkRes 200 None)
  end.
Proof.
  intros Hp. unfold PaymentRoutes.delete, respond, tryCatch.
  unfold bind at 1. unfold Payment.findById, get.
  unfold paymentOf in Hp. rewrite Hp.
  destruct (PaymentDoc.partyId p) as [pid|]; [|reflexivity].
  destruct (PaymentDoc.status p =? "completed"); [|reflexivity].
  assert (E : (if (PaymentDoc.type p =? "payment-in") then add else add)
              = add) by (destruct (_ =? _); reflexivity).
  rewrite E. unfold bind at 1. unfold bind at 1.
  destruct (Party.updateBalance pid (PaymentDoc.amount p) add d)
    as [d1 [party|e]]; reflexivity.
Qed.

Lemma payment_find_fresh (l : list PaymentDoc.t) n m :
  Forall (fun p => (PaymentDoc._id p < n)%nat) l -> (n <= m)%nat ->
  find (fun x => (PaymentDoc._id x =? m)%nat) l = None.
Proof.
  intros F L. induction F as [|x r Hx _ IH]; simpl; [reflexivity|].
  destruct (PaymentDoc._id x =? m)%nat eqn:E; [|exact IH].
  apply Nat.eqb_eq in E. lia.
Qed.

Lemma payment_remove_last (l : list PaymentDoc.t) x :
  find (fun y => (PaymentDoc._id y =? PaymentDoc._id x)%nat) l = None ->
  Payment.remove (PaymentDoc._id x) (l ++ [x]) = l.
Proof.
  induction l as [|y l IH]; simpl.
  - now rewrite Nat.eqb_refl.
  - destruct (PaymentDoc._id y =? PaymentDoc._id x)%nat; [discriminate|].
    intros H. now rewrite IH.
Qed.

(** X13: a payment that is created and then deleted leaves the
    payments as they were, and the ledger too when its status is
    completed.  Created with another status (pending, cancelled), it
    leaves the balance of its party lower by its amount: the creation
    subtracts the amount whatever the status, the deletion adds it back
    for a completed payment only. *)
Theorem payment_created_then_deleted body d d1 r1 id d2 r2 :
  partiesWf d ->
  paymentsFresh d ->
  PaymentRoutes.post body d = (d1, r1) ->
  statusCode r1 = 201%nat ->
  docId r1 = Some id ->
  PaymentRoutes.delete id d1 = (d2, r2) ->
  statusCode r2 = 200%nat
  /\ payments d2 = payments d
  /\ exists pid amount b0 b2,
       PaymentRoutes.amount body = Some amount
       /\ (balanceOf pid d = Some b0 \/ (balanceOf pid d = None /\ b0 = 0))
       /\ balanceOf pid d2 = Some b2
       /\ b2 == (if (statusSent body =? "completed") then b0
                 else b0 - amount)
       /\ forall j, j <> pid -> balanceOf j d2 = balanceOf j d.
Proof.
  intros W F H1 C1 I H2.
  destruct (payment_post_201 _ _ _ _ W H1 C1)
    as (name & phone & amount & date & party & d0 & (_ & _ & Ha & _) & _ & Hf
        & Hb & Ho & Hpay & Hid & V & Er & Ed).
  rewrite Er in I. simpl in I. inversion I; subst id; clear I.
  cbv zeta in Ed.
  set (saved := Payment.preSave _) in Ed.
  set (dS := setPayments (payments d0 ++ [saved]) (bumpId d0)) in Ed.
  assert (Hfresh : find (fun x => (PaymentDoc._id x =? nextId d0)%nat)
                     (payments d0) = None).
  { rewrite Hpay. eapply payment_find_fresh; [exact F|exact Hid]. }
  assert (Hs : paymentOf (nextId d0) d1 = Some saved).
  { subst d1. unfold paymentOf. simpl. rewrite find_append, Hfresh. simpl.
    now rewrite Nat.eqb_refl. }
  assert (HfS : partyOf (PartyDoc._id party) dS = Some party) by exact Hf.
  assert (Hf1 : partyOf (PartyDoc._id party) d1
                = Some (credited subtract amount party)).
  { subst d1. unfold partyOf. simpl. rewrite party_find_replace. simpl.
    rewrite Nat.eqb_refl. unfold partyOf in Hf. now rewrite Hf. }
  assert (Hrem : Payment.remove (nextId d0) (payments d1) = payments d).
  { subst d1. simpl. rewrite <- Hpay.
    apply (payment_remove_last (payments d0) saved). exact Hfresh. }
  assert (Hb1 : forall j, balanceOf j d1 =
            if (PartyDoc._id party =? j)%nat
            then Some (PartyDoc.balance party - amount) else balanceOf j d0).
  { intros j. subst d1.
    match goal with |- balanceOf _ (setParties _ ?x) = _ =>
      rewrite (balanceOf_credit _ _ _ _ _ dS x HfS) by reflexivity end.
    reflexivity. }
  rewrite (payment_delete_run _ _ _ Hs) in H2.
  change (PaymentDoc.partyId saved) with (Some (PartyDoc._id party)) in H2.
  change (PaymentDoc.status saved) with (statusSent body) in H2.
  change (PaymentDoc.amount saved) with amount in H2.
  assert (B0 : balanceOf (PartyDoc._id party) d = Some (PartyDoc.balance party)
               \/ (balanceOf (PartyDoc._id party) d = None
                   /\ PartyDoc.balance party = 0)) by exact Hb.
  destruct (statusSent body =? "completed").
  - rewrite (updateBalance_found _ _ _ _ _ Hf1) in H2.
    inversion H2; subst d2 r2; clear H2.
    split; [reflexivity|]. split; [exact Hrem|].
    exists (PartyDoc._id party), amount, (PartyDoc.balance party),
      (PartyDoc.balance party - amount + amount).
    split; [exact Ha|]. split; [exact B0|]. split.
    { match goal with |- balanceOf _ (setPayments _ (setParties _ ?x)) = _ =>
        change (balanceOf (PartyDoc._id party)
                  (setParties
                     (Party.replace
                        (credited add amount (credited subtract amount party))
                        (parties d1)) x)
                = Some (PartyDoc.balance party - amount + amount));
        rewrite (balanceOf_credit _ _ _ _ _ d1 x Hf1) by reflexivity end.
      now rewrite Nat.eqb_refl. }
    split; [ring|].
    intros j Hj.
    match goal with |- balanceOf _ (setPayments _ (setParties _ ?x)) = _ =>
      change (balanceOf j
                (setParties
                   (Party.replace
                      (credited add amount (credited subtract amount party))
                      (parties d1)) x)
              = balanceOf j d);
      rewrite (balanceOf_credit _ _ _ _ _ d1 x Hf1) by reflexivity end.
    destruct (PartyDoc._id party =? j)%nat eqn:G;
      [apply Nat.eqb_eq in G; congruence|].
    rewrite Hb1, G. now apply Ho.
  - inversion H2; subst d2 r2; clear H2.
    split; [reflexivity|]. split; [exact Hrem|].
    exists (PartyDoc._id party), amount, (PartyDoc.balance party),
      (PartyDoc.balance party - amount).
    split; [exact Ha|]. split; [exact B0|]. split.
    { rewrite balanceOf_setPayments, Hb1. now rewrite Nat.eqb_refl. }
    split; [reflexivity|].
    intros j Hj. rewrite balanceOf_setPayments, Hb1.
    destruct (PartyDoc._id party =? j)%nat eqn:G;
      [apply Nat.eqb_eq in G; congruence|].
    now apply Ho.
Qed.

Lemma payment_created_then_deleted_witness :
  statusCode (snd (PaymentRoutes.delete 1
                     (fst (PaymentRoutes.post pendingReceipt emptyDb))))
  = 200%nat
  /\ payments (fst (PaymentRoutes.delete 1
                      (fst (PaymentRoutes.post pendingReceipt emptyDb))))
     = payments emptyDb
  /\ exists pid amount b0 b2,
       PaymentRoutes.amount pendingReceipt = Some amount
       /\ (balanceOf pid emptyDb = Some b0
           \/ (balanceOf pid emptyDb = None /\ b0 = 0))
       /\ balanceOf pid
            (fst (PaymentRoutes.delete 1
                    (fst (PaymentRoutes.post pendingReceipt emptyDb))))
          = Some b2
       /\ b2 == (if (statusSent pendingReceipt =? "completed") then b0
                 else b0 - amount)
       /\ forall j, j <> pid ->
            balanceOf j
              (fst (PaymentRoutes.delete 1
                      (fst (PaymentRoutes.post pendingReceipt emptyDb))))
            = balanceOf j emptyDb.
Proof.
  apply (payment_created_then_deleted pendingReceipt emptyDb
           (fst (PaymentRoutes.post pendingReceipt emptyDb))
           (snd (PaymentRoutes.post pendingReceipt emptyDb)) 1%nat
           (fst (PaymentRoutes.delete 1
                   (fst (PaymentRoutes.post pendingReceipt emptyDb))))
           (snd (PaymentRoutes.delete 1
                   (fst (PaymentRoutes.post pendingReceipt emptyDb))))).
  - split; constructor.
  - constructor.
  - apply surjective_pairing.
  - vm_compute. reflexivity.
  - vm_compute. reflexivity.
  - apply surjective_pairing.
Defined.

Lemma validate_misdated p :
  Payment.dateValid (PaymentDoc.date p) = false -> Payment.validate p = false.
Proof.
  intros H. unfold Payment.validate. rewrite H.
  rewrite !andb_false_r. reflexivity.
Qed.

(** X14: a payment that the route lets through but the schema rejects
    for its date is answered 400 and is not stored, the ledger is not
    called, and yet the party that the route looked up before saving
    has been created when it did not exist: it stays in the store with
    the balance 0. *)
Theorem rejected_payment_leaves_its_party body d name phone amount date :
  PaymentRoutes.partyName body = Some name ->
  PaymentRoutes.phoneNumber body = Some phone ->
  PaymentRoutes.amount body = Some amount ->
  PaymentRoutes.date body = Some date ->
  name <> "" -> phone <> "" -> date <> "" -> 0 < amount ->
  Payment.dateValid date = false ->
  find (fun p => (PartyDoc.name p =? name)
                 && (PartyDoc.phoneNumber p =? sanitizePhone phone))
    (parties d) = None ->
  statusCode (snd (PaymentRoutes.post body d)) = 400%nat
  /\ payments (fst (PaymentRoutes.post body d)) = payments d
  /\ parties (fst (PaymentRoutes.post body d))
     = (parties d
        ++ [PartyDoc.mk (nextId d) name (sanitizePhone phone) None 0])%list
  /\ emitted d (fst (PaymentRoutes.post body d)) = [ConsoleError createErr].
Proof.
  intros Hn Hp Ha Hd Nn Np Nd Pa V F.
  destruct (findOrCreate_cases name phone None d) as [(p & E & _)|(_ & R)];
    [congruence|].
  assert (C1 : (name =? "") || (phone =? "") || isZero amount || (date =? "")
               = false).
  { apply String.eqb_neq in Nn, Np, Nd. rewrite Nn, Np, Nd.
    cbn [orb]. rewrite orb_false_r.
    unfold isZero. apply not_true_is_false. intros Q.
    apply Qeq_bool_iff in Q. rewrite Q in Pa. now apply Qlt_irrefl in Pa. }
  assert (C2 : Qle_bool amount 0 = false).
  { apply not_true_is_false. intros Q. apply Qle_bool_iff in Q.
    apply (Qlt_irrefl 0). eapply Qlt_le_trans; eassumption. }
  rewrite (payment_post_run body d name phone amount date _ _
             Hn Hp Ha Hd C1 C2 R).
  cbv zeta. rewrite validate_misdated by exact V.
  split; [reflexivity|]. split; [reflexivity|]. split; [reflexivity|].
  apply emitted_app. reflexivity.
Qed.

Lemma rejected_payment_leaves_its_party_witness :
  statusCode (snd (PaymentRoutes.post misdated emptyDb)) = 400%nat
  /\ payments (fst (PaymentRoutes.post misdated emptyDb)) = payments emptyDb
  /\ parties (fst (PaymentRoutes.post misdated emptyDb))
     = (parties emptyDb
        ++ [PartyDoc.mk (nextId emptyDb) "Ravi" (sanitizePhone "9876543210")
              None 0])%list
  /\ emitted emptyDb (fst (PaymentRoutes.post misdated emptyDb))
     = [ConsoleError createErr].
Proof.
  apply (rejected_payment_leaves_its_party misdated emptyDb "Ravi"
           "9876543210" 500 "2025-02-01");
    try reflexivity; try discriminate.
Defined.

Lemma stripSpaces_dropWhile s :
  Validation.stripSpaces (dropWhile isSpace s) = Validation.stripSpaces s.
Proof.
  unfold Validation.stripSpaces. induction s as [|c r IH]; simpl;
    [reflexivity|].
  destruct (isSpace c) eqn:E; simpl; [exact IH|now rewrite E].
Qed.

Lemma filterChars_list p s :
  filterChars p s
  = string_of_list_ascii (filter p (list_ascii_of_string s)).
Proof.
  induction s as [|c r IH]; simpl; [reflexivity|].
  destruct (p c); simpl; now rewrite IH.
Qed.

Lemma stripSpaces_rev s :
  Validation.stripSpaces (rev_string s) = rev_string (Validation.stripSpaces s).
Proof.
  unfold Validation.stripSpaces, rev_string.
  rewrite !filterChars_list, !list_ascii_of_string_of_list_ascii.
  now rewrite filter_rev.
Qed.

Lemma rev_string_involutive s : rev_string (rev_string s) = s.
Proof.
  unfold rev_string. rewrite list_ascii_of_string_of_list_ascii, rev_involutive.
  apply string_of_list_ascii_of_string.
Qed.

Lemma stripSpaces_trim s :
  Validation.stripSpaces (trim s) = Validation.stripSpaces s.
Proof.
  unfold trim.
  rewrite stripSpaces_rev, stripSpaces_dropWhile, stripSpaces_rev,
    stripSpaces_dropWhile.
  apply rev_string_involutive.
Qed.

Lemma validate_phone p :
  Payment.validate p = true ->
  (PaymentDoc.phoneNumber p =? "") = false
  /\ Payment.phoneValid (PaymentDoc.phoneNumber p) = true.
Proof.
  intros H. unfold Payment.validate in H.
  repeat (apply andb_true_iff in H; destruct H as [H ?]).
  split; [|assumption].
  match goal with E : negb (PaymentDoc.phoneNumber p =? "") = true |- _ =>
    now apply negb_true_iff in E end.
Qed.

Lemma validate_misdialled p :
  Payment.phoneValid (PaymentDoc.phoneNumber p) = false ->
  Payment.validate p = false.
Proof.
  intros H. unfold Payment.validate. rewrite H.
  rewrite !andb_false_r. reflexivity.
Qed.

(** X15: a payment created with a phone number of 14 or 15 digits
    that has no plus sign is answered 201, and after that its status
    can no longer be changed: the number was stored with +91 before it,
    the validators reject the stored number on every later save, and
    the status route answers 500 and leaves payments and parties as
    they are. *)
Theorem long_number_blocks_status_change body d d1 r1 id phone s :
  partiesWf d ->
  paymentsFresh d ->
  PaymentRoutes.post body d = (d1, r1) ->
  statusCode r1 = 201%nat ->
  docId r1 = Some id ->
  PaymentRoutes.phoneNumber body = Some phone ->
  String.prefix "+" (Validation.stripSpaces phone) = false ->
  (14 <= String.length (Validation.stripSpaces phone))%nat ->
  includes statuses s = true ->
  statusCode (snd (PaymentRoutes.patchStatus id (Some s) d1)) = 500%nat
  /\ payments (fst (PaymentRoutes.patchStatus id (Some s) d1)) = payments d1
  /\ parties (fst (PaymentRoutes.patchStatus id (Some s) d1)) = parties d1.
Proof.
  intros W F H1 C1 I Hph P L Hs.
  destruct (payment_post_201 _ _ _ _ W H1 C1)
    as (name & phone' & amount & date & party & d0 & (_ & Hph' & Ha & _) & R
        & Hf & Hb & Ho & Hpay & Hid & V & Er & Ed).
  rewrite Er in I. simpl in I. inversion I; subst id; clear I.
  cbv zeta in Ed.
  set (payment := draft body name phone' amount date _ _ _) in *.
  set (saved := Payment.preSave payment) in *.
  assert (Hfresh : find (fun x => (PaymentDoc._id x =? nextId d0)%nat)
                     (payments d0) = None).
  { rewrite Hpay. eapply payment_find_fresh; [exact F|exact Hid]. }
  assert (Hsv : paymentOf (nextId d0) d1 = Some saved).
  { subst d1. unfold paymentOf. simpl. rewrite find_append, Hfresh. simpl.
    now rewrite Nat.eqb_refl. }
  assert (Ephone : phone' = phone) by congruence.
  subst phone'.
  destruct (validate_phone _ V) as [Ne Pv].
  change (PaymentDoc.phoneNumber payment) with (trim phone) in Ne, Pv.
  assert (Bad : Payment.validate (PaymentRoutes.withStatus s saved) = false).
  { apply validate_misdialled.
    change (PaymentDoc.phoneNumber (PaymentRoutes.withStatus s saved))
      with (if negb (trim phone =? "") then sanitizePhone (trim phone)
            else trim phone).
    rewrite Ne. cbn [negb].
    rewrite (phoneValid_sanitizePhone _ Pv), stripSpaces_trim, P.
    cbn [orb]. apply Nat.leb_gt. lia. }
  rewrite (payment_patchStatus_run _ _ _ _ Hsv Hs), Bad.
  repeat split.
Qed.

Lemma long_number_blocks_status_change_witness :
  statusCode
    (snd (PaymentRoutes.patchStatus 1 (Some "cancelled")
            (fst (PaymentRoutes.post longReceipt emptyDb)))) = 500%nat
  /\ payments
       (fst (PaymentRoutes.patchStatus 1 (Some "cancelled")
               (fst (PaymentRoutes.post longReceipt emptyDb))))
     = payments (fst (PaymentRoutes.post longReceipt emptyDb))
  /\ parties
       (fst (PaymentRoutes.patchStatus 1 (Some "cancelled")
               (fst (PaymentRoutes.post longReceipt emptyDb))))
     = parties (fst (PaymentRoutes.post longReceipt emptyDb)).
Proof.
  apply (long_number_blocks_status_change longReceipt emptyDb
           (fst (PaymentRoutes.post longReceipt emptyDb))
           (snd (PaymentRoutes.post longReceipt emptyDb)) 1%nat
           "12345678901234" "cancelled").
  - split; constructor.
  - constructor.
  - apply surjective_pairing.
  - vm_compute. reflexivity.
  - vm_compute. reflexivity.
  - reflexivity.
  - reflexivity.
  - simpl. lia.
  - reflexivity.
Defined.

(** * The party routes *)

Lemma party_find_remove (l : list PartyDoc.t) pid j :
  NoDup (map PartyDoc._id l) ->
  find (fun x => (PartyDoc._id x =? j)%nat) (PartyRoutes.remove pid l) =
  if (pid =? j)%nat then None else find (fun x => (PartyDoc._id x =? j)%nat) l.
Proof.
  induction l as [|x r IH]; simpl; intros N.
  - destruct (pid =? j)%nat; reflexivity.
  - inversion N as [|? ? Hn N']; subst.
    destruct (PartyDoc._id x =? pid)%nat eqn:E.
    + apply Nat.eqb_eq in E. subst pid.
      destruct (PartyDoc._id x =? j)%nat eqn:G; [|reflexivity].
      apply Nat.eqb_eq in G. subst j.
      destruct (find _ r) as [y|] eqn:Fy; [|reflexivity].
      apply find_some in Fy as [Iy Ey]. apply Nat.eqb_eq in Ey.
      exfalso. apply Hn. rewrite <- Ey. now apply in_map.
    + simpl. rewrite (IH N').
      destruct (PartyDoc._id x =? j)%nat eqn:G; [|reflexivity].
      destruct (pid =? j)%nat eqn:K; [|reflexivity].
      apply Nat.eqb_eq in G, K. apply Nat.eqb_neq in E. congruence.
Qed.

Lemma party_delete_run pid party d :
  partyOf pid d = Some party ->
  PartyRoutes.delete pid d
  = (setParties (PartyRoutes.remove pid (parties d)) d, mkRes 200 None).
Proof.
  intros H. unfold PartyRoutes.delete, respond, tryCatch.
  unfold bind at 1. unfold Party.findById, get.
  unfold partyOf in H. rewrite H. reflexivity.
Qed.

(** X16: DELETE /api/parties/:id removes the party and nothing else:
    payments and purchases that name it stay, and the other parties
    are as they were.  A completed payment of the deleted party can then
    no longer be deleted: its deletion answers 500 and leaves it in
    place. *)
Theorem deleted_party_strands_its_payments pid party id p d :
  partiesWf d ->
  partyOf pid d = Some party ->
  paymentOf id d = Some p ->
  PaymentDoc.partyId p = Some pid ->
  PaymentDoc.status p = "completed" ->
  let d1 := fst (PartyRoutes.delete pid d) in
  statusCode (snd (PartyRoutes.delete pid d)) = 200%nat
  /\ partyOf pid d1 = None
  /\ (forall j, j <> pid -> partyOf j d1 = partyOf j d)
  /\ payments d1 = payments d
  /\ purchases d1 = purchases d
  /\ statusCode (snd (PaymentRoutes.delete id d1)) = 500%nat
  /\ paymentOf id (fst (PaymentRoutes.delete id d1)) = Some p.
Proof.
  intros [N _] Hf Hp Hpid Hs d1. unfold d1.
  rewrite (party_delete_run _ _ _ Hf). simpl.
  split; [reflexivity|].
  assert (Hnone : partyOf pid
                    (setParties (PartyRoutes.remove pid (parties d)) d) = None).
  { unfold partyOf. simpl. rewrite (party_find_remove _ _ _ N).
    now rewrite Nat.eqb_refl. }
  split; [exact Hnone|]. split.
  { intros j Hj. unfold partyOf. simpl. rewrite (party_find_remove _ _ _ N).
    destruct (pid =? j)%nat eqn:G; [|reflexivity].
    apply Nat.eqb_eq in G. congruence. }
  split; [reflexivity|]. split; [reflexivity|].
  assert (Hp1 : paymentOf id
                  (setParties (PartyRoutes.remove pid (parties d)) d) = Some p)
    by exact Hp.
  rewrite (payment_delete_run _ _ _ Hp1), Hpid, Hs. simpl.
  rewrite (updateBalance_missing _ _ _ _ Hnone). simpl.
  split; [reflexivity|exact Hp].
Qed.

Lemma deleted_party_strands_its_payments_witness :
  statusCode (snd (PartyRoutes.delete 0 paid)) = 200%nat
  /\ partyOf 0 (fst (PartyRoutes.delete 0 paid)) = None
  /\ (forall j, j <> 0%nat ->
        partyOf j (fst (PartyRoutes.delete 0 paid)) = partyOf j paid)
  /\ payments (fst (PartyRoutes.delete 0 paid)) = payments paid
  /\ purchases (fst (PartyRoutes.delete 0 paid)) = purchases paid
  /\ statusCode
       (snd (PaymentRoutes.delete 1 (fst (PartyRoutes.delete 0 paid))))
     = 500%nat
  /\ paymentOf 1
       (fst (PaymentRoutes.delete 1 (fst (PartyRoutes.delete 0 paid))))
     = Some paidPayment.
Proof.
  eapply (deleted_party_strands_its_payments 0%nat _ 1%nat paidPayment paid).
  - split; vm_compute; repeat constructor. intros [].
  - vm_compute. reflexivity.
  - vm_compute. reflexivity.
  - reflexivity.
  - reflexivity.
Defined.

Lemma patchBalance_run id x op d :
  includes ["add"; "subtract"; "set"] op = true ->
  PartyRoutes.patchBalance false id (Some x) (Some op) d =
  match partyOf id d with
  | Some party =>
      (setParties
         (Party.replace (credited (PartyRoutes.operationOf op) x party)
            (parties d))
         (record (PartyUpdateBalance id x (PartyRoutes.operationOf op)) d),
       mkRes 200 (Some (PartyDoc._id party)))
  | None =>
      (record (ConsoleError "Error updating party balance:")
         (record (PartyUpdateBalance id x (PartyRoutes.operationOf op)) d),
       mkRes 404 None)
  end.
Proof.
  intros H. unfold PartyRoutes.patchBalance, respond, tryCatch.
  assert (T : truthy (Some op) = true).
  { simpl. destruct (op =? "") eqn:E; [|reflexivity].
    apply String.eqb_eq in E. subst op. discriminate H. }
  rewrite T. cbn [negb orDefault]. rewrite H. cbn [negb].
  destruct (partyOf id d) as [party|] eqn:F.
  - unfold bind at 1. rewrite (updateBalance_found _ _ _ _ _ F). reflexivity.
  - unfold bind at 1. rewrite (updateBalance_missing _ _ _ _ F). reflexivity.
Qed.

Lemma patchBalance_rejected id x op d :
  includes ["add"; "subtract"; "set"] op = true ->
  PartyRoutes.patchBalance true id (Some x) (Some op) d =
  (record (ConsoleError "Error updating party balance:") d, mkRes 500 None).
Proof.
  intros H. unfold PartyRoutes.patchBalance, respond, tryCatch.
  assert (T : truthy (Some op) = true).
  { simpl. destruct (op =? "") eqn:E; [|reflexivity].
    apply String.eqb_eq in E. subst op. discriminate H. }
  rewrite T. cbn [negb orDefault]. rewrite H. reflexivity.
Qed.

(** X17: PATCH /api/parties/:id/balance answers 400, and leaves the
    store untouched, when the amount is absent or the operation is not
    add, subtract or set.  Otherwise it answers 500 when the update of
    the balance fails for another reason than a missing party, 404 when
    it fails because no party has the id, and the parties are as they
    were in both cases; and 200 when it does not fail: the balance of
    the party is then the sum, the difference or the amount itself (an
    amount of 0 is accepted) and no other balance has changed. *)
Theorem patch_balance_answers updateFails id amount operation d :
  let d' := fst (PartyRoutes.patchBalance updateFails id amount operation d) in
  let r := snd (PartyRoutes.patchBalance updateFails id amount operation d) in
  let wellFormed :=
    amount <> None
    /\ includes ["add"; "subtract"; "set"] (orDefault operation "") = true in
  (statusCode r = 400%nat /\ d' = d
   /\ (amount = None
       \/ includes ["add"; "subtract"; "set"] (orDefault operation "") = false))
  \/ (statusCode r = 500%nat /\ parties d' = parties d
      /\ wellFormed /\ updateFails = true)
  \/ (statusCode r = 404%nat /\ parties d' = parties d
      /\ wellFormed /\ updateFails = false /\ partyOf id d = None)
  \/ (statusCode r = 200%nat /\ updateFails = false
      /\ exists x op party,
           amount = Some x /\ operation = Some op
           /\ partyOf id d = Some party
           /\ balanceOf id d'
              = Some (Party.adjust (PartyRoutes.operationOf op)
                        (PartyDoc.balance party) x)
           /\ forall j, j <> id -> balanceOf j d' = balanceOf j d).
Proof.
  cbv zeta. destruct amount as [x|].
  2:{ left. repeat split. now left. }
  destruct operation as [op|].
  2:{ left. destruct updateFails; repeat split; now right. }
  destruct (includes ["add"; "subtract"; "set"] op) eqn:I.
  2:{ left. unfold PartyRoutes.patchBalance, respond, tryCatch.
      cbn [orDefault]. rewrite I. cbn [negb].
      destruct (negb (truthy (Some op))); repeat split; now right. }
  right. destruct updateFails.
  { left. rewrite (patchBalance_rejected _ _ _ _ I).
    repeat split; [discriminate|exact I]. }
  right. rewrite (patchBalance_run _ _ _ _ I).
  destruct (partyOf id d) as [party|] eqn:F.
  - right. split; [reflexivity|]. split; [reflexivity|]. exists x, op, party.
    repeat split.
    + simpl. rewrite (balanceOf_credit _ _ _ _ _ d _ F) by reflexivity.
      now rewrite Nat.eqb_refl.
    + intros j Hj. simpl.
      rewrite (balanceOf_credit _ _ _ _ _ d _ F) by reflexivity.
      destruct (id =? j)%nat eqn:G; [|reflexivity].
      apply Nat.eqb_eq in G. congruence.
  - left. repeat split; [discriminate|exact I].
Qed.

Lemma findOrCreate_route_run name phoneNumber type d d1 party :
  negb (truthy name) || negb (truthy phoneNumber) || negb (truthy type)
  = false ->
  Party.findOrCreate (orDefault name "") (orDefault phoneNumber "") type d
  = (d1, Returned party) ->
  PartyRoutes.findOrCreate name phoneNumber type d
  = (d1, mkRes 200 (Some (PartyDoc._id party))).
Proof.
  intros C E. unfold PartyRoutes.findOrCreate, respond, tryCatch.
  rewrite C. unfold bind. rewrite E. reflexivity.
Qed.

(** X18: POST /api/parties/find-or-create is idempotent: the same
    request sent again gets the same answer, with the id of the same
    party, and leaves the store as the first request left it. *)
Theorem find_or_create_twice name phoneNumber type d :
  PartyRoutes.findOrCreate name phoneNumber type
    (fst (PartyRoutes.findOrCreate name phoneNumber type d))
  = (fst (PartyRoutes.findOrCreate name phoneNumber type d),
     snd (PartyRoutes.findOrCreate name phoneNumber type d)).
Proof.
  destruct (negb (truthy name) || negb (truthy phoneNumber)
            || negb (truthy type)) eqn:C.
  { unfold PartyRoutes.findOrCreate, respond, tryCatch. rewrite C.
    reflexivity. }
  destruct (findOrCreate_cases (orDefault name "") (orDefault phoneNumber "")
              type d) as [(p & F & E)|(F & E)].
  - rewrite (findOrCreate_route_run _ _ _ _ _ _ C E). cbn [fst snd].
    apply (findOrCreate_route_run _ _ _ _ _ _ C E).
  - rewrite (findOrCreate_route_run _ _ _ _ _ _ C E). cbn [fst snd].
    set (new := PartyDoc.mk (nextId d) (orDefault name "")
                  (sanitizePhone (orDefault phoneNumber "")) type 0) in *.
    set (d1 := bumpId (setParties (parties d ++ [new]) d)) in *.
    apply (findOrCreate_route_run _ _ _ _ _ _ C).
    destruct (findOrCreate_cases (orDefault name "")
                (orDefault phoneNumber "") type d1) as [(p & F1 & E1)|(F1 & _)].
    + rewrite E1.
      assert (p = new).
      { unfold d1 in F1. simpl in F1. rewrite find_append, F in F1.
        simpl in F1. rewrite !String.eqb_refl in F1. simpl in F1.
        now inversion F1. }
      subst p. reflexivity.
    + unfold d1 in F1. simpl in F1. rewrite find_append, F in F1.
      simpl in F1. rewrite !String.eqb_refl in F1. discriminate F1.
Qed.

(** * Startup *)

Lemma universalOf_append l i :
  universalOf (l ++ [i]) =
  match universalOf l with
  | Some b => Some b
  | None => if isBardana i then Some i else None
  end.
Proof. unfold universalOf. rewrite find_append. reflexivity. Qed.

Lemma initializeBardana_run universalFails saveFails d :
  Server.initializeBardana universalFails saveFails d =
  if universalFails
  then (record (ConsoleError "❌ Error initializing Bardana:") d, Returned tt)
  else match universalOf (stock d) with
       | Some _ => (d, Returned tt)
       | None =>
           if saveFails
           then (record (ConsoleError "❌ Error initializing Bardana:") d,
                 Returned tt)
           else (bumpId
                   (setStock
                      (stock d ++ [ItemDoc.mk (nextId d) "Bardana" true 0]) d),
                 Returned tt)
       end.
Proof.
  unfold Server.initializeBardana, tryCatch, bind, Item.findUniversal,
    Server.saveNew.
  destruct universalFails; [reflexivity|].
  unfold get, universalOf, isBardana.
  destruct (find _ (stock d)); [reflexivity|].
  destruct saveFails; reflexivity.
Qed.

(** X19: initializeBardana never throws and is idempotent on the
    inventory, whatever fails: run again, it leaves the items as the
    first run left them.  It touches neither parties, purchases nor
    payments. *)
Theorem initializeBardana_idempotent universalFails saveFails d :
  let init := Server.initializeBardana universalFails saveFails in
  snd (init d) = Returned tt
  /\ stock (fst (init (fst (init d)))) = stock (fst (init d))
  /\ parties (fst (init d)) = parties d
  /\ purchases (fst (init d)) = purchases d
  /\ payments (fst (init d)) = payments d.
Proof.
  cbv zeta. rewrite (initializeBardana_run universalFails saveFails d).
  destruct universalFails.
  { rewrite initializeBardana_run. repeat split. }
  destruct (universalOf (stock d)) as [b|] eqn:U.
  { cbn [fst snd]. rewrite initializeBardana_run, U. repeat split. }
  destruct saveFails.
  { cbn [fst snd]. rewrite initializeBardana_run. cbn [fst].
    change (stock (record (ConsoleError "❌ Error initializing Bardana:") d))
      with (stock d).
    rewrite U. repeat split. }
  cbn [fst snd]. rewrite initializeBardana_run.
  assert (U1 : universalOf
                 (stock (bumpId
                           (setStock
                              (stock d
                               ++ [ItemDoc.mk (nextId d) "Bardana" true 0])
                              d)))
               = Some (ItemDoc.mk (nextId d) "Bardana" true 0)).
  { simpl. rewrite universalOf_append, U. reflexivity. }
  rewrite U1. repeat split.
Qed.

(** X20: when neither the lookup nor the save fails, the inventory
    has a universal Bardana item after initializeBardana.  An item
    that was in the inventory is still there with its stock: an
    existing Bardana is not reset, and when there was none the new one
    comes last, with the stock 0. *)
Theorem initializeBardana_ensures_bardana d :
  let d' := fst (Server.initializeBardana false false d) in
  (exists b, universalOf (stock d') = Some b)
  /\ (forall b, universalOf (stock d) = Some b ->
        d' = d /\ universalOf (stock d') = Some b)
  /\ (universalOf (stock d) = None ->
      stock d' = (stock d ++ [ItemDoc.mk (nextId d) "Bardana" true 0])%list)
  /\ (forall j i, itemOf j (stock d) = Some i -> itemOf j (stock d') = Some i).
Proof.
  cbv zeta. rewrite initializeBardana_run.
  destruct (universalOf (stock d)) as [b|] eqn:U; cbn [fst].
  - split; [exists b; exact U|]. split; [|split].
    + intros b' E. inversion E; subst. split; [reflexivity|exact U].
    + discriminate.
    + auto.
  - split.
    { eexists. simpl. rewrite universalOf_append, U. reflexivity. }
    split; [discriminate|]. split; [reflexivity|].
    intros j i H. unfold itemOf in *. simpl. rewrite find_append, H.
    reflexivity.
Qed.

(** * The WhatsApp service *)

Lemma substring_split n s :
  (n <= String.length s)%nat ->
  s = substring 0 n s ++ substring n (String.length s - n) s.
Proof.
  revert s. induction n as [|n IH]; intros s L.
  - rewrite Nat.sub_0_r, substring_whole. destruct s; reflexivity.
  - destruct s as [|c s]; [simpl in L; lia|]. simpl in *.
    rewrite <- IH by lia. reflexivity.
Qed.

Lemma length_substring n m s :
  (n + m <= String.length s)%nat -> String.length (substring n m s) = m.
Proof.
  revert n m. induction s as [|c s IH]; intros n m L; simpl in *.
  - assert (n = 0%nat) by lia. assert (m = 0%nat) by lia. subst.
    reflexivity.
  - destruct n as [|n].
    + destruct m as [|m]; [reflexivity|]. simpl. rewrite IH by lia.
      reflexivity.
    + apply IH. lia.
Qed.

(** X21: getConfigInfo shows of the API key three asterisks and its
    last four characters, or the whole key when it has at most four;
    no other character of the key is in what it returns. *)
Theorem config_info_masks_key key url :
  key <> "" ->
  exists hidden shown,
    key = hidden ++ shown
    /\ String.length shown = Nat.min 4 (String.length key)
    /\ WhatsAppService.getConfigInfo (Some key) url
       = WhatsAppService.mkInfo (Some ("***" ++ shown)) url (truthy url).
Proof.
  intros N. unfold WhatsAppService.getConfigInfo, WhatsAppService.isConfigured.
  assert (T : truthy (Some key) = true).
  { simpl. apply String.eqb_neq in N. now rewrite N. }
  rewrite T. cbn [orDefault andb].
  unfold WhatsAppService.sliceLast, slice.
  exists (substring 0 (String.length key - 4) key),
    (substring (String.length key - 4)
       (String.length key - (String.length key - 4)) key).
  split; [apply substring_split; lia|]. split; [|reflexivity].
  rewrite length_substring by lia. lia.
Qed.

Lemma config_info_masks_key_witness :
  exists hidden shown,
    "wa-secret-1234" = hidden ++ shown
    /\ String.length shown = Nat.min 4 (String.length "wa-secret-1234")
    /\ WhatsAppService.getConfigInfo (Some "wa-secret-1234") None
       = WhatsAppService.mkInfo (Some ("***" ++ shown)) None (truthy None).
Proof. apply (config_info_masks_key "wa-secret-1234" None). discriminate. Defined.

Lemma orElse_truthy v fallback :
  fallback <> "" -> Js.truthy (Some (WhatsAppService.orElse v fallback)) = true.
Proof.
  intros N. apply String.eqb_neq in N. unfold WhatsAppService.orElse.
  destruct v as [x|]; [|simpl; now rewrite N].
  destruct (Js.truthy (Some x)) eqn:T; [exact T|simpl; now rewrite N].
Qed.

Lemma handleError_failed error :
  failedWithError (WhatsAppService.handleError error).
Proof.
  unfold WhatsAppService.handleError, failedWithError.
  destruct (match WhatsAppService.code error with
            | Some c => c =? "ECONNABORTED"
            | None => false
            end).
  - eexists. split; reflexivity.
  - destruct (WhatsAppService.response error) as [data|].
    + eexists. split; [reflexivity|]. apply orElse_truthy. discriminate.
    + eexists. split; [reflexivity|].
      destruct (WhatsAppService.message error =? "") eqn:E;
        [reflexivity|]. simpl. now rewrite E.
Qed.

Lemma text_message_settles post typeError to text :
  (exists data,
     WhatsAppService.sendTextMessage post typeError to text
     = WhatsAppService.Success "Message sent successfully" data)
  \/ failedWithError (WhatsAppService.sendTextMessage post typeError to text).
Proof.
  unfold WhatsAppService.sendTextMessage.
  destruct (post _) as [data|error]; [|right; apply handleError_failed].
  destruct (WhatsAppService.member "success" data) as [flag|];
    [|right; apply handleError_failed].
  destruct (Js.truthy flag).
  - left. now exists data.
  - right. destruct (WhatsAppService.member "error" data) as [e|];
      [|apply handleError_failed].
    eexists. split; [reflexivity|]. apply orElse_truthy. discriminate.
Qed.

(** X22: sendTextMessage and sendDocument return a success exactly
    when the API answers the body they send with a [data] whose
    [success] is truthy, and the success then carries that [data] and
    the message of the method; whatever else happens (a rejection, a
    timeout, a response without data, a falsy [success]) they return a
    failure, and its error is never empty. *)
Theorem send_succeeds_exactly_when_accepted post typeError to text url name :
  let sent := WhatsAppService.sendTextMessage post typeError to text in
  let document :=
    WhatsAppService.sendDocument post typeError to text url name in
  let textBody := WhatsAppService.payloadOf [("to", to); ("text", text)] in
  let documentBody :=
    let payload :=
      WhatsAppService.payloadOf
        [("to", to); ("text", text); ("documentUrl", url)] in
    if Js.truthy name
    then (payload ++ WhatsAppService.payloadOf [("fileName", name)])%list
    else payload in
  (forall message data,
     sent = WhatsAppService.Success message data
     <-> message = "Message sent successfully"
         /\ accepted post textBody data)
  /\ (WhatsAppService.success sent = true \/ failedWithError sent)
  /\ (forall message data,
        document = WhatsAppService.Success message data
        <-> message = "Document sent successfully"
            /\ accepted post documentBody data)
  /\ (WhatsAppService.success document = true \/ failedWithError document).
Proof.
  cbv zeta. unfold WhatsAppService.sendTextMessage,
    WhatsAppService.sendDocument, accepted. cbv zeta.
  match goal with
  | |- context [WhatsAppService.handleError (WhatsAppService.mkFailure None None typeError)] =>
      pose proof (handleError_failed
                    (WhatsAppService.mkFailure None None typeError)) as FT
  end.
  split; [|split; [|split]].
  - intros message data.
    destruct (post _) as [data'|error] eqn:P.
    + destruct (WhatsAppService.member "success" data') as [flag|] eqn:M.
      * destruct (Js.truthy flag) eqn:T.
        -- split.
           ++ intros E. injection E as <- <-. split; [reflexivity|].
              split; [reflexivity|]. exists flag. now split.
           ++ intros (-> & E & _). injection E as <-. reflexivity.
        -- split.
           ++ intros E. destruct (WhatsAppService.member "error" data');
                [discriminate E|].
              destruct FT as (e & Fe & _). rewrite Fe in E. discriminate E.
           ++ intros (_ & E & flag' & M' & T'). injection E as <-.
              rewrite M in M'. injection M' as <-. congruence.
      * split.
        -- intros E. destruct FT as (e & Fe & _). rewrite Fe in E.
           discriminate E.
        -- intros (_ & E & flag' & M' & _). injection E as <-.
           rewrite M in M'. discriminate M'.
    + split.
      * intros E. destruct (handleError_failed error) as (e & Fe & _).
        rewrite Fe in E. discriminate E.
      * intros (_ & E & _). discriminate E.
  - destruct (post _) as [data'|error];
      [|right; apply handleError_failed].
    destruct (WhatsAppService.member "success" data') as [flag|];
      [|right; exact FT].
    destruct (Js.truthy flag); [left; reflexivity|]. right.
    destruct (WhatsAppService.member "error" data') as [e|]; [|exact FT].
    eexists. split; [reflexivity|]. apply orElse_truthy. discriminate.
  - intros message data.
    destruct (post _) as [data'|error] eqn:P.
    + destruct (WhatsAppService.member "success" data') as [flag|] eqn:M.
      * destruct (Js.truthy flag) eqn:T.
        -- split.
           ++ intros E. injection E as <- <-. split; [reflexivity|].
              split; [reflexivity|]. exists flag. now split.
           ++ intros (-> & E & _). injection E as <-. reflexivity.
        -- split.
           ++ intros E. destruct (WhatsAppService.member "error" data');
                [discriminate E|].
              destruct FT as (e & Fe & _). rewrite Fe in E. discriminate E.
           ++ intros (_ & E & flag' & M' & T'). injection E as <-.
              rewrite M in M'. injection M' as <-. congruence.
      * split.
        -- intros E. destruct FT as (e & Fe & _). rewrite Fe in E.
           discriminate E.
        -- intros (_ & E & flag' & M' & _). injection E as <-.
           rewrite M in M'. discriminate M'.
    + split.
      * intros E. destruct (handleError_failed error) as (e & Fe & _).
        rewrite Fe in E. discriminate E.
      * intros (_ & E & _). discriminate E.
  - destruct (post _) as [data'|error];
      [|right; apply handleError_failed].
    destruct (WhatsAppService.member "success" data') as [flag|];
      [|right; exact FT].
    destruct (Js.truthy flag); [left; reflexivity|]. right.
    destruct (WhatsAppService.member "error" data') as [e|]; [|exact FT].
    eexists. split; [reflexivity|]. apply orElse_truthy. discriminate.
Qed.

Lemma whatsapp_next req req' :
  Validation.validateWhatsAppRequest req = Validation.Next req' ->
  exists t, Js.prop "to" (Validation.body req') = Some (Js.Str t)
            /\ wellFormedNumber t = true.
Proof.
  intros H. unfold Validation.validateWhatsAppRequest in H. cbv zeta in H.
  destruct (_ || _); [discriminate H|].
  destruct (Validation.validatePhoneNumber _) as [[|]|] eqn:V;
    try discriminate H.
  destruct (forwarded_recipient _ _ _ eq_refl V H)
    as (s & t & _ & _ & E & W & _).
  now exists t.
Qed.

Lemma document_next req req' :
  Validation.validateDocumentRequest req = Validation.Next req' ->
  exists t, Js.prop "to" (Validation.body req') = Some (Js.Str t)
            /\ wellFormedNumber t = true.
Proof.
  intros H. unfold Validation.validateDocumentRequest in H. cbv zeta in H.
  destruct (_ || _); [discriminate H|].
  destruct (Validation.validatePhoneNumber _) as [[|]|] eqn:V;
    try discriminate H.
  destruct (forwarded_recipient _ _ _ eq_refl V H)
    as (s & t & _ & _ & E & W & _).
  now exists t.
Qed.

(** X23: the routes send-message and send-document call the API only
    with a recipient that is a plus sign followed by 2 to 15 digits:
    what they answer is the same for two APIs that answer alike on the
    bodies with such a recipient.  When the service is not configured
    they do not call it at all. *)
Theorem routes_call_api_with_wellformed_recipient key url post post'
    typeError req :
  (WhatsAppService.isConfigured key url = true ->
   forall payload, recipientOk payload -> post payload = post' payload) ->
  WhatsAppService.sendMessageRoute key url post typeError req
  = WhatsAppService.sendMessageRoute key url post' typeError req
  /\ WhatsAppService.sendDocumentRoute key url post typeError req
     = WhatsAppService.sendDocumentRoute key url post' typeError req.
Proof.
  intros A. split.
  - unfold WhatsAppService.sendMessageRoute.
    destruct (Validation.validateWhatsAppRequest req) as [req'| |] eqn:V;
      try reflexivity.
    destruct (WhatsAppService.isConfigured key url) eqn:C; [|reflexivity].
    cbn [negb]. cbv zeta. destruct (whatsapp_next _ _ V) as (t & E & W).
    unfold WhatsAppService.sendTextMessage. rewrite E.
    rewrite (A eq_refl); [reflexivity|].
    exists t. split; [reflexivity|exact W].
  - unfold WhatsAppService.sendDocumentRoute.
    destruct (Validation.validateDocumentRequest req) as [req'| |] eqn:V;
      try reflexivity.
    destruct (WhatsAppService.isConfigured key url) eqn:C; [|reflexivity].
    cbn [negb]. cbv zeta. destruct (document_next _ _ V) as (t & E & W).
    unfold WhatsAppService.sendDocument. rewrite E. cbv zeta.
    match goal with |- context [post ?p] => set (payload := p) end.
    rewrite (A eq_refl payload); [reflexivity|].
    exists t. split; [|exact W]. unfold payload.
    destruct (Js.truthy _); reflexivity.
Qed.

Lemma routes_call_api_with_wellformed_recipient_witness :
  WhatsAppService.sendMessageRoute (Some "key") (Some "https://api") apiDown
    "TypeError" (textRequest (Js.Str "98765 43210"))
  = WhatsAppService.sendMessageRoute (Some "key") (Some "https://api")
      pickyApi "TypeError" (textRequest (Js.Str "98765 43210")).
Proof.
  apply (routes_call_api_with_wellformed_recipient (Some "key")
           (Some "https://api") apiDown pickyApi "TypeError"
           (textRequest (Js.Str "98765 43210"))).
  intros _ payload (t & E & W). unfold pickyApi. rewrite E, W. reflexivity.
Defined.

(** X24: once the service is configured, the route send-message
    never answers 500: it answers 400 for a request that its validator
    refuses, 200 with the success of the service, and 400 with its
    failure, whose error is not empty, when the API rejects, times out
    or answers without success.  (A [to] that is not a string makes the
    validator throw before the route is reached.) *)
Theorem configured_route_answers_200_or_400 key url post typeError req :
  WhatsAppService.isConfigured key url = true ->
  let answer := WhatsAppService.sendMessageRoute key url post typeError req in
  (exists e, answer = WhatsAppService.Refused 400 e)
  \/ answer = WhatsAppService.Errored
  \/ (exists data,
        answer = WhatsAppService.Replied 200
                   (WhatsAppService.Success "Message sent successfully" data))
  \/ (exists r, answer = WhatsAppService.Replied 400 r /\ failedWithError r).
Proof.
  intros C. cbv zeta. unfold WhatsAppService.sendMessageRoute.
  destruct (Validation.validateWhatsAppRequest req) as [req'|st e|] eqn:V.
  - rewrite C. cbn [negb]. cbv zeta.
    destruct (text_message_settles post typeError
                (Js.prop "to" (Validation.body req'))
                (Js.prop "text" (Validation.body req')))
      as [(data & E)|F].
    + right. right. left. exists data. rewrite E. reflexivity.
    + right. right. right. destruct F as (e & E & T).
      eexists. rewrite E. split; [reflexivity|]. exists e. now split.
  - left. exists e. unfold Validation.validateWhatsAppRequest in V.
    cbv zeta in V. destruct (_ || _); [now inversion V|].
    destruct (Validation.validatePhoneNumber _) as [[|]|];
      [|now inversion V|discriminate V].
    unfold Validation.sanitizeAndNext in V.
    destruct (Validation.sanitizePhoneNumber _); discriminate V.
  - right. now left.
Qed.

Lemma configured_route_answers_200_or_400_witness :
  (exists e,
     WhatsAppService.sendMessageRoute (Some "key") (Some "https://api")
       apiDown "TypeError" (textRequest (Js.Str "98765 43210"))
     = WhatsAppService.Refused 400 e)
  \/ WhatsAppService.sendMessageRoute (Some "key") (Some "https://api")
       apiDown "TypeError" (textRequest (Js.Str "98765 43210"))
     = WhatsAppService.Errored
  \/ (exists data,
        WhatsAppService.sendMessageRoute (Some "key") (Some "https://api")
          apiDown "TypeError" (textRequest (Js.Str "98765 43210"))
        = WhatsAppService.Replied 200
            (WhatsAppService.Success "Message sent successfully" data))
  \/ (exists r,
        WhatsAppService.sendMessageRoute (Some "key") (Some "https://api")
          apiDown "TypeError" (textRequest (Js.Str "98765 43210"))
        = WhatsAppService.Replied 400 r
        /\ failedWithError r).
Proof.
  apply (configured_route_answers_200_or_400 (Some "key")
           (Some "https://api") apiDown "TypeError"
           (textRequest (Js.Str "98765 43210"))).
  reflexivity.
Defined.

(** * The launcher *)

Lemma filter_nil_iff {A} (f : A -> bool) l :
  filter f l = [] <-> forall x, In x l -> f x = false.
Proof.
  induction l as [|a l IH]; simpl.
  - split; [intros _ x []|reflexivity].
  - destruct (f a) eqn:E.
    + split; [discriminate|]. intros H. specialize (H a (or_introl eq_refl)).
      congruence.
    + rewrite IH. split.
      * intros H x [<-|Hx]; auto.
      * intros H x Hx. apply H. now right.
Qed.

(** X25: the launcher starts the server exactly when config.env is
    there and each of its five required variables is set to a string
    that is not empty.  What it does is the same with and without
    WASENDER_API_BASE_URL; and in a server without that variable the
    WhatsApp service is not configured: every send-message request that
    its validator lets through is answered 500. *)
Theorem launcher_starts_without_whatsapp_url configExists uploadsExists env :
  (Start.start configExists uploadsExists env
   = Start.Started (negb uploadsExists)
   <-> configExists = true
       /\ forall varName, In varName Start.requiredEnvVars ->
            truthy (env varName) = true)
  /\ (forall env',
        (forall varName, varName <> "WASENDER_API_BASE_URL" ->
           env' varName = env varName) ->
        Start.start configExists uploadsExists env'
        = Start.start configExists uploadsExists env)
  /\ (truthy (env "WASENDER_API_BASE_URL") = false ->
      forall post typeError req req',
        Validation.validateWhatsAppRequest req = Validation.Next req' ->
        WhatsAppService.sendMessageRoute (env "WASENDER_API_KEY")
          (env "WASENDER_API_BASE_URL") post typeError req
        = WhatsAppService.Refused 500 WhatsAppService.notConfigured).
Proof.
  assert (S : Start.start configExists uploadsExists env
              = Start.Started (negb uploadsExists)
              <-> configExists = true
                  /\ forall varName, In varName Start.requiredEnvVars ->
                       truthy (env varName) = true).
  { unfold Start.start. destruct configExists; cbn [negb].
    2:{ split; [discriminate|intros [H _]; discriminate H]. }
    cbv zeta.
    destruct (filter _ Start.requiredEnvVars) as [|v l] eqn:F.
    - split; [|reflexivity]. intros _. split; [reflexivity|].
      intros varName Hv. rewrite filter_nil_iff in F.
      apply negb_false_iff. now apply F.
    - split; [discriminate|]. intros [_ H]. exfalso.
      assert (Hv : In v (filter (fun varName => negb (truthy (env varName)))
                           Start.requiredEnvVars))
        by (rewrite F; now left).
      apply filter_In in Hv as [Hv1 Hv2]. rewrite (H v Hv1) in Hv2.
      discriminate Hv2. }
  split; [exact S|]. split.
  { intros env' E. unfold Start.start. destruct configExists; [|reflexivity].
    cbn [negb]. cbv zeta.
    replace (filter (fun varName => negb (truthy (env' varName)))
               Start.requiredEnvVars)
      with (filter (fun varName => negb (truthy (env varName)))
              Start.requiredEnvVars); [reflexivity|].
    apply filter_ext_in. intros v Hv. rewrite E; [reflexivity|].
    intros ->. simpl in Hv. intuition discriminate. }
  intros U post typeError req req' V.
  unfold WhatsAppService.sendMessageRoute. rewrite V.
  unfold WhatsAppService.isConfigured. rewrite U, andb_false_r. reflexivity.
Qed.

(** * A purchase whose party is gone *)

(** X26: DELETE /api/purchases/:id for a purchase whose party no
    longer exists answers 500 and keeps the purchase, but it has
    already taken the quantities of the purchase out of the stock, as a
    deletion that succeeds does: the stock is restored before the ledger
    is called.  The purchase and its missing party being as before, the
    same request does the same again. *)
Theorem failed_delete_still_takes_stock_out lookupFails universalFails
    id p pid d :
  purchaseOf id d = Some p ->
  PurchaseDoc.partyId p = Some pid ->
  partyOf pid d = None ->
  uniqueIds (stock d) ->
  let d' := fst (PurchaseRoutes.delete lookupFails universalFails id d) in
  statusCode (snd (PurchaseRoutes.delete lookupFails universalFails id d))
  = 500%nat
  /\ stock d'
     = deleteStock lookupFails universalFails (PurchaseDoc.items p) (stock d)
  /\ purchaseOf id d' = Some p
  /\ partyOf pid d' = None
  /\ uniqueIds (stock d').
Proof.
  intros Hp Hpid Hf U. cbv zeta.
  pose proof (purchase_delete_run lookupFails universalFails id p pid d
                Hp Hpid) as R.
  cbv zeta in R. rewrite Hf in R. rewrite R. cbn [fst snd].
  pose proof (unstocked_stock_eq lookupFails universalFails p d U) as E.
  split; [reflexivity|]. split; [exact E|].
  assert (K : purchases (unstocked lookupFails universalFails p d) = purchases d
              /\ parties (unstocked lookupFails universalFails p d)
                 = parties d).
  { unfold unstocked.
    destruct (bardanaStep_parties universalFails
                (fun s => PurchaseRoutes.clamp
                   (s - PurchaseRoutes.totalKg (PurchaseDoc.items p) / 30))
                "Error restoring Bardana stock:"
                (fold_left (lineStep lookupFails restore restoreErr)
                   (PurchaseDoc.items p) d)) as [P1 [P2 _]].
    destruct (linesStep_parties lookupFails restore restoreErr
                (PurchaseDoc.items p) d) as [Q1 [Q2 _]].
    split; congruence. }
  destruct K as [K1 K2].
  split; [unfold purchaseOf in *; simpl; now rewrite K1|].
  split; [unfold partyOf in *; simpl; now rewrite K2|].
  simpl. rewrite E. eapply uniqueIds_shape; [|exact U].
  symmetry. apply shape_deleteStock.
Qed.

Lemma failed_delete_still_takes_stock_out_witness :
  statusCode (snd (PurchaseRoutes.delete noFault false 11 orphaned)) = 500%nat
  /\ stock (fst (PurchaseRoutes.delete noFault false 11 orphaned))
     = deleteStock noFault false (PurchaseDoc.items orphanPurchase)
         (stock orphaned)
  /\ purchaseOf 11 (fst (PurchaseRoutes.delete noFault false 11 orphaned))
     = Some orphanPurchase
  /\ partyOf 10 (fst (PurchaseRoutes.delete noFault false 11 orphaned)) = None
  /\ uniqueIds (stock (fst (PurchaseRoutes.delete noFault false 11 orphaned))).
Proof.
  apply (failed_delete_still_takes_stock_out noFault false 11%nat
           orphanPurchase 10%nat orphaned).
  - vm_compute. reflexivity.
  - reflexivity.
  - reflexivity.
  - unfold uniqueIds. vm_compute. repeat constructor; simpl; intuition lia.
Defined.

(** * The purchase routes in the numbers of the engine *)

Section DoublesStock.
Import Doubles.
Context {N : Number}.

Lemma dbl_item_find_replace (i : ItemDoc.t N) l j :
  itemOf j (Item.replace i l) =
  if (ItemDoc._id i =? j)%nat
  then match itemOf j l with
       | Some _ => Some i
       | None => None
       end
  else itemOf j l.
Proof.
  unfold itemOf. induction l as [|x r IH]; simpl.
  - destruct (_ =? _)%nat; reflexivity.
  - destruct (ItemDoc._id x =? ItemDoc._id i)%nat eqn:E; simpl.
    + apply Nat.eqb_eq in E. rewrite E.
      destruct (ItemDoc._id i =? j)%nat; reflexivity.
    + rewrite IH. destruct (ItemDoc._id x =? j)%nat eqn:F; [|reflexivity].
      destruct (ItemDoc._id i =? j)%nat eqn:G; [|reflexivity].
      apply Nat.eqb_eq in F, G. apply Nat.eqb_neq in E. congruence.
Qed.

Lemma dbl_itemOf_id j (l : list (ItemDoc.t N)) i :
  itemOf j l = Some i -> ItemDoc._id i = j.
Proof.
  unfold itemOf. intros H. apply find_some in H as [_ H].
  now apply Nat.eqb_eq in H.
Qed.

Lemma dbl_stockOf_adjust (next : N -> N) id l j :
  stockOf j (adjustStock next id l) =
  if (id =? j)%nat then option_map next (stockOf j l) else stockOf j l.
Proof.
  unfold adjustStock, stockOf.
  destruct (itemOf id l) as [item|] eqn:E.
  - rewrite dbl_item_find_replace. simpl. rewrite (dbl_itemOf_id _ _ _ E).
    destruct (id =? j)%nat eqn:G; [|reflexivity].
    apply Nat.eqb_eq in G. subst j. rewrite E. reflexivity.
  - destruct (id =? j)%nat eqn:G; [|reflexivity].
    apply Nat.eqb_eq in G. subst j. rewrite E. reflexivity.
Qed.

Lemma dbl_shape_replace (i : ItemDoc.t N) l :
  (forall x, itemOf (ItemDoc._id i) l = Some x ->
     ItemDoc.productName i = ItemDoc.productName x
     /\ ItemDoc.isUniversal i = ItemDoc.isUniversal x) ->
  shape (Item.replace i l) = shape l.
Proof.
  unfold itemOf. induction l as [|x r IH]; simpl; [reflexivity|].
  intros H. destruct (ItemDoc._id x =? ItemDoc._id i)%nat eqn:E.
  - destruct (H x eq_refl) as [H1 H2]. apply Nat.eqb_eq in E.
    unfold shape. simpl. now rewrite E, H1, H2.
  - simpl. now rewrite IH.
Qed.

Lemma dbl_shape_adjust (next : N -> N) id l :
  shape (adjustStock next id l) = shape l.
Proof.
  unfold adjustStock. destruct (itemOf id l) as [item|] eqn:E; [|reflexivity].
  apply dbl_shape_replace. simpl. rewrite (dbl_itemOf_id _ _ _ E), E.
  intros x [= <-]. split; reflexivity.
Qed.

Lemma dbl_uniqueIds_shape (l l' : list (ItemDoc.t N)) :
  shape l = shape l' -> uniqueIds l -> uniqueIds l'.
Proof.
  unfold uniqueIds. intros H.
  assert (E : forall m : list (ItemDoc.t N),
            map ItemDoc._id m = map (fun t => fst (fst t)) (shape m)).
  { intros m. unfold shape. rewrite map_map. reflexivity. }
  intros U. rewrite E in U |- *. rewrite <- H. exact U.
Qed.

Lemma dbl_universalOf_shape (l l' : list (ItemDoc.t N)) :
  shape l = shape l' ->
  option_map ItemDoc._id (universalOf l)
  = option_map ItemDoc._id (universalOf l').
Proof.
  unfold universalOf, shape. revert l'.
  induction l as [|x r IH]; intros [|y r'] H; try discriminate; simpl;
    [reflexivity|].
  simpl in H. inversion H as [[H1 H2 H3 H4]].
  unfold isBardana. rewrite H2, H3.
  destruct (_ && _); simpl; [now rewrite H1|]. now apply IH.
Qed.

Lemma dbl_isUniversalId_shape (l l' : list (ItemDoc.t N)) j :
  shape l = shape l' -> isUniversalId l j = isUniversalId l' j.
Proof.
  intros H. unfold isUniversalId.
  pose proof (dbl_universalOf_shape _ _ H) as E.
  destruct (universalOf l), (universalOf l'); simpl in E; try discriminate;
    [inversion E as [E']; now rewrite E'|reflexivity].
Qed.

Lemma dbl_universalOf_itemOf (l : list (ItemDoc.t N)) b :
  uniqueIds l -> universalOf l = Some b -> itemOf (ItemDoc._id b) l = Some b.
Proof.
  unfold uniqueIds, universalOf, itemOf.
  induction l as [|x r IH]; simpl; [discriminate|].
  intros U H. inversion U as [|? ? Hn U']; subst.
  destruct (isBardana x).
  - inversion H; subst. now rewrite Nat.eqb_refl.
  - destruct (ItemDoc._id x =? ItemDoc._id b)%nat eqn:E.
    + exfalso. apply Hn. apply Nat.eqb_eq in E. rewrite E.
      apply in_map. apply find_some in H. tauto.
    + auto.
Qed.

(** Two item collections with the same shape and the same stocks are
    the same. *)
Lemma dbl_stock_ext (l l' : list (ItemDoc.t N)) :
  uniqueIds l -> shape l = shape l' ->
  (forall j, stockOf j l' = stockOf j l) -> l' = l.
Proof.
  unfold uniqueIds. revert l'.
  induction l as [|x r IH]; intros [|y r'] U H S; try discriminate;
    [reflexivity|].
  simpl in H. inversion H as [[H1 H2 H3 H4]].
  inversion U as [|? ? Hn U']; subst.
  assert (Ey : y = x).
  { pose proof (S (ItemDoc._id x)) as Sx. unfold stockOf, itemOf in Sx.
    simpl in Sx. rewrite H1, Nat.eqb_refl in Sx. simpl in Sx.
    destruct x, y; simpl in *. inversion Sx. congruence. }
  subst y. f_equal. apply IH; [exact U'|exact H4|].
  intros j. specialize (S j). unfold stockOf, itemOf in *. simpl in S.
  destruct (ItemDoc._id x =? j)%nat eqn:E; [|exact S].
  apply Nat.eqb_eq in E. subst j.
  assert (F : forall m : list (ItemDoc.t N),
            ~ In (ItemDoc._id x) (map ItemDoc._id m) ->
            find (fun i => (ItemDoc._id i =? ItemDoc._id x)%nat) m = None).
  { intros m Hm. destruct (find _ m) as [i|] eqn:G; [|reflexivity].
    apply find_some in G as [G1 G2]. apply Nat.eqb_eq in G2.
    exfalso. apply Hm. rewrite <- G2. now apply in_map. }
  rewrite (F r Hn). rewrite (F r'); [reflexivity|].
  assert (E : forall m : list (ItemDoc.t N),
            map ItemDoc._id m = map (fun t => fst (fst t)) (shape m)).
  { intros m. unfold shape. rewrite map_map. reflexivity. }
  rewrite E, <- H4, <- E. exact Hn.
Qed.

(** ** The loops as functions of the store *)

Lemma dbl_increaseStock_run (line : LineItem.t N) d :
  PurchaseRoutes.increaseStock noFault line d =
  (lineStep increase d line, Returned tt).
Proof.
  unfold PurchaseRoutes.increaseStock, lineStep, tryCatch, bind,
    Item.findById, Item.save, consoleError, modify, get, throw, ret, noFault.
  fold (itemOf (LineItem.id line) (stock d)).
  destruct (itemOf _ _); reflexivity.
Qed.

Lemma dbl_restoreStock_run (line : LineItem.t N) d :
  PurchaseRoutes.restoreStock noFault line d =
  (lineStep restore d line, Returned tt).
Proof.
  unfold PurchaseRoutes.restoreStock, lineStep, tryCatch, bind,
    Item.findById, Item.save, consoleError, modify, get, throw, ret, noFault.
  fold (itemOf (LineItem.id line) (stock d)).
  destruct (itemOf _ _); reflexivity.
Qed.

Lemma dbl_forOf_run (body : LineItem.t N -> Async N unit) step lines :
  (forall line d, body line d = (step d line, Returned tt)) ->
  forall d, forOf lines body d = (fold_left step lines d, Returned tt).
Proof.
  intros H. induction lines as [|x r IH]; intros d; simpl; [reflexivity|].
  unfold bind. rewrite H. apply IH.
Qed.

Lemma dbl_updateBardana_run (next : N -> N) msg d :
  PurchaseRoutes.updateBardana false next msg d =
  (bardanaStep next d, Returned tt).
Proof.
  unfold PurchaseRoutes.updateBardana, bardanaStep, tryCatch, bind,
    Item.findUniversal, Item.save, consoleError, modify, get, throw, ret.
  fold (@isBardana N). fold (universalOf (stock d)).
  destruct (universalOf _); reflexivity.
Qed.

Lemma dbl_lineStep_stock next d (line : LineItem.t N) :
  stock (lineStep next d line) = linesStock next [line] (stock d).
Proof.
  unfold lineStep, linesStock, adjustStock. simpl.
  destruct (itemOf _ _); reflexivity.
Qed.

Lemma dbl_lineStep_frame next d (line : LineItem.t N) :
  parties (lineStep next d line) = parties d
  /\ purchases (lineStep next d line) = purchases d
  /\ nextId (lineStep next d line) = nextId d.
Proof.
  unfold lineStep. destruct (itemOf _ _); repeat split.
Qed.

Lemma dbl_linesStep_stock next (lines : list (LineItem.t N)) d :
  stock (fold_left (lineStep next) lines d) = linesStock next lines (stock d).
Proof.
  revert d. induction lines as [|x r IH]; intros d; [reflexivity|].
  simpl. rewrite IH, dbl_lineStep_stock. reflexivity.
Qed.

Lemma dbl_linesStep_frame next (lines : list (LineItem.t N)) d :
  parties (fold_left (lineStep next) lines d) = parties d
  /\ purchases (fold_left (lineStep next) lines d) = purchases d
  /\ nextId (fold_left (lineStep next) lines d) = nextId d.
Proof.
  revert d. induction lines as [|x r IH]; intros d; [repeat split|].
  simpl. destruct (IH (lineStep next d x)) as (A & B & C).
  destruct (dbl_lineStep_frame next d x) as (A' & B' & C').
  rewrite A, B, C. auto.
Qed.

Lemma dbl_bardanaStep_stock (next : N -> N) d :
  uniqueIds (stock d) ->
  stock (bardanaStep next d) = bardanaStock next (stock d).
Proof.
  intros U. unfold bardanaStep, bardanaStock, adjustStock.
  destruct (universalOf (stock d)) as [b|] eqn:E; [|reflexivity].
  rewrite (dbl_universalOf_itemOf _ _ U E). reflexivity.
Qed.

Lemma dbl_bardanaStep_frame (next : N -> N) d :
  parties (bardanaStep next d) = parties d
  /\ purchases (bardanaStep next d) = purchases d
  /\ nextId (bardanaStep next d) = nextId d.
Proof.
  unfold bardanaStep. destruct (universalOf _); repeat split.
Qed.

Lemma dbl_shape_linesStock next (lines : list (LineItem.t N)) l :
  shape (linesStock next lines l) = shape l.
Proof.
  unfold linesStock. revert l.
  induction lines as [|x r IH]; intros l; [reflexivity|].
  simpl. rewrite IH. apply dbl_shape_adjust.
Qed.

Lemma dbl_shape_bardanaStock (next : N -> N) l :
  shape (bardanaStock next l) = shape l.
Proof.
  unfold bardanaStock.
  destruct (universalOf l); [apply dbl_shape_adjust|reflexivity].
Qed.

(** The stock of the item [j] after a loop: its lines applied in order. *)
Lemma dbl_stockOf_linesStock next (lines : list (LineItem.t N)) l j :
  stockOf j (linesStock next lines l) =
  option_map (fun s => fold_left next (bagsOf j lines) s) (stockOf j l).
Proof.
  unfold linesStock, bagsOf. revert l.
  induction lines as [|x r IH]; intros l; simpl.
  - destruct (stockOf j l); reflexivity.
  - rewrite IH, dbl_stockOf_adjust.
    destruct (LineItem.id x =? j)%nat; [|reflexivity].
    destruct (stockOf j l); reflexivity.
Qed.

Lemma dbl_stockOf_bardanaStock (next : N -> N) l j :
  stockOf j (bardanaStock next l) =
  option_map (fun s => if isUniversalId l j then next s else s) (stockOf j l).
Proof.
  unfold bardanaStock, isUniversalId.
  destruct (universalOf l) as [b|].
  - rewrite dbl_stockOf_adjust. destruct (_ =? _)%nat; [reflexivity|].
    destruct (stockOf j l); reflexivity.
  - destruct (stockOf j l); reflexivity.
Qed.

End DoublesStock.

(** ** The arithmetic of whole bags *)

Section DoublesWhole.
Import Doubles.
Context {N : Number}.
Variables B M : Z.
Hypothesis E : exact (N := N) B.
Hypothesis HM : (0 <= M)%Z /\ (30 * M <= B)%Z.

Lemma dbl_plus a b :
  (- B <= a <= B)%Z -> (- B <= b <= B)%Z -> (- B <= a + b <= B)%Z ->
  plus N (ofZ N a) (ofZ N b) = ofZ N (a + b).
Proof. destruct E as (H & _). apply H. Qed.

Lemma dbl_minus a b :
  (- B <= a <= B)%Z -> (- B <= b <= B)%Z -> (- B <= a - b <= B)%Z ->
  minus N (ofZ N a) (ofZ N b) = ofZ N (a - b).
Proof. destruct E as (_ & H & _). apply H. Qed.

Lemma dbl_divide k :
  (- B <= 30 * k <= B)%Z -> divide N (ofZ N (30 * k)) (ofZ N 30) = ofZ N k.
Proof. destruct E as (_ & _ & H & _). apply H. Qed.

Lemma dbl_clamp n :
  (0 <= n <= B)%Z -> PurchaseRoutes.clamp (ofZ N n) = ofZ N n.
Proof.
  intros H. unfold PurchaseRoutes.clamp.
  destruct E as (_ & _ & _ & L & _). rewrite L by lia.
  destruct (Z.ltb_spec n 0); [lia|reflexivity].
Qed.

Lemma dbl_differs a b :
  (- B <= a <= B)%Z -> (- B <= b <= B)%Z ->
  differs N (ofZ N a) (ofZ N b) = negb (a =? b)%Z.
Proof. destruct E as (_ & _ & _ & _ & H). apply H. Qed.

Lemma dbl_sumZ_nonneg (lines : list (LineItem.t N)) bags :
  wholeBags lines bags -> (0 <= sumZ bags)%Z.
Proof.
  induction 1 as [|line k lines bags [_ Hk] _ IH]; simpl; lia.
Qed.

Lemma dbl_own_bounds j (lines : list (LineItem.t N)) bags :
  wholeBags lines bags -> (0 <= own j lines bags <= sumZ bags)%Z.
Proof.
  induction 1 as [|line k lines bags [_ Hk] _ IH]; simpl; [lia|].
  destruct (LineItem.id line =? j)%nat; lia.
Qed.

Lemma dbl_bagsOfLine (line : LineItem.t N) k :
  LineItem.quantity line = ofZ N (30 * k) -> (0 <= k <= M)%Z ->
  bagsOfLine line = ofZ N k.
Proof.
  intros Q H. unfold bagsOfLine. rewrite Q. apply dbl_divide. lia.
Qed.

Lemma dbl_fold_increase j (lines : list (LineItem.t N)) bags n :
  wholeBags lines bags -> (sumZ bags <= M)%Z ->
  (0 <= n)%Z -> (n + own j lines bags <= B)%Z ->
  fold_left increase (bagsOf j lines) (ofZ N n)
  = ofZ N (n + own j lines bags).
Proof.
  intros W. revert n.
  induction W as [|line k lines bags [Q Hk] W IH]; intros n S Hn Hb; simpl.
  - f_equal. lia.
  - simpl in S, Hb. pose proof (dbl_sumZ_nonneg _ _ W) as P.
    pose proof (dbl_own_bounds j _ _ W) as O.
    unfold bagsOf. simpl.
    destruct (LineItem.id line =? j)%nat; simpl.
    + rewrite (dbl_bagsOfLine line k Q) by lia. unfold increase at 2.
      rewrite dbl_plus by lia.
      fold (bagsOf j lines). rewrite IH by lia. f_equal. lia.
    + fold (bagsOf j lines). rewrite IH by lia. f_equal.
Qed.

Lemma dbl_fold_restore j (lines : list (LineItem.t N)) bags n :
  wholeBags lines bags -> (sumZ bags <= M)%Z ->
  (own j lines bags <= n <= B)%Z ->
  fold_left restore (bagsOf j lines) (ofZ N n)
  = ofZ N (n - own j lines bags).
Proof.
  intros W. revert n.
  induction W as [|line k lines bags [Q Hk] W IH]; intros n S Hn; simpl.
  - f_equal. lia.
  - simpl in S, Hn. pose proof (dbl_sumZ_nonneg _ _ W) as P.
    pose proof (dbl_own_bounds j _ _ W) as O.
    unfold bagsOf. simpl.
    destruct (LineItem.id line =? j)%nat; simpl.
    + rewrite (dbl_bagsOfLine line k Q) by lia. unfold restore at 2.
      rewrite dbl_minus by lia. rewrite dbl_clamp by lia.
      fold (bagsOf j lines). rewrite IH by lia. f_equal. lia.
    + fold (bagsOf j lines). rewrite IH by lia. f_equal.
Qed.

Lemma dbl_totalKg (lines : list (LineItem.t N)) bags :
  wholeBags lines bags -> (sumZ bags <= M)%Z ->
  PurchaseRoutes.totalKg lines = ofZ N (30 * sumZ bags).
Proof.
  unfold PurchaseRoutes.totalKg. intros W S.
  assert (G : forall a, (0 <= a)%Z -> (a + sumZ bags <= M)%Z ->
    fold_left (fun sum item => plus N sum (LineItem.quantity item)) lines
      (ofZ N (30 * a)) = ofZ N (30 * (a + sumZ bags))).
  { clear S. induction W as [|line k lines bags [Q Hk] W IH]; intros a Ha S;
      cbn [fold_left].
    - f_equal. unfold sumZ. simpl fold_right. lia.
    - change (sumZ (k :: bags)) with (k + sumZ bags)%Z in *.
      pose proof (dbl_sumZ_nonneg _ _ W) as P.
      rewrite Q, dbl_plus by lia.
      replace (30 * a + 30 * k)%Z with (30 * (a + k))%Z by lia.
      rewrite IH by lia. f_equal. lia. }
  specialize (G 0%Z). change (30 * 0)%Z with 0%Z in G.
  rewrite G by lia. f_equal.
Qed.

(** *** One item through create, update and delete *)

Variable j : ObjectId.
Variable u : bool.

Let aggregate (bags : list Z) : Z := if u then sumZ bags else 0%Z.

Lemma dbl_created_stock (lines : list (LineItem.t N)) bags n :
  wholeBags lines bags -> (sumZ bags <= M)%Z -> (0 <= n <= M)%Z ->
  (let s1 := fold_left increase (bagsOf j lines) (ofZ N n) in
   if u then addTotal lines s1 else s1)
  = ofZ N (n + own j lines bags + aggregate bags).
Proof.
  intros W S Hn. cbv zeta. unfold aggregate.
  pose proof (dbl_sumZ_nonneg _ _ W) as P.
  pose proof (dbl_own_bounds j _ _ W) as O.
  rewrite (dbl_fold_increase j lines bags n W S) by lia.
  destruct u; [|f_equal; lia].
  unfold addTotal. rewrite (dbl_totalKg lines bags W S).
  rewrite dbl_divide by lia. rewrite dbl_plus by lia. reflexivity.
Qed.

Lemma dbl_updated_stock (original lines : list (LineItem.t N)) bags0 bags n :
  wholeBags original bags0 -> (sumZ bags0 <= M)%Z ->
  wholeBags lines bags -> (sumZ bags <= M)%Z -> (0 <= n <= M)%Z ->
  (let v := ofZ N (n + own j original bags0 + aggregate bags0) in
   let s1 := fold_left restore (bagsOf j original) v in
   let s2 := fold_left increase (bagsOf j lines) s1 in
   if u then addDifference original lines s2 else s2)
  = ofZ N (n + own j lines bags + aggregate bags).
Proof.
  intros W0 S0 W S Hn. cbv zeta. unfold aggregate.
  pose proof (dbl_sumZ_nonneg _ _ W0) as P0.
  pose proof (dbl_own_bounds j _ _ W0) as O0.
  pose proof (dbl_sumZ_nonneg _ _ W) as P.
  pose proof (dbl_own_bounds j _ _ W) as O.
  rewrite (dbl_fold_restore j original bags0 _ W0 S0) by (destruct u; lia).
  rewrite (dbl_fold_increase j lines bags _ W S) by (destruct u; lia).
  destruct u; [|f_equal; lia].
  unfold addDifference.
  rewrite (dbl_totalKg lines bags W S), (dbl_totalKg original bags0 W0 S0).
  rewrite dbl_minus by lia.
  replace (30 * sumZ bags - 30 * sumZ bags0)%Z
    with (30 * (sumZ bags - sumZ bags0))%Z by lia.
  rewrite dbl_divide by lia. rewrite dbl_plus by lia.
  rewrite dbl_clamp by lia. f_equal. lia.
Qed.

Lemma dbl_deleted_stock (lines : list (LineItem.t N)) bags n :
  wholeBags lines bags -> (sumZ bags <= M)%Z -> (0 <= n <= M)%Z ->
  (let v := ofZ N (n + own j lines bags + aggregate bags) in
   let s1 := fold_left restore (bagsOf j lines) v in
   if u then subtractTotal lines s1 else s1)
  = ofZ N n.
Proof.
  intros W S Hn. cbv zeta. unfold aggregate.
  pose proof (dbl_sumZ_nonneg _ _ W) as P.
  pose proof (dbl_own_bounds j _ _ W) as O.
  rewrite (dbl_fold_restore j lines bags _ W S) by (destruct u; lia).
  destruct u; [|f_equal; lia].
  unfold subtractTotal. rewrite (dbl_totalKg lines bags W S).
  rewrite dbl_divide by lia. rewrite dbl_minus by lia.
  rewrite dbl_clamp by lia. f_equal. lia.
Qed.

End DoublesWhole.

(** ** The ledger *)

Section DoublesLedger.
Import Doubles.
Context {N : Number}.

Lemma dbl_party_find_replace (p : PartyDoc.t N) l j :
  find (fun x => (PartyDoc._id x =? j)%nat) (Party.replace p l) =
  if (PartyDoc._id p =? j)%nat
  then match find (fun x => (PartyDoc._id x =? j)%nat) l with
       | Some _ => Some p
       | None => None
       end
  else find (fun x => (PartyDoc._id x =? j)%nat) l.
Proof.
  induction l as [|x r IH]; simpl.
  - destruct (_ =? _)%nat; reflexivity.
  - destruct (PartyDoc._id x =? PartyDoc._id p)%nat eqn:E; simpl.
    + apply Nat.eqb_eq in E. rewrite E.
      destruct (PartyDoc._id p =? j)%nat; reflexivity.
    + rewrite IH. destruct (PartyDoc._id x =? j)%nat eqn:F; [|reflexivity].
      destruct (PartyDoc._id p =? j)%nat eqn:G; [|reflexivity].
      apply Nat.eqb_eq in F, G. apply Nat.eqb_neq in E. congruence.
Qed.

Lemma dbl_partyOf_id (p : PartyDoc.t N) j d :
  partyOf j d = Some p -> PartyDoc._id p = j.
Proof.
  unfold partyOf. intros H. apply find_some in H as [_ H].
  now apply Nat.eqb_eq in H.
Qed.

Lemma dbl_updateBalance_found pid (amount : N) operation d p :
  partyOf pid d = Some p ->
  Party.updateBalance pid amount operation d =
  (setParties (Party.replace (credited operation amount p) (parties d)) d,
   Returned (credited operation amount p)).
Proof.
  intros H. unfold Party.updateBalance, Party.findById, Party.save, bind,
    modify, get, ret. unfold partyOf in H. rewrite H. reflexivity.
Qed.

(** The party of [pid] after its balance was adjusted, and the others. *)
Lemma dbl_partyOf_credit pid j operation (amount : N) p (d d' : Db N) :
  partyOf pid d = Some p ->
  parties d' = Party.replace (credited operation amount p) (parties d) ->
  partyOf j d' =
  if (pid =? j)%nat then Some (credited operation amount p) else partyOf j d.
Proof.
  intros H E. unfold partyOf. rewrite E, dbl_party_find_replace. simpl.
  rewrite (dbl_partyOf_id _ _ _ H).
  destruct (pid =? j)%nat eqn:G; [|reflexivity].
  apply Nat.eqb_eq in G. subst j. unfold partyOf in H. rewrite H. reflexivity.
Qed.

Lemma dbl_partyOf_credited pid j operation (amount : N) p (d d0 : Db N) :
  partyOf pid d = Some p ->
  partyOf j
    (setParties (Party.replace (credited operation amount p) (parties d)) d0)
  = if (pid =? j)%nat then Some (credited operation amount p)
    else partyOf j d.
Proof.
  intros H. now apply (dbl_partyOf_credit pid j operation amount p d).
Qed.

Lemma dbl_find_nodup_id (l : list (PartyDoc.t N)) f p :
  NoDup (map PartyDoc._id l) ->
  find f l = Some p ->
  find (fun x => (PartyDoc._id x =? PartyDoc._id p)%nat) l = Some p.
Proof.
  induction l as [|x r IH]; simpl; [discriminate|].
  intros U H. inversion U as [|? ? Hn U']; subst.
  destruct (f x).
  - inversion H; subst. now rewrite Nat.eqb_refl.
  - destruct (PartyDoc._id x =? PartyDoc._id p)%nat eqn:E.
    + exfalso. apply Hn. apply Nat.eqb_eq in E. rewrite E.
      apply in_map. apply find_some in H. tauto.
    + auto.
Qed.

Lemma dbl_find_fresh_id (l : list (PartyDoc.t N)) n :
  Forall (fun p => (PartyDoc._id p < n)%nat) l ->
  find (fun x => (PartyDoc._id x =? n)%nat) l = None.
Proof.
  induction 1 as [|x r Hx _ IH]; simpl; [reflexivity|].
  destruct (PartyDoc._id x =? n)%nat eqn:E; [|exact IH].
  apply Nat.eqb_eq in E. lia.
Qed.

Lemma dbl_find_app_fresh (l : list (PartyDoc.t N)) p :
  find (fun x => (PartyDoc._id x =? PartyDoc._id p)%nat) l = None ->
  find (fun x => (PartyDoc._id x =? PartyDoc._id p)%nat) (l ++ [p]) = Some p.
Proof.
  induction l as [|x r IH]; simpl.
  - now rewrite Nat.eqb_refl.
  - destruct (_ =? _)%nat; [discriminate|exact IH].
Qed.

(** [findOrCreate] returns a party of the store, or the one it adds
    with balance 0; no other party changes. *)
Lemma dbl_findOrCreate_run name phone ty (d : Db N) :
  partiesWf d ->
  exists party d1,
    Party.findOrCreate name phone ty d = (d1, Returned party)
    /\ partyOf (PartyDoc._id party) d1 = Some party
    /\ ((partyOf (PartyDoc._id party) d = Some party
         /\ In party (parties d))
        \/ (partyOf (PartyDoc._id party) d = None
            /\ PartyDoc.balance party = ofZ N 0))
    /\ (forall j, j <> PartyDoc._id party -> partyOf j d1 = partyOf j d)
    /\ purchases d1 = purchases d /\ stock d1 = stock d
    /\ (nextId d <= nextId d1)%nat.
Proof.
  intros [U F]. unfold Party.findOrCreate, bind, get, ret, modify.
  destruct (find _ (parties d)) as [p|] eqn:E.
  - exists p, d. pose proof (dbl_find_nodup_id _ _ _ U E) as H.
    unfold partyOf. rewrite H. apply find_some in E as [E _].
    repeat split; auto.
  - eexists. eexists. split; [reflexivity|].
    pose proof (dbl_find_fresh_id _ _ F) as H.
    unfold partyOf. simpl. rewrite H.
    split; [apply (dbl_find_app_fresh (parties d)
      (PartyDoc.mk N (nextId d) name (sanitizePhone phone) ty (ofZ N 0)));
      exact H|].
    split; [right; split; reflexivity|].
    split; [|repeat split; lia].
    intros j Hj. rewrite find_append.
    destruct (find (fun p => (PartyDoc._id p =? j)%nat) (parties d));
      [reflexivity|].
    simpl. destruct (nextId d =? j)%nat eqn:G; [|reflexivity].
    apply Nat.eqb_eq in G. congruence.
Qed.

Lemma dbl_purchase_find_replace (p : PurchaseDoc.t N) l j :
  find (fun x => (PurchaseDoc._id x =? j)%nat) (Purchase.replace p l) =
  if (PurchaseDoc._id p =? j)%nat
  then match find (fun x => (PurchaseDoc._id x =? j)%nat) l with
       | Some _ => Some p
       | None => None
       end
  else find (fun x => (PurchaseDoc._id x =? j)%nat) l.
Proof.
  induction l as [|x r IH]; simpl.
  - destruct (_ =? _)%nat; reflexivity.
  - destruct (PurchaseDoc._id x =? PurchaseDoc._id p)%nat eqn:E; simpl.
    + apply Nat.eqb_eq in E. rewrite E.
      destruct (PurchaseDoc._id p =? j)%nat; reflexivity.
    + rewrite IH. destruct (PurchaseDoc._id x =? j)%nat eqn:F; [|reflexivity].
      destruct (PurchaseDoc._id p =? j)%nat eqn:G; [|reflexivity].
      apply Nat.eqb_eq in F, G. apply Nat.eqb_neq in E. congruence.
Qed.

Lemma dbl_purchase_remove_replace (p : PurchaseDoc.t N) l :
  Purchase.remove (PurchaseDoc._id p) (Purchase.replace p l) =
  Purchase.remove (PurchaseDoc._id p) l.
Proof.
  induction l as [|x r IH]; simpl; [reflexivity|].
  destruct (PurchaseDoc._id x =? PurchaseDoc._id p)%nat eqn:E; simpl.
  - now rewrite Nat.eqb_refl.
  - now rewrite E, IH.
Qed.

Lemma dbl_purchase_fresh_find (l : list (PurchaseDoc.t N)) n :
  Forall (fun p => (PurchaseDoc._id p < n)%nat) l ->
  find (fun x => (PurchaseDoc._id x =? n)%nat) l = None
  /\ forall p, PurchaseDoc._id p = n ->
       Purchase.remove n (l ++ [p]) = l.
Proof.
  induction 1 as [|x r Hx _ [IH1 IH2]]; simpl.
  - split; [reflexivity|]. intros p ->. now rewrite Nat.eqb_refl.
  - assert (E : (PurchaseDoc._id x =? n)%nat = false)
      by (apply Nat.eqb_neq; lia).
    rewrite E. split; [exact IH1|]. intros p Hp. now rewrite IH2.
Qed.

Lemma dbl_purchaseOf_id id (d : Db N) p :
  purchaseOf id d = Some p -> PurchaseDoc._id p = id.
Proof.
  unfold purchaseOf. intros H. apply find_some in H as [_ H].
  now apply Nat.eqb_eq in H.
Qed.

End DoublesLedger.

(** ** The three routes as functions of the store *)

Section DoublesRuns.
Import Doubles.
Context {N : Number}.
Variable validate : PurchaseDoc.t N -> bool.
Variable total : list (LineItem.t N) -> N.
Variable nextBillNumber : list (PurchaseDoc.t N) -> string.
Variable sameJSON : list (LineItem.t N) -> list (LineItem.t N) -> bool.

Let post := PurchaseRoutes.post validate total nextBillNumber noFault false.
Let put := PurchaseRoutes.put validate total sameJSON noFault false.
Let delete := PurchaseRoutes.delete (N := N) noFault false.

Lemma dbl_save_valid isNew p (d : Db N) :
  validate p = true ->
  Purchase.save validate total isNew p d =
  (setPurchases
     (if isNew then (purchases d ++ [Purchase.preSave total p])%list
      else Purchase.replace (Purchase.preSave total p) (purchases d)) d,
   Returned (Purchase.preSave total p)).
Proof.
  intros V. unfold Purchase.save. rewrite V. reflexivity.
Qed.

Lemma dbl_save_invalid isNew p (d : Db N) :
  validate p = false ->
  Purchase.save validate total isNew p d = (d, Thrown ValidationError).
Proof.
  intros V. unfold Purchase.save. rewrite V. reflexivity.
Qed.

Lemma dbl_post_run body d name phone lines date party d1 :
  PurchaseRoutes.supplierName body = Some name ->
  PurchaseRoutes.phoneNumber body = Some phone ->
  PurchaseRoutes.items body = Some lines ->
  PurchaseRoutes.date body = Some date ->
  (name =? "") || (phone =? "") || (date =? "") = false ->
  lines <> [] ->
  Party.findOrCreate name phone (Some "supplier") d = (d1, Returned party) ->
  partyOf (PartyDoc._id party) d1 = Some party ->
  let p := PurchaseDoc.mk N (nextId d1) (nextBillNumber (purchases d)) name
             phone lines (ofZ N 0) date
             (orDefault (PurchaseRoutes.status body) "pending")
             (PurchaseRoutes.pdfUri body) (Some (PartyDoc._id party)) in
  post body d =
  if validate p then
    (created total party p d1, mkRes 201 (Some (nextId d1)))
  else (record "Error creating purchase:" (bumpId d1), mkRes 400 None).
Proof.
  intros Hn Hp Hl Hd Hne Hnil R Hf p.
  unfold post, PurchaseRoutes.post, respond, tryCatch.
  rewrite Hn, Hp, Hl, Hd, Hne.
  assert (E0 : (List.length lines =? 0)%nat = false)
    by (destruct lines; [congruence|reflexivity]).
  rewrite E0.
  unfold bind at 1. unfold Purchase.generateNextBillNumber, get at 1.
  unfold bind at 1. rewrite R.
  unfold bind at 1. unfold get at 1.
  unfold bind at 1. unfold modify at 1.
  unfold bind at 1. fold p.
  destruct (validate p) eqn:V.
  - rewrite dbl_save_valid by exact V.
    unfold bind at 1.
    assert (Hf' : partyOf (PartyDoc._id party)
              (setPurchases (purchases (bumpId d1) ++ [Purchase.preSave total p])
                 (bumpId d1)) = Some party) by exact Hf.
    rewrite (dbl_updateBalance_found _ _ _ _ _ Hf').
    unfold bind at 1.
    rewrite (dbl_forOf_run _ _ _ dbl_increaseStock_run).
    unfold bind at 1. rewrite dbl_updateBardana_run. reflexivity.
  - rewrite dbl_save_invalid by exact V. reflexivity.
Qed.

Lemma dbl_put_run id body p pid party d :
  purchaseOf id d = Some p ->
  PurchaseDoc.partyId p = Some pid ->
  partyOf pid d = Some party ->
  let q := PurchaseRoutes.assign body p in
  let q' := Purchase.preSave total q in
  put id body d =
  if validate q then
    (restocked sameJSON (PurchaseDoc.items p) (PurchaseRoutes.items body)
       (ledgerDelta party (PurchaseDoc.totalAmount p)
          (PurchaseDoc.totalAmount q')
          (setPurchases (Purchase.replace q' (purchases d)) d)),
     mkRes 200 (Some (PurchaseDoc._id q')))
  else (record "Error updating purchase:" d, mkRes 400 None).
Proof.
  intros Hp Hpid Hf q q'.
  unfold put, PurchaseRoutes.put, respond, tryCatch.
  unfold bind at 1. unfold Purchase.findById, get.
  unfold purchaseOf in Hp. rewrite Hp. fold q.
  unfold bind at 1.
  destruct (validate q) eqn:V.
  2:{ rewrite dbl_save_invalid by exact V. reflexivity. }
  rewrite dbl_save_valid by exact V. fold q'.
  assert (Hq : PurchaseDoc.partyId q' = Some pid) by exact Hpid.
  rewrite Hq. unfold ledgerDelta, restocked.
  set (d1 := setPurchases _ d).
  assert (Hf1 : partyOf pid d1 = Some party) by exact Hf.
  unfold bind at 1. unfold bind at 1.
  destruct (differs N _ _).
  - unfold bind at 1. rewrite (dbl_updateBalance_found _ _ _ _ _ Hf1).
    unfold ret at 1.
    destruct (PurchaseRoutes.items body) as [lines|]; [|reflexivity].
    destruct (negb (sameJSON _ _)); [|reflexivity].
    unfold bind at 1.
    rewrite (dbl_forOf_run _ _ _ dbl_restoreStock_run).
    unfold bind at 1.
    rewrite (dbl_forOf_run _ _ _ dbl_increaseStock_run).
    rewrite dbl_updateBardana_run. reflexivity.
  - unfold ret at 1.
    destruct (PurchaseRoutes.items body) as [lines|]; [|reflexivity].
    destruct (negb (sameJSON _ _)); [|reflexivity].
    unfold bind at 1. unfold bind at 1.
    rewrite (dbl_forOf_run _ _ _ dbl_restoreStock_run).
    unfold bind at 1.
    rewrite (dbl_forOf_run _ _ _ dbl_increaseStock_run).
    rewrite dbl_updateBardana_run. reflexivity.
Qed.

Lemma dbl_unstocked_frame p (d : Db N) :
  parties (unstocked p d) = parties d
  /\ purchases (unstocked p d) = purchases d.
Proof.
  unfold unstocked.
  match goal with |- context [bardanaStep ?f ?s] =>
    destruct (dbl_bardanaStep_frame f s) as (-> & -> & _) end.
  match goal with |- context [fold_left (lineStep ?n) ?ls ?s] =>
    destruct (dbl_linesStep_frame n ls s) as (-> & -> & _) end.
  split; reflexivity.
Qed.

Lemma dbl_delete_run id p pid party d :
  purchaseOf id d = Some p ->
  PurchaseDoc.partyId p = Some pid ->
  partyOf pid d = Some party ->
  let d1 := unstocked p d in
  let d2 :=
    setParties
      (Party.replace (credited subtract (PurchaseDoc.totalAmount p) party)
         (parties d1)) d1 in
  delete id d =
  (setPurchases (Purchase.remove id (purchases d2)) d2, mkRes 200 None).
Proof.
  intros Hp Hpid Hf d1 d2.
  unfold delete, PurchaseRoutes.delete, respond, tryCatch.
  unfold bind at 1. unfold Purchase.findById, get.
  unfold purchaseOf in Hp. rewrite Hp.
  unfold bind at 1.
  rewrite (dbl_forOf_run _ _ _ dbl_restoreStock_run).
  unfold bind at 1. rewrite dbl_updateBardana_run.
  fold (subtractTotal (PurchaseDoc.items p)). fold (unstocked p d). fold d1.
  rewrite Hpid. unfold bind at 1. unfold bind at 1.
  assert (Hs : partyOf pid d1 = Some party).
  { unfold partyOf, d1. destruct (dbl_unstocked_frame p d) as [-> _].
    exact Hf. }
  rewrite (dbl_updateBalance_found _ _ _ _ _ Hs). reflexivity.
Qed.

End DoublesRuns.

(** ** A purchase of whole bags through its life *)

Section DoublesLife.
Import Doubles.
Context {N : Number}.
Variable validate : PurchaseDoc.t N -> bool.
Variable total : list (LineItem.t N) -> N.
Variable nextBillNumber : list (PurchaseDoc.t N) -> string.
Variable sameJSON : list (LineItem.t N) -> list (LineItem.t N) -> bool.
Variables B M : Z.
Hypothesis E : exact (N := N) B.
Hypothesis HM : (0 <= M)%Z /\ (30 * M <= B)%Z.
Hypothesis J : comparesTexts sameJSON.

Let post := PurchaseRoutes.post validate total nextBillNumber noFault false.
Let put := PurchaseRoutes.put validate total sameJSON noFault false.
Let delete := PurchaseRoutes.delete (N := N) noFault false.

Lemma dbl_stockOf_whole (l : list (ItemDoc.t N)) j s :
  Forall (fun i => whole 0 M (ItemDoc.openingStock i)) l ->
  stockOf j l = Some s -> whole 0 M s.
Proof.
  unfold stockOf, itemOf. intros F H.
  destruct (find _ l) as [i|] eqn:G; [|discriminate].
  inversion H; subst. apply find_some in G as [G _].
  rewrite Forall_forall in F. now apply F.
Qed.

Lemma dbl_wholeBags_same (a b : list (LineItem.t N)) bags :
  map LineItem.quantity a = map LineItem.quantity b ->
  wholeBags a bags -> wholeBags b bags.
Proof.
  intros Q W. revert b Q.
  induction W as [|line k lines bags [Hq Hk] W IH]; intros [|y b] Q;
    try discriminate; [constructor|].
  simpl in Q. inversion Q as [[Q1 Q2]]. constructor.
  - split; [congruence|exact Hk].
  - now apply IH.
Qed.

Lemma dbl_own_same j (a b : list (LineItem.t N)) bags :
  map LineItem.id a = map LineItem.id b -> own j a bags = own j b bags.
Proof.
  revert b bags. induction a as [|x a IH]; intros [|y b] bags Q;
    try discriminate; [reflexivity|].
  simpl in Q. inversion Q as [[Q1 Q2]].
  destruct bags as [|k bags]; [reflexivity|]. simpl.
  rewrite Q1, (IH b bags Q2). reflexivity.
Qed.

Lemma dbl_created_frame party p (dp : Db N) :
  let d1 := created total party p dp in
  parties d1 =
    Party.replace (credited add (total (PurchaseDoc.items p)) party)
      (parties dp)
  /\ purchases d1 = (purchases dp ++ [Purchase.preSave total p])%list.
Proof.
  unfold created. cbv zeta.
  match goal with |- context [bardanaStep ?f ?s] =>
    destruct (dbl_bardanaStep_frame f s) as (-> & -> & _) end.
  match goal with |- context [fold_left (lineStep ?n) ?ls ?s] =>
    destruct (dbl_linesStep_frame n ls s) as (-> & -> & _) end.
  split; reflexivity.
Qed.

Lemma dbl_created_stock_eq party p (dp : Db N) :
  uniqueIds (stock dp) ->
  stock (created total party p dp) =
  bardanaStock (addTotal (PurchaseDoc.items p))
    (linesStock increase (PurchaseDoc.items p) (stock dp)).
Proof.
  intros U. unfold created. cbv zeta.
  rewrite dbl_bardanaStep_stock.
  - rewrite dbl_linesStep_stock. reflexivity.
  - rewrite dbl_linesStep_stock. simpl.
    eapply dbl_uniqueIds_shape; [|exact U]. symmetry.
    apply dbl_shape_linesStock.
Qed.

Lemma dbl_restocked_frame original lines (d : Db N) :
  parties (restocked sameJSON original lines d) = parties d
  /\ purchases (restocked sameJSON original lines d) = purchases d.
Proof.
  unfold restocked. destruct lines as [lines|]; [|split; reflexivity].
  destruct (negb _); [|split; reflexivity].
  match goal with |- context [bardanaStep ?f ?s] =>
    destruct (dbl_bardanaStep_frame f s) as (-> & -> & _) end.
  match goal with |- context [fold_left (lineStep ?n) ?ls ?s] =>
    destruct (dbl_linesStep_frame n ls s) as (-> & -> & _) end.
  match goal with |- context [fold_left (lineStep ?n) ?ls ?s] =>
    destruct (dbl_linesStep_frame n ls s) as (-> & -> & _) end.
  split; reflexivity.
Qed.

Lemma dbl_restocked_stock_eq original lines (d : Db N) :
  uniqueIds (stock d) ->
  stock (restocked sameJSON original lines d) =
  match lines with
  | Some lines =>
      if negb (sameJSON original lines)
      then bardanaStock (addDifference original lines)
             (linesStock increase lines
                (linesStock restore original (stock d)))
      else stock d
  | None => stock d
  end.
Proof.
  intros U. unfold restocked.
  destruct lines as [lines|]; [|reflexivity].
  destruct (negb _); [|reflexivity].
  rewrite dbl_bardanaStep_stock.
  - rewrite !dbl_linesStep_stock. reflexivity.
  - rewrite !dbl_linesStep_stock.
    eapply dbl_uniqueIds_shape; [|exact U]. symmetry.
    now rewrite !dbl_shape_linesStock.
Qed.

Lemma dbl_unstocked_stock_eq p (d : Db N) :
  uniqueIds (stock d) ->
  stock (unstocked p d) =
  bardanaStock (subtractTotal (PurchaseDoc.items p))
    (linesStock restore (PurchaseDoc.items p) (stock d)).
Proof.
  intros U. unfold unstocked.
  rewrite dbl_bardanaStep_stock.
  - rewrite dbl_linesStep_stock. reflexivity.
  - rewrite dbl_linesStep_stock.
    eapply dbl_uniqueIds_shape; [|exact U]. symmetry.
    apply dbl_shape_linesStock.
Qed.

(** A creation answered 201 went through every step of the route. *)
Lemma dbl_post_created body d d1 r1 :
  partiesWf d ->
  post body d = (d1, r1) ->
  statusCode r1 = 201%nat ->
  exists name phone lines date party dp,
    PurchaseRoutes.items body = Some lines
    /\ Party.findOrCreate name phone (Some "supplier") d = (dp, Returned party)
    /\ d1 = created total party
              (PurchaseDoc.mk N (nextId dp) (nextBillNumber (purchases d)) name
                 phone lines (ofZ N 0) date
                 (orDefault (PurchaseRoutes.status body) "pending")
                 (PurchaseRoutes.pdfUri body) (Some (PartyDoc._id party))) dp
    /\ r1 = mkRes 201 (Some (nextId dp)).
Proof.
  intros W H C.
  destruct (PurchaseRoutes.supplierName body) as [name|] eqn:Hn.
  2:{ unfold post, PurchaseRoutes.post, respond, tryCatch in H.
      rewrite Hn in H. inversion H; subst; discriminate. }
  destruct (PurchaseRoutes.phoneNumber body) as [phone|] eqn:Hp.
  2:{ unfold post, PurchaseRoutes.post, respond, tryCatch in H.
      rewrite Hn, Hp in H. inversion H; subst; discriminate. }
  destruct (PurchaseRoutes.items body) as [lines|] eqn:Hl.
  2:{ unfold post, PurchaseRoutes.post, respond, tryCatch in H.
      rewrite Hn, Hp, Hl in H. inversion H; subst; discriminate. }
  destruct (PurchaseRoutes.date body) as [date|] eqn:Hd.
  2:{ unfold post, PurchaseRoutes.post, respond, tryCatch in H.
      rewrite Hn, Hp, Hl, Hd in H. inversion H; subst; discriminate. }
  destruct ((name =? "") || (phone =? "") || (date =? "")) eqn:He.
  { unfold post, PurchaseRoutes.post, respond, tryCatch in H.
    rewrite Hn, Hp, Hl, Hd, He in H. inversion H; subst; discriminate. }
  destruct lines as [|l0 ls] eqn:El.
  { unfold post, PurchaseRoutes.post, respond, tryCatch in H.
    rewrite Hn, Hp, Hl, Hd, He in H. inversion H; subst; discriminate. }
  rewrite <- El in *.
  assert (Hnil : lines <> []) by (rewrite El; discriminate).
  destruct (dbl_findOrCreate_run name phone (Some "supplier") d W)
    as (party & dp & R & Hf & _).
  unfold post in H.
  rewrite (dbl_post_run validate total nextBillNumber body d name phone
             lines date party dp Hn Hp Hl Hd He Hnil R Hf) in H.
  cbv zeta in H.
  destruct (validate _); [|inversion H; subst; discriminate].
  inversion H; subst d1 r1.
  exists name, phone, lines, date, party, dp. repeat split. exact R.
Qed.

Lemma dbl_post_live body d d1 r1 :
  wellFormed d -> wholeStore M d -> wholeOrder total M body ->
  post body d = (d1, r1) ->
  statusCode r1 = 201%nat ->
  exists id pid b pc,
    docId r1 = Some id
    /\ (- M <= b <= M)%Z
    /\ (balanceOf pid d = Some (ofZ N b)
        \/ (balanceOf pid d = None /\ b = 0%Z))
    /\ live total M d id pid b pc d1.
Proof.
  intros (W & U & F) (Ws & Wp) Wo H C.
  destruct (dbl_post_created _ _ _ _ W H C)
    as (name & phone & lines & date & party & dp & Hl & R & -> & ->).
  destruct (dbl_findOrCreate_run name phone (Some "supplier") d W)
    as (party' & dp' & R' & Hf & Hb & Ho & Hpu & Hst & Hid).
  rewrite R in R'. inversion R'; subst party' dp'. clear R'.
  set (p := PurchaseDoc.mk N _ _ _ _ _ _ _ _ _ _).
  destruct (dbl_created_frame party p dp) as (Epa & Epu).
  assert (Ust : uniqueIds (stock dp)) by (now rewrite Hst).
  pose proof (dbl_created_stock_eq party p dp Ust) as Est.
  assert (Fr : Forall (fun x => (PurchaseDoc._id x < nextId dp)%nat)
                 (purchases d)).
  { unfold purchasesFresh in F. rewrite Forall_forall in *.
    intros x Hx. specialize (F x Hx). lia. }
  destruct (dbl_purchase_fresh_find _ _ Fr) as [Fn Frm].
  destruct (Wo lines Hl) as ((bags & Wb & Sb) & (t & Ht & Bt)).
  assert (Hwb : exists b,
            (- M <= b <= M)%Z /\ PartyDoc.balance party = ofZ N b
            /\ (balanceOf (PartyDoc._id party) d = Some (ofZ N b)
                \/ (balanceOf (PartyDoc._id party) d = None /\ b = 0%Z))).
  { destruct Hb as [[Hb Hin]|[Hb Hz]].
    - rewrite Forall_forall in Wp. destruct (Wp _ Hin) as (b & Eb & Bb).
      exists b. split; [exact Bb|]. split; [exact Eb|]. left.
      unfold balanceOf. rewrite Hb. simpl. now rewrite Eb.
    - exists 0%Z. split; [lia|]. split; [exact Hz|]. right.
      unfold balanceOf. rewrite Hb. split; reflexivity. }
  destruct Hwb as (b & Bb & Eb & Hbal).
  exists (nextId dp), (PartyDoc._id party), b, (Purchase.preSave total p).
  split; [reflexivity|]. split; [exact Bb|]. split; [exact Hbal|].
  unfold live. split; [|split; [|split; [|split; [|split; [|split]]]]].
  - unfold purchaseOf. rewrite Epu, Hpu, find_append, Fn. simpl.
    now rewrite Nat.eqb_refl.
  - reflexivity.
  - reflexivity.
  - exists bags, t, (credited add (total lines) party).
    split; [exact Wb|]. split; [exact Sb|]. split; [exact Ht|].
    split; [exact Bt|]. split.
    { rewrite (dbl_partyOf_credit _ _ _ _ _ dp _ Hf Epa).
      now rewrite Nat.eqb_refl. }
    split.
    { simpl. rewrite Eb, Ht. apply (dbl_plus B E); lia. }
    intros j. rewrite Est, dbl_stockOf_bardanaStock, dbl_stockOf_linesStock.
    rewrite Hst.
    destruct (stockOf j (stock d)) as [s|] eqn:Es; simpl; [|exact I].
    destruct (dbl_stockOf_whole _ _ _ Ws Es) as (n & En & Bn).
    exists n. split; [exact Bn|]. split; [exact En|].
    rewrite (dbl_isUniversalId_shape _ (stock d))
      by apply dbl_shape_linesStock.
    rewrite En.
    apply (dbl_created_stock B M E HM j (isUniversalId (stock d) j)
             lines bags n Wb Sb Bn).
  - intros j Hj. unfold balanceOf.
    rewrite (dbl_partyOf_credit _ j _ _ _ dp _ Hf Epa).
    destruct (PartyDoc._id party =? j)%nat eqn:G.
    + apply Nat.eqb_eq in G. congruence.
    + now rewrite (Ho j Hj).
  - rewrite Est, dbl_shape_bardanaStock, dbl_shape_linesStock.
    now rewrite Hst.
  - rewrite Epu, Hpu. now apply Frm.
Qed.

Lemma dbl_ledgerDelta_frame party t0 t1 (d : Db N) :
  stock (ledgerDelta party t0 t1 d) = stock d
  /\ purchases (ledgerDelta party t0 t1 d) = purchases d.
Proof.
  unfold ledgerDelta. destruct (differs N _ _); split; reflexivity.
Qed.

Lemma dbl_ledgerDelta_party pid party b t0 t1 (d : Db N) :
  partyOf pid d = Some party ->
  (- M <= b <= M)%Z -> (- M <= t0 <= M)%Z -> (- M <= t1 <= M)%Z ->
  PartyDoc.balance party = ofZ N (b + t0) ->
  (exists party',
     partyOf pid (ledgerDelta party (ofZ N t0) (ofZ N t1) d) = Some party'
     /\ PartyDoc.balance party' = ofZ N (b + t1))
  /\ forall j, j <> pid ->
       balanceOf j (ledgerDelta party (ofZ N t0) (ofZ N t1) d) = balanceOf j d.
Proof.
  intros Hf Bb B0 B1 Hb. unfold ledgerDelta.
  rewrite (dbl_differs B E) by lia.
  destruct (Z.eqb_spec t0 t1) as [->|Hne]; simpl.
  - split; [|reflexivity]. exists party. split; assumption.
  - split.
    + exists (credited add (minus N (ofZ N t1) (ofZ N t0)) party). split.
      * rewrite (dbl_partyOf_credited pid pid _ _ _ d d Hf).
        now rewrite Nat.eqb_refl.
      * simpl. rewrite Hb. rewrite (dbl_minus B E) by lia.
        rewrite (dbl_plus B E) by lia. f_equal. lia.
    + intros j Hj. unfold balanceOf.
      rewrite (dbl_partyOf_credited pid j _ _ _ d d Hf).
      destruct (pid =? j)%nat eqn:G; [|reflexivity].
      apply Nat.eqb_eq in G. congruence.
Qed.

Section After.
Variable d0 : Db N.
Hypothesis U0 : uniqueIds (stock d0).

(** An update keeps the purchase live, whatever it answers. *)
Lemma dbl_put_live id pid b pc dk upd :
  (- M <= b <= M)%Z ->
  live total M d0 id pid b pc dk ->
  wholeOrder total M upd ->
  exists pc', live total M d0 id pid b pc' (fst (put id upd dk)).
Proof.
  intros Bb (Hp & Hpid & Htot & (bags & t & party & Wb & Sb & Ht & Bt & Hf
                                 & Hb & Hst) & Ho & Hsh & Hrm) Wo.
  unfold put.
  rewrite (dbl_put_run validate total sameJSON id upd pc pid party dk
             Hp Hpid Hf).
  cbv zeta. destruct (validate _).
  2:{ exists pc. simpl fst. unfold live.
      split; [exact Hp|]. split; [exact Hpid|]. split; [exact Htot|].
      split; [|split; [exact Ho|split; [exact Hsh|exact Hrm]]].
      exists bags, t, party.
      split; [exact Wb|]. split; [exact Sb|]. split; [exact Ht|].
      split; [exact Bt|]. split; [exact Hf|]. split; [exact Hb|exact Hst]. }
  set (q' := Purchase.preSave total (PurchaseRoutes.assign upd pc)).
  set (d1 := setPurchases _ dk).
  assert (Eid : PurchaseDoc._id q' = id) by exact (dbl_purchaseOf_id _ _ _ Hp).
  (* the lines and the total of the updated purchase *)
  assert (Hnew : exists bags' t',
            wholeBags (PurchaseDoc.items q') bags' /\ (sumZ bags' <= M)%Z
            /\ PurchaseDoc.totalAmount q' = ofZ N t' /\ (- M <= t' <= M)%Z
            /\ match PurchaseRoutes.items upd with
               | Some lines =>
                   sameJSON (PurchaseDoc.items pc) lines = true ->
                   bags' = bags
                   /\ forall j, own j lines bags = own j (PurchaseDoc.items pc) bags
               | None => bags' = bags
               end).
  { unfold q'. simpl.
    destruct (PurchaseRoutes.items upd) as [lines|] eqn:El.
    - destruct (Wo lines El) as ((bags' & Wb' & Sb') & (t' & Ht' & Bt')).
      destruct (sameJSON (PurchaseDoc.items pc) lines) eqn:Sj.
      + destruct (J _ _ _ _ Wb Wb' Sj) as [Jid Jq].
        exists bags, t'. split; [now apply (dbl_wholeBags_same _ _ _ Jq)|].
        split; [exact Sb|]. split; [exact Ht'|]. split; [exact Bt'|].
        intros _. split; [reflexivity|]. intros j. symmetry.
        now apply dbl_own_same.
      + exists bags', t'. split; [exact Wb'|]. split; [exact Sb'|].
        split; [exact Ht'|]. split; [exact Bt'|]. intros H; discriminate H.
    - exists bags, t. split; [exact Wb|]. split; [exact Sb|].
      split; [now rewrite <- Htot|]. split; [exact Bt|reflexivity]. }
  destruct Hnew as (bags' & t' & Wb' & Sb' & Ht' & Bt' & Hsame).
  rewrite Ht, Ht'.
  set (d2 := ledgerDelta party (ofZ N t) (ofZ N t') d1).
  exists q'. simpl fst.
  destruct (dbl_restocked_frame (PurchaseDoc.items pc)
              (PurchaseRoutes.items upd) d2) as [Epa Epu].
  destruct (dbl_ledgerDelta_frame party (ofZ N t) (ofZ N t') d1)
    as [Est2 Epu2].
  fold d2 in Est2, Epu2.
  assert (Hf1 : partyOf pid d1 = Some party) by exact Hf.
  destruct (dbl_ledgerDelta_party pid party b t t' d1 Hf1 Bb Bt Bt' Hb)
    as [Hparty Hoth].
  fold d2 in Hparty, Hoth.
  assert (U2 : uniqueIds (stock d2)).
  { rewrite Est2. simpl. eapply dbl_uniqueIds_shape; [|exact U0].
    now symmetry. }
  pose proof (dbl_restocked_stock_eq (PurchaseDoc.items pc)
                (PurchaseRoutes.items upd) d2 U2) as Est.
  rewrite Est2 in Est. simpl stock in Est.
  unfold live. split; [|split; [|split; [|split; [|split; [|split]]]]].
  - unfold purchaseOf. rewrite Epu, Epu2. simpl.
    rewrite dbl_purchase_find_replace, Eid, Nat.eqb_refl.
    unfold purchaseOf in Hp. now rewrite Hp.
  - exact Hpid.
  - reflexivity.
  - destruct Hparty as (party' & Hf' & Hb').
    exists bags', t', party'.
    split; [exact Wb'|]. split; [exact Sb'|]. split; [exact Ht'|].
    split; [exact Bt'|]. split.
    { unfold partyOf. rewrite Epa. exact Hf'. }
    split; [exact Hb'|].
    intros j. specialize (Hst j). rewrite Est.
    unfold q' in *. simpl PurchaseDoc.items in *.
    destruct (PurchaseRoutes.items upd) as [lines|] eqn:El.
    2:{ subst bags'. exact Hst. }
    destruct (sameJSON (PurchaseDoc.items pc) lines) eqn:Sj; simpl.
    + destruct (Hsame eq_refl) as [-> Hown]. rewrite Hown. exact Hst.
    + rewrite dbl_stockOf_bardanaStock, !dbl_stockOf_linesStock.
      destruct (stockOf j (stock d0)) as [s|] eqn:Es,
        (stockOf j (stock dk)) as [v|]; try exact Hst. simpl.
      destruct Hst as (n & Bn & En & Ev). exists n.
      split; [exact Bn|]. split; [exact En|].
      rewrite (dbl_isUniversalId_shape _ (stock d0))
        by (now rewrite !dbl_shape_linesStock).
      rewrite Ev.
      apply (dbl_updated_stock B M E HM j (isUniversalId (stock d0) j)
               (PurchaseDoc.items pc) lines bags bags' n Wb Sb Wb' Sb' Bn).
  - intros j Hj. unfold balanceOf, partyOf. rewrite Epa.
    fold (partyOf j d2). fold (balanceOf j d2). rewrite (Hoth j Hj).
    now apply Ho.
  - rewrite Est. destruct (PurchaseRoutes.items upd) as [lines|];
      [|exact Hsh].
    destruct (negb _); [|exact Hsh].
    now rewrite dbl_shape_bardanaStock, !dbl_shape_linesStock.
  - rewrite Epu, Epu2. simpl. rewrite <- Eid at 1.
    rewrite dbl_purchase_remove_replace, Eid. exact Hrm.
Qed.

(** Deleting a live purchase gives back the ledger and the inventory
    of [d0]. *)
Lemma dbl_delete_live id pid b pc dk :
  (- M <= b <= M)%Z ->
  live total M d0 id pid b pc dk ->
  statusCode (snd (delete id dk)) = 200%nat
  /\ purchases (fst (delete id dk)) = purchases d0
  /\ stock (fst (delete id dk)) = stock d0
  /\ balanceOf pid (fst (delete id dk)) = Some (ofZ N b)
  /\ (forall j, j <> pid ->
        balanceOf j (fst (delete id dk)) = balanceOf j d0).
Proof.
  intros Bb (Hp & Hpid & Htot & (bags & t & party & Wb & Sb & Ht & Bt & Hf
                                 & Hb & Hst) & Ho & Hsh & Hrm).
  unfold delete.
  rewrite (dbl_delete_run id pc pid party dk Hp Hpid Hf).
  cbv zeta. simpl fst. simpl snd.
  set (d1 := unstocked pc dk).
  assert (Uk : uniqueIds (stock dk))
    by (eapply dbl_uniqueIds_shape; [|exact U0]; now symmetry).
  pose proof (dbl_unstocked_stock_eq pc dk Uk) as Est. fold d1 in Est.
  destruct (dbl_unstocked_frame pc dk) as [Epa Epu].
  fold d1 in Epa, Epu.
  assert (Hf1 : partyOf pid d1 = Some party)
    by (unfold partyOf; rewrite Epa; exact Hf).
  split; [reflexivity|]. split.
  { simpl. rewrite Epu. exact Hrm. }
  split.
  { simpl. apply dbl_stock_ext; [exact U0| |].
    - rewrite Est, dbl_shape_bardanaStock, dbl_shape_linesStock.
      now symmetry.
    - intros j. specialize (Hst j).
      rewrite Est, dbl_stockOf_bardanaStock, dbl_stockOf_linesStock.
      destruct (stockOf j (stock d0)) as [s|] eqn:Es,
        (stockOf j (stock dk)) as [v|]; try contradiction; [|reflexivity].
      simpl. destruct Hst as (n & Bn & En & Ev).
      rewrite (dbl_isUniversalId_shape _ (stock d0))
        by (now rewrite dbl_shape_linesStock).
      rewrite Ev, En. f_equal.
      apply (dbl_deleted_stock B M E HM j (isUniversalId (stock d0) j)
               (PurchaseDoc.items pc) bags n Wb Sb Bn). }
  split.
  { unfold balanceOf.
    match goal with |- context [partyOf pid ?s] =>
      rewrite (dbl_partyOf_credit pid pid subtract
                 (PurchaseDoc.totalAmount pc) party d1 s Hf1 eq_refl) end.
    rewrite Nat.eqb_refl. simpl. rewrite Hb, Ht.
    rewrite (dbl_minus B E) by lia. f_equal. f_equal. lia. }
  intros j Hj. rewrite <- (Ho j Hj). unfold balanceOf.
  match goal with |- context [partyOf j ?s] =>
    rewrite (dbl_partyOf_credit pid j subtract
               (PurchaseDoc.totalAmount pc) party d1 s Hf1 eq_refl) end.
  destruct (pid =? j)%nat eqn:G.
  - apply Nat.eqb_eq in G. congruence.
  - unfold partyOf. now rewrite Epa.
Qed.

End After.
End DoublesLife.

(** ** The claim *)

Lemma zrange_in B z : (- B <= z <= B)%Z -> In z (zrange B).
Proof.
  intros H. unfold zrange. apply in_map_iff.
  exists (Z.to_nat (z + B)). split; [lia|].
  apply in_seq. lia.
Qed.

Lemma within_true B z : (- B <= z <= B)%Z -> within B z = true.
Proof.
  intros H. unfold within. apply andb_true_iff. split; apply Z.leb_le; lia.
Qed.

(** The operations of binary64 are exact up to [B] when the trial
    says so. *)
Lemma exactUpTo_exact B :
  exactUpTo B = true -> Doubles.exact (N := Doubles.binary64) B.
Proof.
  unfold exactUpTo. cbv zeta. intros H. rewrite forallb_forall in H.
  assert (P : forall a b,
            (- B <= a <= B)%Z ->
            (- B <= b <= B)%Z ->
            implb (within B (a + b))
              (PrimFloat.Leibniz.eqb
                 (Doubles.ofInteger a + Doubles.ofInteger b)%float
                 (Doubles.ofInteger (a + b))) = true
            /\ implb (within B (a - b))
                 (PrimFloat.Leibniz.eqb
                    (Doubles.ofInteger a - Doubles.ofInteger b)%float
                    (Doubles.ofInteger (a - b))) = true
            /\ negb (PrimFloat.eqb (Doubles.ofInteger a) (Doubles.ofInteger b))
               = negb (a =? b)%Z).
  { intros a b Ha Hb. specialize (H a (zrange_in _ _ Ha)).
    apply andb_true_iff in H as [H _]. apply andb_true_iff in H as [H _].
    rewrite forallb_forall in H. specialize (H b (zrange_in _ _ Hb)).
    apply andb_true_iff in H as [H H3]. apply andb_true_iff in H as [H1 H2].
    split; [exact H1|]. split; [exact H2|]. now apply Bool.eqb_prop. }
  assert (Q : forall a,
            (- B <= a <= B)%Z ->
            implb (within B (30 * a))
              (PrimFloat.Leibniz.eqb
                 (Doubles.ofInteger (30 * a) / Doubles.ofInteger 30)%float
                 (Doubles.ofInteger a)) = true
            /\ PrimFloat.ltb (Doubles.ofInteger a) (Doubles.ofInteger 0)
               = (a <? 0)%Z).
  { intros a Ha. specialize (H a (zrange_in _ _ Ha)).
    apply andb_true_iff in H as [H H2]. apply andb_true_iff in H as [_ H1].
    split; [exact H1|]. now apply Bool.eqb_prop. }
  unfold Doubles.exact.
  cbn [Doubles.num Doubles.ofZ Doubles.plus Doubles.minus Doubles.divide
       Doubles.lessThan Doubles.differs Doubles.binary64].
  split; [|split; [|split; [|split]]].
  - intros a b Ha Hb Hab. destruct (P a b Ha Hb) as (P1 & _).
    rewrite (within_true _ _ Hab) in P1.
    now apply FloatAxioms.Leibniz.eqb_spec.
  - intros a b Ha Hb Hab. destruct (P a b Ha Hb) as (_ & P2 & _).
    rewrite (within_true _ _ Hab) in P2.
    now apply FloatAxioms.Leibniz.eqb_spec.
  - intros k Hk. assert (Ha : (- B <= k <= B)%Z) by lia.
    destruct (Q k Ha) as (Q1 & _). rewrite (within_true _ _ Hk) in Q1.
    now apply FloatAxioms.Leibniz.eqb_spec.
  - intros a Ha. now destruct (Q a Ha).
  - intros a b Ha Hb. now destruct (P a b Ha Hb) as (_ & _ & P3).
Qed.

(** C1 (amended).  In any number type whose operations are exact on
    the integers up to [B], as those of binary64 are up to 2^53: a
    purchase of whole bags (every quantity a multiple of 30 kg that is
    not negative), created, updated and deleted one after the other
    while no item lookup rejects, on a store whose stocks are whole bags
    and whose balances are integers, all at most [M] = [B]/30, leaves no
    net effect, whatever the update answers.  After the delete the item
    collection is the one before the create, stock by stock, the
    universal Bardana item included; the balance of every party is what
    it was (a party that the create made keeps balance 0); and the
    purchase record is gone. *)
Theorem whole_bags_round_trip (N : Doubles.Number) (B M : Z)
    (validate : Doubles.PurchaseDoc.t N -> bool)
    (total : list (Doubles.LineItem.t N) -> Doubles.num N)
    (nextBillNumber : list (Doubles.PurchaseDoc.t N) -> string)
    (sameJSON : list (Doubles.LineItem.t N) -> list (Doubles.LineItem.t N)
                -> bool)
    (body upd : Doubles.PurchaseRoutes.Body N) (d : Doubles.Db N) :
  Doubles.exact (N := N) B ->
  (0 <= M)%Z /\ (30 * M <= B)%Z ->
  Doubles.comparesTexts sameJSON ->
  Doubles.wellFormed d ->
  Doubles.wholeStore M d ->
  Doubles.wholeOrder total M body ->
  Doubles.wholeOrder total M upd ->
  statusCode
    (snd (Doubles.PurchaseRoutes.post validate total nextBillNumber noFault
            false body d)) = 201%nat ->
  exists id,
    docId
      (snd (Doubles.PurchaseRoutes.post validate total nextBillNumber noFault
              false body d)) = Some id
    /\ let d1 :=
         fst (Doubles.PurchaseRoutes.post validate total nextBillNumber
                noFault false body d) in
       let d2 :=
         fst (Doubles.PurchaseRoutes.put validate total sameJSON noFault false
                id upd d1) in
       let d3 := fst (Doubles.PurchaseRoutes.delete noFault false id d2) in
       statusCode (snd (Doubles.PurchaseRoutes.delete noFault false id d2))
       = 200%nat
       /\ Doubles.purchases d3 = Doubles.purchases d
       /\ Doubles.stock d3 = Doubles.stock d
       /\ (forall j,
             Doubles.settled (Doubles.balanceOf j d) (Doubles.balanceOf j d3)).
Proof.
  intros E HM J W Ws Wb Wu C.
  destruct (dbl_post_live validate total nextBillNumber B M E HM
              body d _ _ W Ws Wb (surjective_pairing _) C)
    as (id & pid & b & pc & Hid & Bb & Hb & L).
  exists id. split; [exact Hid|]. cbv zeta.
  destruct W as (_ & U & _).
  destruct (dbl_put_live validate total sameJSON B M E HM J d U
              id pid b pc _ upd Bb L Wu) as (pc' & L').
  destruct (dbl_delete_live total B M E HM d U id pid b pc' _ Bb L')
    as (C3 & Hpu & Hst & Hbal & Hoth).
  split; [exact C3|]. split; [exact Hpu|]. split; [exact Hst|].
  intros j. destruct (Nat.eq_dec j pid) as [->|Hj].
  - rewrite Hbal. destruct Hb as [-> | [-> ->]]; simpl; [reflexivity|].
    right. reflexivity.
  - rewrite (Hoth j Hj). unfold Doubles.settled.
    destruct (Doubles.balanceOf j d); [reflexivity|now left].
Qed.

Lemma whole_bags_round_trip_witness :
  exists id,
    docId
      (snd (Doubles.PurchaseRoutes.post accepts64 total64 billNumber64 noFault
              false (order64 (wheat64 30 0.5)) (shop64 2))) = Some id
    /\ let d1 :=
         fst (Doubles.PurchaseRoutes.post accepts64 total64 billNumber64
                noFault false (order64 (wheat64 30 0.5)) (shop64 2)) in
       let d2 :=
         fst (Doubles.PurchaseRoutes.put accepts64 total64 textsDiffer noFault
                false id (revision64 (wheat64 60 0)) d1) in
       let d3 := fst (Doubles.PurchaseRoutes.delete noFault false id d2) in
       statusCode (snd (Doubles.PurchaseRoutes.delete noFault false id d2))
       = 200%nat
       /\ Doubles.purchases d3 = Doubles.purchases (shop64 2)
       /\ Doubles.stock d3 = Doubles.stock (shop64 2)
       /\ (forall j,
             Doubles.settled (Doubles.balanceOf j (shop64 2))
               (Doubles.balanceOf j d3)).
Proof.
  apply (whole_bags_round_trip Doubles.binary64 450 15 accepts64 total64
           billNumber64 textsDiffer (order64 (wheat64 30 0.5))
           (revision64 (wheat64 60 0)) (shop64 2)).
  - apply exactUpTo_exact. vm_compute. reflexivity.
  - lia.
  - intros a b bagsA bagsB _ _ H. discriminate H.
  - split; [split; constructor|split; [|constructor]].
    unfold Doubles.uniqueIds. simpl.
    constructor; [simpl; intuition discriminate|].
    constructor; [simpl; intuition|constructor].
  - split; [|constructor].
    constructor; [exists 2%Z; split; [reflexivity|lia]|].
    constructor; [exists 2%Z; split; [reflexivity|lia]|constructor].
  - intros lines [= <-]. split.
    + exists [1%Z]. split; [|simpl; lia].
      constructor; [split; [reflexivity|lia]|constructor].
    + exists 15%Z. split; [reflexivity|lia].
  - intros lines [= <-]. split.
    + exists [2%Z]. split; [|simpl; lia].
      constructor; [split; [reflexivity|lia]|constructor].
    + exists 0%Z. split; [reflexivity|lia].
  - reflexivity.
Defined.

(** The round trip of C1 fails in binary64 in three ways.  By
    rounding: 12 kg bought into a stock of 1 bag, then the purchase
    marked completed and deleted, leave 0.9999999999999999 bags
    (0x1.fffffffffffffp-1) of the item and of Bardana.  By the clamp:
    30 kg bought into an empty shop, the quantity updated to -30 kg,
    then the purchase deleted, leave 1 bag of Bardana.  By a lookup that
    rejects: when the lookup of the item rejects during the creation of
    a purchase of 30 kg, the delete takes a bag that was never added
    from a stock of 5. *)
Lemma round_trip_breaks_in_binary64 :
  (Doubles.stockOf 2 (Doubles.stock (shop64 1)) = Some 1%float
   /\ Doubles.stock
        (roundTrip64 noFault (shop64 1) (order64 (wheat64 12 5)) completed64)
      = Doubles.stock (shop64 0x1.fffffffffffffp-1))
  /\ (Doubles.stockOf 1 (Doubles.stock (shop64 0)) = Some 0%float
      /\ Doubles.stockOf 1
           (Doubles.stock
              (roundTrip64 noFault (shop64 0) (order64 (wheat64 30 5))
                 (revision64 (wheat64 (-30) 5))))
         = Some 1%float)
  /\ (Doubles.stockOf 2 (Doubles.stock (shop64 5)) = Some 5%float
      /\ Doubles.stockOf 2
           (Doubles.stock
              (roundTrip64 (failsOn 2) (shop64 5) (order64 (wheat64 30 5))
                 completed64))
         = Some 4%float).
Proof. vm_compute. repeat split. Qed.
